(** * web_scraper: the fetch executors and the monitoring core

    A shallow embedding of [src/utils.py] (validate_url), [src/scraper.py]
    (WebScraper, AsyncWebScraper) and [src/monitoring.py] (ScrapingMetrics,
    PerformanceMonitor, ProgressTracker, ScrapingMonitor), followed by the
    properties of the specification that concern them.

    Conventions.
    - A Python [int] is a [Z]; a Python [float] is a binary64 value, the
      primitive [float] of the prover; [str] is [string]; [None]-able
      arguments are [option]s; a [dict] used as a histogram is a [gmap].
    - A [datetime] is its number of microseconds since the epoch, a
      [timedelta] a number of microseconds.
    - Code that raises returns its exception as a value.
    - Logging is left out, and so is the report file of [end_session]; the
      console is what the progress display prints to, and it can refuse.
    - A counter grows by one per call: where a counter is divided or
      converted to a float, it is taken to be in the range of a float.  The
      total of a session is an argument and can be any [int]: the progress
      display raises where the total, or an estimate computed from it, is
      out of range.
    - Library calls whose result the repository does not determine (the URL
      parser, the network, the random generator, the clock, the HTML parser)
      are fields of the records [Runtime] and [Environment]; every theorem
      holds for all of them. *)

From Stdlib Require Import ZArith Lia Bool List String Ascii Floats.
From stdpp Require Import gmap strings list pretty.

Local Open Scope Z_scope.

(** ** Python arithmetic on [int] and [float] *)

Module PyNum.

(** [float(n)] for an [int] [n]: the nearest binary64 value. *)
Definition float_of_int (n : Z) : float :=
  SF2Prim (binary_normalize prec emax n 0 false).

(** [a / b] on two [int]s: true division, the exact quotient rounded once to
    the nearest binary64 value.  Python raises ZeroDivisionError for [b = 0];
    every division below is guarded by its caller, the model answers [nan]. *)
Definition int_truediv (a b : Z) : float :=
  match a, b with
  | _, Z0 => nan
  | Z0, Zpos _ => zero
  | Z0, Zneg _ => neg_zero
  | Zpos p, Zpos q =>
      SF2Prim (SFdiv prec emax (S754_finite false p 0) (S754_finite false q 0))
  | Zpos p, Zneg q =>
      SF2Prim (SFdiv prec emax (S754_finite false p 0) (S754_finite true q 0))
  | Zneg p, Zpos q =>
      SF2Prim (SFdiv prec emax (S754_finite true p 0) (S754_finite false q 0))
  | Zneg p, Zneg q =>
      SF2Prim (SFdiv prec emax (S754_finite true p 0) (S754_finite true q 0))
  end.

(** [x / n] for a [float] [x] and an [int] [n]. *)
Definition float_div_int (x : float) (n : Z) : float :=
  (x / float_of_int n)%float.

(** [bool(x)] for a [float]: true unless [x == 0]. *)
Definition float_truthy (x : float) : bool := negb (PrimFloat.eqb x 0%float).

(** [x > y] on floats. *)
Definition float_gt (x y : float) : bool := PrimFloat.ltb y x.

(** [bool(x)] for an optional float argument ([None] is falsy). *)
Definition opt_float_truthy (x : option float) : bool :=
  match x with Some v => float_truthy v | None => false end.

(** [bool(n)] for an optional int argument. *)
Definition opt_int_truthy (n : option Z) : bool :=
  match n with Some v => negb (v =? 0) | None => false end.

(** [bool(s)] for an optional string argument. *)
Definition opt_str_truthy (s : option string) : bool :=
  match s with Some EmptyString => false | Some _ => true | None => false end.

(** Rounding of the exact quotient [num / den] to an integer, ties to even. *)
Definition round_half_even (num den : Z) : Z :=
  let q := num / den in
  let r := num mod den in
  match (2 * r ?= den) with
  | Lt => q
  | Gt => q + 1
  | Eq => if Z.even q then q else q + 1
  end.

(** The integer nearest to [m * 2^e * 10^k]. *)
Definition scaled_round (k : nat) (m : positive) (e : Z) : Z :=
  round_half_even (Zpos m * 10 ^ Z.of_nat k * 2 ^ Z.max e 0) (2 ^ Z.max (- e) 0).

Fixpoint zeros (k : nat) : string :=
  match k with O => EmptyString | S k' => String "0" (zeros k') end.

Definition pad_left (k : nat) (s : string) : string :=
  zeros (k - String.length s) +:+ s.

Definition sign_text (s : bool) : string := if s then "-" else EmptyString.

Definition fraction_text (k : nat) (v : Z) : string :=
  match k with
  | O => EmptyString
  | S _ => "." +:+ pad_left k (pretty (v mod 10 ^ Z.of_nat k))
  end.

(** [format(x, '.kf')]: fixed notation with [k] decimals, the exact binary
    value rounded to nearest, ties to even. *)
Definition format_fixed (k : nat) (x : float) : string :=
  match Prim2SF x with
  | S754_nan => "nan"
  | S754_infinity s => sign_text s +:+ "inf"
  | S754_zero s => sign_text s +:+ "0" +:+ fraction_text k 0
  | S754_finite s m e =>
      let v := scaled_round k m e in
      sign_text s +:+ pretty (v / 10 ^ Z.of_nat k) +:+ fraction_text k v
  end.

(** [round(x, k)]: the float nearest to the decimal with [k] fractional
    digits that is nearest to [x].  The sign of [x] is kept when the
    decimal is zero. *)
Definition round_ndigits (k : nat) (x : float) : float :=
  match Prim2SF x with
  | S754_finite s m e =>
      let v := scaled_round k m e in
      if v =? 0 then (if s then neg_zero else zero)
      else int_truediv (if s then - v else v) (10 ^ Z.of_nat k)
  | _ => x
  end.

End PyNum.

Import PyNum.

(** ** Library calls taken as given *)

(** What [urllib.parse.urlparse] returns, as far as the code reads it. *)
Record ParseResult := { scheme : string; netloc : string }.

(** Pure library functions.  [urlparse] answers [None] where the library
    raises. *)
Record Runtime := {
  urlparse : string -> option ParseResult;
  float_repr : float -> string;             (* str(x), as an f-string prints x *)
  statistics_mean : list float -> float;    (* statistics.mean *)
  html_title : string -> string             (* text of the <title> tag, '' if none *)
}.

(** An exception, with the text [str(e)] gives.  The retry loop tells
    [requests.exceptions.RequestException] (and its subclasses, HTTPError
    among them) from every other exception. *)
Inductive PyExn :=
  | RequestException (msg : string)
  | OtherException (msg : string).

Definition str_exn (e : PyExn) : string :=
  match e with RequestException m => m | OtherException m => m end.

Inductive Outcome (A : Type) :=
  | Return (a : A)
  | Raise (e : PyExn).
Arguments Return {A} a.
Arguments Raise {A} e.

(** ** Arithmetic that raises

    Where an [int] of any size meets a [float], and where a [float] is
    turned into an [int], Python raises rather than answer an infinity. *)

Module PyChecked.

Definition is_finite (x : float) : bool :=
  match Prim2SF x with
  | S754_zero _ | S754_finite _ _ _ => true
  | S754_infinity _ | S754_nan => false
  end.

(** The conversion of the [int] operand of a float operation. *)
Definition as_float (n : Z) : Outcome float :=
  let x := float_of_int n in
  if is_finite x then Return x
  else Raise (OtherException "int too large to convert to float").

(** [a / b] on two [int]s. *)
Definition truediv (a b : Z) : Outcome float :=
  if b =? 0 then Raise (OtherException "division by zero")
  else
    let q := int_truediv a b in
    if is_finite q then Return q
    else Raise (OtherException "integer division result too large for a float").

(** [int(x)] for a [float]: truncation toward zero. *)
Definition int_of_float (x : float) : Outcome Z :=
  match Prim2SF x with
  | S754_nan => Raise (OtherException "cannot convert float NaN to integer")
  | S754_infinity _ =>
      Raise (OtherException "cannot convert float infinity to integer")
  | S754_zero _ => Return 0
  | S754_finite s m e =>
      let v := if 0 <=? e then Zpos m * 2 ^ e else Zpos m / 2 ^ (- e) in
      Return (if s then - v else v)
  end.

(** [timedelta(seconds=n)] for an [int] [n], in microseconds: the days must
    have a magnitude of at most 999999999, and fit a C int for the message
    to name them. *)
Definition timedelta_of_seconds (n : Z) : Outcome Z :=
  let days := n / 86400 in
  if (-999999999 <=? days) && (days <=? 999999999) then Return (n * 1000000)
  else if (-2147483648 <=? days) && (days <=? 2147483647) then
    Raise (OtherException
             ("days=" +:+ pretty days +:+ "; must have magnitude <= 999999999"))
  else Raise (OtherException "Python int too large to convert to C int").

End PyChecked.

(** A value of a result mapping. *)
Inductive PyVal := VStr (s : string) | VInt (n : Z).

(** A [Dict[str, Any]] in insertion order. *)
Definition PyDict := list (string * PyVal).

(** An HTTP response: its status, its body, and the text of the HTTPError
    that [raise_for_status] raises for it when the status is an error. *)
Record Response := {
  resp_status : Z;
  resp_text : string;
  http_error_text : string
}.

Inductive GetResult :=
  | Got (r : Response)
  | GetRaised (e : PyExn).

(** The world outside: the [n]-th random draw, the answer to the [n]-th
    request, the browser, the default extractor and the clock. *)
Record Environment := {
  uniform : nat -> float -> float -> float;         (* random.uniform(a, b) *)
  session_get : nat -> string -> GetResult;         (* session.get(url, timeout) *)
  selenium_source : nat -> string -> Outcome string; (* driver.get(url); page_source *)
  default_extract : string -> string -> Outcome PyDict; (* _default_extract(soup, url) *)
  aio_get : nat -> string -> GetResult;             (* aiohttp session.get(url), response.text() *)
  clock : nat -> Z                                   (* datetime.now() *)
}.

(** ** src/utils.py *)

Module Utils.

Definition str_truthy (s : string) : bool :=
  match s with EmptyString => false | String _ _ => true end.

(** [validate_url]: [all([result.scheme, result.netloc])], [False] when the
    parser raises. *)
Definition validate_url (rt : Runtime) (url : string) : bool :=
  match urlparse rt url with
  | Some result => str_truthy (scheme result) && str_truthy (netloc result)
  | None => false
  end.

End Utils.

(** ** src/scraper.py *)

Module Scraper.

Import Utils.

Record ScrapingResult := {
  url : string;
  status_code : Z;
  success : bool;
  data : PyDict;
  timestamp : Z;
  error_message : option string
}.

(** [self.stats]. *)
Record Stats := {
  requests_made : Z;
  successful_requests : Z;
  failed_requests : Z;
  total_delay_time : float
}.

(** The attributes of a [WebScraper] that the fetch path reads or writes. *)
Record WebScraper := {
  delay : float;
  max_retries : Z;
  timeout : Z;
  use_selenium : bool;
  custom_extractor : option (string -> Outcome PyDict);
  stats : Stats
}.

(** What the executor does to the world, in order. *)
Inductive Effect :=
  | Sleep (secs : float)        (* time.sleep(delay_time) *)
  | Backoff (secs : Z)          (* time.sleep(2 ** attempt) *)
  | HttpGet (target : string)   (* session.get *)
  | Browse (target : string).   (* driver.get *)

Record World := {
  effects : list Effect;   (* oldest first *)
  draws : nat;             (* random numbers drawn so far *)
  requests : nat           (* requests issued so far *)
}.

Definition new_world : World := {| effects := []; draws := 0; requests := 0 |}.

(** [WebScraper.__init__], the statistics part. *)
Definition new_stats : Stats :=
  {| requests_made := 0; successful_requests := 0; failed_requests := 0;
     total_delay_time := 0%float |}.

Definition new_scraper (d : float) (retries tmo : Z) (selenium : bool) : WebScraper :=
  {| delay := d; max_retries := retries; timeout := tmo; use_selenium := selenium;
     custom_extractor := None; stats := new_stats |}.

Definition set_custom_extractor (f : string -> Outcome PyDict) (s : WebScraper) : WebScraper :=
  {| delay := delay s; max_retries := max_retries s; timeout := timeout s;
     use_selenium := use_selenium s; custom_extractor := Some f; stats := stats s |}.

Definition with_stats (s : WebScraper) (st : Stats) : WebScraper :=
  {| delay := delay s; max_retries := max_retries s; timeout := timeout s;
     use_selenium := use_selenium s; custom_extractor := custom_extractor s;
     stats := st |}.

Definition perform (e : Effect) (w : World) : World :=
  {| effects := effects w ++ [e]; draws := draws w; requests := requests w |}.

(** The jittered pause before a request:
    [delay_time = delay + random.uniform(0, delay * 0.5)], slept and then
    added to [total_delay_time]. *)
Definition delay_time (env : Environment) (s : WebScraper) (w : World) : float :=
  (delay s + uniform env (draws w) 0 (delay s * 0.5))%float.

Definition pause (env : Environment) (s : WebScraper) (w : World) : WebScraper * World :=
  if float_gt (delay s) 0 then
    let d := delay_time env s w in
    (with_stats s
       {| requests_made := requests_made (stats s);
          successful_requests := successful_requests (stats s);
          failed_requests := failed_requests (stats s);
          total_delay_time := (total_delay_time (stats s) + d)%float |},
     {| effects := effects w ++ [Sleep d]; draws := S (draws w);
        requests := requests w |})
  else (s, w).

(** [session.get(url, timeout=...)] followed by [raise_for_status()], which
    raises HTTPError for a status from 400 to 599. *)
Definition is_error_status (status : Z) : bool :=
  (400 <=? status) && (status <? 600).

Definition get_checked (env : Environment) (target : string) (w : World)
  : World * Outcome Response :=
  let w' := {| effects := effects w ++ [HttpGet target]; draws := draws w;
               requests := S (requests w) |} in
  match session_get env (requests w) target with
  | Got r =>
      if is_error_status (resp_status r)
      then (w', Raise (RequestException (http_error_text r)))
      else (w', Return r)
  | GetRaised e => (w', Raise e)
  end.

Definition count_success (s : WebScraper) : WebScraper :=
  with_stats s
    {| requests_made := requests_made (stats s) + 1;
       successful_requests := successful_requests (stats s) + 1;
       failed_requests := failed_requests (stats s);
       total_delay_time := total_delay_time (stats s) |}.

Definition count_failure (s : WebScraper) : WebScraper :=
  with_stats s
    {| requests_made := requests_made (stats s);
       successful_requests := successful_requests (stats s);
       failed_requests := failed_requests (stats s) + 1;
       total_delay_time := total_delay_time (stats s) |}.

(** The body of [for attempt in range(self.max_retries + 1)], with [k]
    iterations left.  Falling off the end of the loop returns [None]. *)
Fixpoint attempt_loop (env : Environment) (target : string) (k : nat) (attempt : Z)
    (s : WebScraper) (w : World) : WebScraper * World * Outcome (option Response) :=
  match k with
  | O => (s, w, Return None)
  | S k' =>
      let '(s1, w1) := pause env s w in
      match get_checked env target w1 with
      | (w2, Return r) => (count_success s1, w2, Return (Some r))
      | (w2, Raise (RequestException m)) =>
          if attempt =? max_retries s1
          then (count_failure s1, w2, Raise (RequestException m))
          else attempt_loop env target k' (attempt + 1) s1
                 (perform (Backoff (2 ^ attempt)) w2)
      | (w2, Raise (OtherException m)) => (s1, w2, Raise (OtherException m))
      end
  end.

Definition _make_request (env : Environment) (target : string)
    (s : WebScraper) (w : World) : WebScraper * World * Outcome (option Response) :=
  attempt_loop env target (Z.to_nat (max_retries s + 1)) 0 s w.

(** [_parse_with_selenium]: the page source, or the exception re-raised. *)
Definition _parse_with_selenium (env : Environment) (target : string) (w : World)
  : World * Outcome string :=
  (perform (Browse target) w, selenium_source env (List.length (effects w)) target).

Definition failure_result (env : Environment) (target : string) (w : World)
    (msg : string) : ScrapingResult :=
  {| url := target; status_code := 0; success := false; data := [];
     timestamp := clock env (List.length (effects w)); error_message := Some msg |}.

Definition success_result (env : Environment) (target : string) (w : World)
    (status : Z) (d : PyDict) : ScrapingResult :=
  {| url := target; status_code := status; success := true; data := d;
     timestamp := clock env (List.length (effects w)); error_message := None |}.

(** The document and status the [try] block obtains: through the browser
    (status 200) or through [_make_request].  A [None] response makes
    [response.text] raise AttributeError. *)
Definition fetch_document (env : Environment) (target : string)
    (s : WebScraper) (w : World) : WebScraper * World * Outcome (string * Z) :=
  if use_selenium s then
    match _parse_with_selenium env target w with
    | (w1, Return soup) => (s, w1, Return (soup, 200))
    | (w1, Raise e) => (s, w1, Raise e)
    end
  else
    match _make_request env target s w with
    | (s1, w1, Return (Some r)) => (s1, w1, Return (resp_text r, resp_status r))
    | (s1, w1, Return None) =>
        (s1, w1, Raise (OtherException "'NoneType' object has no attribute 'text'"))
    | (s1, w1, Raise e) => (s1, w1, Raise e)
    end.

Definition run_extractor (env : Environment) (s : WebScraper) (soup target : string)
  : Outcome PyDict :=
  match custom_extractor s with
  | Some f => f soup
  | None => default_extract env soup target
  end.

Definition scrape_url (rt : Runtime) (env : Environment) (target : string)
    (s : WebScraper) (w : World) : WebScraper * World * ScrapingResult :=
  if negb (validate_url rt target) then
    (s, w, failure_result env target w "Invalid URL")
  else
    match fetch_document env target s w with
    | (s1, w1, Return (soup, status)) =>
        match run_extractor env s1 soup target with
        | Return d => (s1, w1, success_result env target w1 status d)
        | Raise e => (s1, w1, failure_result env target w1 (str_exn e))
        end
    | (s1, w1, Raise e) => (s1, w1, failure_result env target w1 (str_exn e))
    end.

(** [scrape_multiple_urls]: one [scrape_url] per element, results appended
    in order. *)
Fixpoint scrape_loop (rt : Runtime) (env : Environment) (urls : list string)
    (results : list ScrapingResult) (s : WebScraper) (w : World)
  : WebScraper * World * list ScrapingResult :=
  match urls with
  | [] => (s, w, results)
  | u :: rest =>
      let '(s1, w1, result) := scrape_url rt env u s w in
      scrape_loop rt env rest (results ++ [result]) s1 w1
  end.

Definition scrape_multiple_urls (rt : Runtime) (env : Environment)
    (urls : list string) (s : WebScraper) (w : World)
  : WebScraper * World * list ScrapingResult :=
  scrape_loop rt env urls [] s w.

(** The dictionary of [get_stats]: the counters and two derived entries. *)
Record StatsReport := {
  report_stats : Stats;
  success_rate : float;
  average_delay : float
}.

Definition get_stats (s : WebScraper) : StatsReport :=
  {| report_stats := stats s;
     success_rate :=
       (int_truediv (successful_requests (stats s))
          (Z.max 1 (requests_made (stats s)))
        * float_of_int 100)%float;
     average_delay :=
       float_div_int (total_delay_time (stats s))
         (Z.max 1 (requests_made (stats s))) |}.

End Scraper.

(** ** src/scraper.py, AsyncWebScraper *)

Module AsyncScraper.

Import Scraper.

Record AsyncWebScraper := {
  max_concurrent : Z;
  delay : float;
  timeout : Z
}.

(** Where one [_fetch_url] coroutine stands. *)
Inductive Phase :=
  | Waiting                  (* not yet inside [async with self.semaphore] *)
  | Sleeping                 (* holds a permit, in [asyncio.sleep(self.delay)] *)
  | Requesting (n : nat)     (* in [session.get] / [response.text()], request number n *)
  | Finished (r : ScrapingResult).

Inductive Effect :=
  | Acquire (target : string)
  | AsyncSleep (secs : float)
  | AsyncGet (target : string)
  | Release (target : string).

(** The event loop's view of a batch: the permits left in the semaphore,
    the coroutines in the order [gather] received them, the number of
    requests issued and the effects so far. *)
Record Batch := {
  permits : Z;
  tasks : list (string * Phase);
  issued : nat;
  effects : list Effect
}.

(** The outcome [_fetch_url] builds from the answer to its request: the
    status of any response is copied and the outcome is a success; an
    exception gives a failure. *)
Definition fetch_result (rt : Runtime) (env : Environment) (target : string)
    (n : nat) (stamp : nat) : ScrapingResult :=
  match aio_get env n target with
  | Got r =>
      {| url := target; status_code := resp_status r; success := true;
         data := [("url"%string, VStr target);
                  ("title"%string, VStr (html_title rt (resp_text r)));
                  ("text_length"%string, VInt (Z.of_nat (String.length (resp_text r))))];
         timestamp := clock env stamp; error_message := None |}
  | GetRaised e =>
      {| url := target; status_code := 0; success := false; data := [];
         timestamp := clock env stamp; error_message := Some (str_exn e) |}
  end.

(** The event loop resumes coroutine [i] until its next suspension point.
    A coroutine waiting for a permit stays where it is when none is left. *)
Definition advance (rt : Runtime) (env : Environment) (s : AsyncWebScraper)
    (i : nat) (b : Batch) : Batch :=
  match tasks b !! i with
  | Some (target, Waiting) =>
      if 0 <? permits b then
        {| permits := permits b - 1;
           tasks := <[i := (target, Sleeping)]> (tasks b);
           issued := issued b;
           effects := effects b ++ [Acquire target; AsyncSleep (delay s)] |}
      else b
  | Some (target, Sleeping) =>
      {| permits := permits b;
         tasks := <[i := (target, Requesting (issued b))]> (tasks b);
         issued := S (issued b);
         effects := effects b ++ [AsyncGet target] |}
  | Some (target, Requesting n) =>
      {| permits := permits b + 1;
         tasks := <[i := (target, Finished (fetch_result rt env target n
                                              (List.length (effects b))))]> (tasks b);
         issued := issued b;
         effects := effects b ++ [Release target] |}
  | Some (_, Finished _) => b
  | None => b
  end.

(** [tasks = [self._fetch_url(session, url) for url in urls]]. *)
Definition spawn (s : AsyncWebScraper) (urls : list string) : Batch :=
  {| permits := max_concurrent s;
     tasks := map (fun u => (u, Waiting)) urls;
     issued := 0;
     effects := [] |}.

Definition run (rt : Runtime) (env : Environment) (s : AsyncWebScraper)
    (schedule : list nat) (b : Batch) : Batch :=
  fold_left (fun acc i => advance rt env s i acc) schedule b.

Definition finished (t : string * Phase) : option ScrapingResult :=
  match snd t with Finished r => Some r | _ => None end.

(** [await asyncio.gather] over the coroutines: once every coroutine has returned, the
    list of their results in the order of [tasks]. *)
Definition gather (b : Batch) : option (list ScrapingResult) :=
  mapM finished (tasks b).

(** [scrape_multiple_async] under a schedule of the event loop: the list it
    returns, or [None] while the join is still pending. *)
Definition scrape_multiple_async (rt : Runtime) (env : Environment)
    (s : AsyncWebScraper) (urls : list string) (schedule : list nat)
  : option (list ScrapingResult) :=
  gather (run rt env s schedule (spawn s urls)).

End AsyncScraper.

(** ** src/monitoring.py *)

Module Monitoring.

(** *** ScrapingMetrics *)

Record ScrapingMetrics := {
  start_time : Z;
  end_time : option Z;
  total_urls : Z;
  successful_requests : Z;
  failed_requests : Z;
  total_bytes_downloaded : Z;
  total_processing_time : float;
  average_response_time : float;
  requests_per_second : float;
  errors_by_type : gmap string Z;
  status_codes : gmap Z Z;
  domain_stats : gmap string Z
}.

(** [ScrapingMetrics()] at clock reading [now]. *)
Definition new_metrics (now : Z) : ScrapingMetrics :=
  {| start_time := now; end_time := None; total_urls := 0;
     successful_requests := 0; failed_requests := 0;
     total_bytes_downloaded := 0; total_processing_time := 0%float;
     average_response_time := 0%float; requests_per_second := 0%float;
     errors_by_type := ∅; status_codes := ∅; domain_stats := ∅ |}.

(** The [duration] property: [(self.end_time or datetime.now()) - start_time],
    a timedelta, at clock reading [now]. *)
Definition duration (m : ScrapingMetrics) (now : Z) : Z :=
  match end_time m with
  | Some e => e - start_time m
  | None => now - start_time m
  end.

(** [timedelta.total_seconds()]. *)
Definition total_seconds (td : Z) : float := int_truediv td 1000000.

(** The [success_rate] property. *)
Definition success_rate (m : ScrapingMetrics) : float :=
  let total := successful_requests m + failed_requests m in
  if 0 <? total
  then (int_truediv (successful_requests m) total * float_of_int 100)%float
  else 0%float.

(** The dictionary [to_dict] builds; the two time stamps stand for their
    ISO texts. *)
Record MetricsDict := {
  d_start_time : Z;
  d_end_time : option Z;
  d_duration_seconds : float;
  d_total_urls : Z;
  d_successful_requests : Z;
  d_failed_requests : Z;
  d_success_rate : float;
  d_total_bytes_downloaded : Z;
  d_total_processing_time : float;
  d_average_response_time : float;
  d_requests_per_second : float;
  d_errors_by_type : gmap string Z;
  d_status_codes : gmap Z Z;
  d_domain_stats : gmap string Z
}.

Definition to_dict (m : ScrapingMetrics) (now : Z) : MetricsDict :=
  {| d_start_time := start_time m;
     d_end_time := end_time m;
     d_duration_seconds := total_seconds (duration m now);
     d_total_urls := total_urls m;
     d_successful_requests := successful_requests m;
     d_failed_requests := failed_requests m;
     d_success_rate := success_rate m;
     d_total_bytes_downloaded := total_bytes_downloaded m;
     d_total_processing_time := total_processing_time m;
     d_average_response_time := average_response_time m;
     d_requests_per_second := requests_per_second m;
     d_errors_by_type := errors_by_type m;
     d_status_codes := status_codes m;
     d_domain_stats := domain_stats m |}.

(** *** PerformanceMonitor *)

(** One measurement of [_monitor_loop]. *)
Record Sample := {
  sample_timestamp : Z;
  cpu_percent : float;
  memory_percent : float;
  memory_used_mb : float;
  disk_io : PyDict;
  network_io : PyDict;
  process_count : Z
}.

(** [collections.deque(maxlen=n).append(x)]: append on the right, then drop
    the leftmost element if the bound is exceeded. *)
Definition deque_append {A} (maxlen : nat) (x : A) (d : list A) : list A :=
  let d' := d ++ [x] in
  if (maxlen <? List.length d')%nat then drop 1 d' else d'.

Definition history_maxlen : nat := 1000.

Record PerformanceMonitor := {
  interval : float;
  monitoring : bool;
  metrics_history : list Sample     (* deque(maxlen=1000), oldest first *)
}.

Definition new_performance_monitor (i : float) : PerformanceMonitor :=
  {| interval := i; monitoring := false; metrics_history := [] |}.

Definition start_monitoring (pm : PerformanceMonitor) : PerformanceMonitor :=
  if monitoring pm then pm
  else {| interval := interval pm; monitoring := true;
          metrics_history := metrics_history pm |}.

Definition stop_monitoring (pm : PerformanceMonitor) : PerformanceMonitor :=
  {| interval := interval pm; monitoring := false;
     metrics_history := metrics_history pm |}.

(** One turn of [while self.monitoring] in [_monitor_loop]: the measurement
    is appended, or nothing happens when taking it raised ([None]). *)
Definition monitor_wake (capture : option Sample) (pm : PerformanceMonitor)
  : PerformanceMonitor :=
  if monitoring pm then
    match capture with
    | Some m =>
        {| interval := interval pm; monitoring := monitoring pm;
           metrics_history := deque_append history_maxlen m (metrics_history pm) |}
    | None => pm
    end
  else pm.

Definition _monitor_loop (captures : list (option Sample)) (pm : PerformanceMonitor)
  : PerformanceMonitor :=
  fold_left (fun acc c => monitor_wake c acc) captures pm.

(** The non-empty answer of [get_current_stats]. *)
Record SystemStats := {
  avg_cpu_percent : float;
  avg_memory_percent : float;
  current_memory_mb : float;
  measurements_count : Z;
  monitoring_duration_minutes : float
}.

(** [get_current_stats]; [None] stands for the empty dictionary. *)
Definition get_current_stats (rt : Runtime) (pm : PerformanceMonitor)
  : option SystemStats :=
  let history := metrics_history pm in
  let recent := drop (List.length history - 10)%nat history in
  match last recent with
  | None => None
  | Some newest =>
      Some {| avg_cpu_percent :=
                round_ndigits 2 (statistics_mean rt (map cpu_percent recent));
              avg_memory_percent :=
                round_ndigits 2 (statistics_mean rt (map memory_percent recent));
              current_memory_mb := round_ndigits 2 (memory_used_mb newest);
              measurements_count := Z.of_nat (List.length recent);
              monitoring_duration_minutes :=
                (float_of_int (Z.of_nat (List.length history)) * interval pm
                 / float_of_int 60)%float |}
  end.

(** *** ProgressTracker *)

Import PyChecked.

Record ItemInfo := {
  item_url : string;
  item_success : bool;
  item_status_code : option Z;
  item_response_time : option float
}.

Record ProgressTracker := {
  total_items : Z;
  current_item : Z;
  tracker_start_time : Z;
  update_interval : float;
  last_update : float;
  completed_items : list ItemInfo;
  failed_items : list ItemInfo
}.

(** The [print] statements of the class: the progress line and the line
    break of [_display_progress], the two lines of [finish].  The progress
    line stands for the bar built for it as well, which fails where a bar of
    that length does not fit the memory. *)
Inductive PrintSite := ProgressLine | LineBreak | CompletedLine | RateLine.

(** What one call of the tracker meets outside: the reading of
    [time.time()], the reading of [datetime.now()], and what the console
    answers to each [print] of the call ([None] when the text is printed,
    otherwise what [print] raises, as on a console that cannot encode the
    symbols of the text). *)
Record Moment := {
  time_time : float;
  datetime_now : Z;
  console : PrintSite -> option PyExn
}.

Definition new_progress_tracker (total : Z) (now : Z) : ProgressTracker :=
  {| total_items := total; current_item := 0; tracker_start_time := now;
     update_interval := 1%float; last_update := 0%float;
     completed_items := []; failed_items := [] |}.

(** The estimate of [_display_progress] after [elapsed] microseconds:
    [timedelta(seconds=int(eta_seconds))] once an item is done,
    [timedelta(0)] before. *)
Definition eta (p : ProgressTracker) (elapsed : Z) : Outcome Z :=
  if 0 <? current_item p then
    match as_float (current_item p) with
    | Raise e => Raise e
    | Return items =>
        let avg_time_per_item := (total_seconds elapsed / items)%float in
        match as_float (total_items p - current_item p) with
        | Raise e => Raise e
        | Return remaining_items =>
            match int_of_float (avg_time_per_item * remaining_items)%float with
            | Raise e => Raise e
            | Return seconds => timedelta_of_seconds seconds
            end
        end
    end
  else Return 0.

(** [_display_progress]: what it raises, if anything.  The percentage, the
    estimate and the length of the bar are computed in this order;
    [int(bar_length * percentage // 100)] raises when the product is not
    finite, the floor division then being [nan]. *)
Definition _display_progress (mt : Moment) (p : ProgressTracker) : option PyExn :=
  if total_items p =? 0 then None
  else
    match truediv (current_item p) (total_items p) with
    | Raise e => Some e
    | Return ratio =>
        let percentage := (ratio * float_of_int 100)%float in
        let elapsed := datetime_now mt - tracker_start_time p in
        match eta p elapsed with
        | Raise e => Some e
        | Return _ =>
            if is_finite (float_of_int 30 * percentage)%float then
              match console mt ProgressLine with
              | Some e => Some e
              | None =>
                  if total_items p <=? current_item p
                  then console mt LineBreak else None
              end
            else Some (OtherException "cannot convert float NaN to integer")
        end
    end.

Definition with_last_update (p : ProgressTracker) (t : float) : ProgressTracker :=
  {| total_items := total_items p;
     current_item := current_item p;
     tracker_start_time := tracker_start_time p;
     update_interval := update_interval p;
     last_update := t;
     completed_items := completed_items p;
     failed_items := failed_items p |}.

(** The first part of [update]: the item is counted and filed. *)
Definition count_item (increment : Z) (info : ItemInfo) (p : ProgressTracker)
  : ProgressTracker :=
  {| total_items := total_items p;
     current_item := current_item p + increment;
     tracker_start_time := tracker_start_time p;
     update_interval := update_interval p;
     last_update := last_update p;
     completed_items :=
       if item_success info then completed_items p ++ [info] else completed_items p;
     failed_items :=
       if item_success info then failed_items p else failed_items p ++ [info] |}.

(** [update(increment, item_info)]: the item is counted and filed, then the
    progress is displayed if [update_interval] seconds have passed since the
    last display.  [last_update] is written after the display has returned. *)
Definition tracker_update (increment : Z) (info : ItemInfo) (mt : Moment)
    (p : ProgressTracker) : ProgressTracker * option PyExn :=
  let counted := count_item increment info p in
  if PrimFloat.leb (update_interval p) (time_time mt - last_update p)%float then
    match _display_progress mt counted with
    | Some e => (counted, Some e)
    | None => (with_last_update counted (time_time mt), None)
    end
  else (counted, None).

(** [finish]: the position is moved to the total, the progress displayed,
    the success rate computed and the two closing lines printed. *)
Definition tracker_finish (mt : Moment) (p : ProgressTracker)
  : ProgressTracker * option PyExn :=
  let finished :=
    {| total_items := total_items p;
       current_item := total_items p;
       tracker_start_time := tracker_start_time p;
       update_interval := update_interval p;
       last_update := last_update p;
       completed_items := completed_items p;
       failed_items := failed_items p |} in
  match _display_progress mt finished with
  | Some e => (finished, Some e)
  | None =>
      let success_rate :=
        if 0 <? total_items p
        then truediv (Z.of_nat (List.length (completed_items p))) (total_items p)
        else Return 0%float in
      match success_rate with
      | Raise e => (finished, Some e)
      | Return _ =>
          match console mt CompletedLine with
          | Some e => (finished, Some e)
          | None => (finished, console mt RateLine)
          end
      end
  end.

(** *** ScrapingMonitor *)

Record ScrapingMonitor := {
  name : string;
  metrics : ScrapingMetrics;
  performance_monitor : PerformanceMonitor;
  progress_tracker : option ProgressTracker;
  alerts : list string;
  error_rate_threshold : float;
  response_time_threshold : float;
  memory_threshold : float
}.

(** [ScrapingMonitor.__init__] at clock reading [now]. *)
Definition new_monitor (session_name : string) (now : Z) : ScrapingMonitor :=
  {| name := session_name;
     metrics := new_metrics now;
     performance_monitor := new_performance_monitor 5%float;
     progress_tracker := None;
     alerts := [];
     error_rate_threshold := 20%float;
     response_time_threshold := 10%float;
     memory_threshold := 80%float |}.

Definition with_metrics (mon : ScrapingMonitor) (m : ScrapingMetrics) : ScrapingMonitor :=
  {| name := name mon; metrics := m;
     performance_monitor := performance_monitor mon;
     progress_tracker := progress_tracker mon;
     alerts := alerts mon;
     error_rate_threshold := error_rate_threshold mon;
     response_time_threshold := response_time_threshold mon;
     memory_threshold := memory_threshold mon |}.

Definition with_alerts (mon : ScrapingMonitor) (a : list string) : ScrapingMonitor :=
  {| name := name mon; metrics := metrics mon;
     performance_monitor := performance_monitor mon;
     progress_tracker := progress_tracker mon;
     alerts := a;
     error_rate_threshold := error_rate_threshold mon;
     response_time_threshold := response_time_threshold mon;
     memory_threshold := memory_threshold mon |}.

Definition with_performance_monitor (mon : ScrapingMonitor) (pm : PerformanceMonitor)
  : ScrapingMonitor :=
  {| name := name mon; metrics := metrics mon;
     performance_monitor := pm;
     progress_tracker := progress_tracker mon;
     alerts := alerts mon;
     error_rate_threshold := error_rate_threshold mon;
     response_time_threshold := response_time_threshold mon;
     memory_threshold := memory_threshold mon |}.

Definition with_progress_tracker (mon : ScrapingMonitor) (p : option ProgressTracker)
  : ScrapingMonitor :=
  {| name := name mon; metrics := metrics mon;
     performance_monitor := performance_monitor mon;
     progress_tracker := p;
     alerts := alerts mon;
     error_rate_threshold := error_rate_threshold mon;
     response_time_threshold := response_time_threshold mon;
     memory_threshold := memory_threshold mon |}.

(** [start_session(total_urls)]: fresh metrics, a tracker when a total is
    given, the sampler started.  [now] and [tnow] are the clock readings of
    the two objects created. *)
Definition start_session (total : option Z) (now tnow : Z) (mon : ScrapingMonitor)
  : ScrapingMonitor :=
  let m := new_metrics now in
  let m' :=
    {| start_time := start_time m; end_time := end_time m;
       total_urls := (if opt_int_truthy total then default 0 total else 0);
       successful_requests := successful_requests m;
       failed_requests := failed_requests m;
       total_bytes_downloaded := total_bytes_downloaded m;
       total_processing_time := total_processing_time m;
       average_response_time := average_response_time m;
       requests_per_second := requests_per_second m;
       errors_by_type := errors_by_type m;
       status_codes := status_codes m;
       domain_stats := domain_stats m |} in
  {| name := name mon;
     metrics := m';
     performance_monitor := start_monitoring (performance_monitor mon);
     progress_tracker :=
       (if opt_int_truthy total
        then Some (new_progress_tracker (default 0 total) tnow)
        else progress_tracker mon);
     alerts := alerts mon;
     error_rate_threshold := error_rate_threshold mon;
     response_time_threshold := response_time_threshold mon;
     memory_threshold := memory_threshold mon |}.

(** The arguments of [log_request]. *)
Record Request := {
  req_url : string;
  req_success : bool;
  req_status_code : option Z;
  req_response_time : option float;
  req_error : option string;
  req_content_size : option Z
}.

(** [d[k] = d.get(k, 0) + 1]. *)
Definition bump `{Countable K} (k : K) (d : gmap K Z) : gmap K Z :=
  <[k := default 0 (d !! k) + 1]> d.

(** The metrics part of [log_request]. *)
Definition update_metrics (rt : Runtime) (r : Request) (m : ScrapingMetrics)
  : ScrapingMetrics :=
  let succ := if req_success r then successful_requests m + 1
              else successful_requests m in
  let fail := if req_success r then failed_requests m
              else failed_requests m + 1 in
  let errs :=
    if req_success r then errors_by_type m
    else match req_error r with
         | Some e => if Utils.str_truthy e then bump e (errors_by_type m)
                     else errors_by_type m
         | None => errors_by_type m
         end in
  let codes :=
    match req_status_code r with
    | Some c => if negb (c =? 0) then bump c (status_codes m) else status_codes m
    | None => status_codes m
    end in
  let timed := opt_float_truthy (req_response_time r) in
  let total_time :=
    match req_response_time r with
    | Some t => if float_truthy t then (total_processing_time m + t)%float
                else total_processing_time m
    | None => total_processing_time m
    end in
  let average :=
    if timed then float_div_int total_time (succ + fail)
    else average_response_time m in
  let bytes :=
    match req_content_size r with
    | Some n => if negb (n =? 0) then total_bytes_downloaded m + n
                else total_bytes_downloaded m
    | None => total_bytes_downloaded m
    end in
  let domains :=
    match urlparse rt (req_url r) with
    | Some parsed => bump (netloc parsed) (domain_stats m)
    | None => domain_stats m
    end in
  {| start_time := start_time m; end_time := end_time m;
     total_urls := total_urls m;
     successful_requests := succ; failed_requests := fail;
     total_bytes_downloaded := bytes;
     total_processing_time := total_time;
     average_response_time := average;
     requests_per_second := requests_per_second m;
     errors_by_type := errs; status_codes := codes; domain_stats := domains |}.

(** [if alert not in self.alerts: self.alerts.append(alert)]. *)
Definition add_alert (alert : string) (l : list string) : list string :=
  if bool_decide (alert ∈ l) then l else l ++ [alert].

Definition error_rate (m : ScrapingMetrics) : float :=
  (int_truediv (failed_requests m) (successful_requests m + failed_requests m)
   * float_of_int 100)%float.

Definition error_rate_alert (rt : Runtime) (rate threshold : float) : string :=
  "High error rate: " +:+ format_fixed 1 rate +:+ "% (threshold: "
    +:+ float_repr rt threshold +:+ "%)".

Definition slow_response_alert (average : float) : string :=
  "Slow response times: " +:+ format_fixed 2 average +:+ "s average".

Definition memory_alert (percent : float) : string :=
  "High memory usage: " +:+ format_fixed 1 percent +:+ "%".

(** The first rule of [_check_alerts]. *)
Definition check_error_rate (rt : Runtime) (mon : ScrapingMonitor) : list string :=
  let m := metrics mon in
  let total_requests := successful_requests m + failed_requests m in
  if 10 <=? total_requests then
    if float_gt (error_rate m) (error_rate_threshold mon)
    then add_alert (error_rate_alert rt (error_rate m) (error_rate_threshold mon))
           (alerts mon)
    else alerts mon
  else alerts mon.

(** The second rule. *)
Definition check_response_time (mon : ScrapingMonitor) (l : list string) : list string :=
  if float_gt (average_response_time (metrics mon)) (response_time_threshold mon)
  then add_alert (slow_response_alert (average_response_time (metrics mon))) l
  else l.

(** The third rule.  With no measurement yet, [system_stats] is empty:
    [get] answers the default 0 and, should 0 exceed the threshold, the
    subscript raises KeyError. *)
Definition check_memory (rt : Runtime) (mon : ScrapingMonitor) (l : list string)
  : list string * option PyExn :=
  match get_current_stats rt (performance_monitor mon) with
  | Some st =>
      if float_gt (avg_memory_percent st) (memory_threshold mon)
      then (add_alert (memory_alert (avg_memory_percent st)) l, None)
      else (l, None)
  | None =>
      if float_gt 0 (memory_threshold mon)
      then (l, Some (OtherException "'avg_memory_percent'"))
      else (l, None)
  end.

Definition _check_alerts (rt : Runtime) (mon : ScrapingMonitor)
  : ScrapingMonitor * option PyExn :=
  let l1 := check_error_rate rt mon in
  let l2 := check_response_time mon l1 in
  let '(l3, raised) := check_memory rt mon l2 in
  (with_alerts mon l3, raised).

(** The progress part of [log_request]: [progress_tracker.update] when
    there is a tracker. *)
Definition item_info (r : Request) : ItemInfo :=
  {| item_url := req_url r; item_success := req_success r;
     item_status_code := req_status_code r;
     item_response_time := req_response_time r |}.

Definition update_progress (r : Request) (mt : Moment) (mon : ScrapingMonitor)
  : ScrapingMonitor * option PyExn :=
  match progress_tracker mon with
  | Some p =>
      let '(p', raised) := tracker_update 1 (item_info r) mt p in
      (with_progress_tracker mon (Some p'), raised)
  | None => (mon, None)
  end.

(** [log_request] at the moment [mt]: metrics, progress, alerts.  What the
    progress display raises leaves [log_request] before the alerts are
    checked. *)
Definition log_request (rt : Runtime) (r : Request) (mt : Moment) (mon : ScrapingMonitor)
  : ScrapingMonitor * option PyExn :=
  let mon1 := with_metrics mon (update_metrics rt r (metrics mon)) in
  match update_progress r mt mon1 with
  | (mon2, Some e) => (mon2, Some e)
  | (mon2, None) => _check_alerts rt mon2
  end.

(** [end_session] at clock reading [now], the tracker finishing at the
    moment [mt].  What [finish] raises leaves [end_session] before the
    sampler is stopped. *)
Definition end_session (now : Z) (mt : Moment) (mon : ScrapingMonitor)
  : ScrapingMonitor * option PyExn :=
  let m := metrics mon in
  let total_requests := successful_requests m + failed_requests m in
  let ended :=
    {| start_time := start_time m; end_time := Some now;
       total_urls := total_urls m;
       successful_requests := successful_requests m;
       failed_requests := failed_requests m;
       total_bytes_downloaded := total_bytes_downloaded m;
       total_processing_time := total_processing_time m;
       average_response_time := average_response_time m;
       requests_per_second := requests_per_second m;
       errors_by_type := errors_by_type m;
       status_codes := status_codes m; domain_stats := domain_stats m |} in
  let secs := total_seconds (duration ended now) in
  let final :=
    if (0 <? total_requests) && float_gt secs 0
    then {| start_time := start_time ended; end_time := end_time ended;
            total_urls := total_urls ended;
            successful_requests := successful_requests ended;
            failed_requests := failed_requests ended;
            total_bytes_downloaded := total_bytes_downloaded ended;
            total_processing_time := total_processing_time ended;
            average_response_time := average_response_time ended;
            requests_per_second := (float_of_int total_requests / secs)%float;
            errors_by_type := errors_by_type ended;
            status_codes := status_codes ended;
            domain_stats := domain_stats ended |}
    else ended in
  let '(tracker, raised) :=
    match progress_tracker mon with
    | Some p => let '(p', raised) := tracker_finish mt p in (Some p', raised)
    | None => (None, None)
    end in
  ({| name := name mon;
      metrics := final;
      performance_monitor :=
        match raised with
        | Some _ => performance_monitor mon
        | None => stop_monitoring (performance_monitor mon)
        end;
      progress_tracker := tracker;
      alerts := alerts mon;
      error_rate_threshold := error_rate_threshold mon;
      response_time_threshold := response_time_threshold mon;
      memory_threshold := memory_threshold mon |}, raised).

(** What can happen to a monitor: calls of its methods and, in between,
    wakes of the sampler thread. *)
Inductive Op :=
  | StartSession (total : option Z) (now tnow : Z)
  | LogRequest (r : Request) (mt : Moment)
  | CheckAlerts
  | SamplerWake (capture : option Sample)
  | EndSession (now : Z) (mt : Moment).

Definition step (rt : Runtime) (mon : ScrapingMonitor) (op : Op) : ScrapingMonitor :=
  match op with
  | StartSession total now tnow => start_session total now tnow mon
  | LogRequest r mt => fst (log_request rt r mt mon)
  | CheckAlerts => fst (_check_alerts rt mon)
  | SamplerWake c =>
      with_performance_monitor mon (monitor_wake c (performance_monitor mon))
  | EndSession now mt => fst (end_session now mt mon)
  end.

Definition run_ops (rt : Runtime) (ops : list Op) (mon : ScrapingMonitor)
  : ScrapingMonitor :=
  fold_left (step rt) ops mon.

End Monitoring.

(** ** Sample instances of the library calls, for the worked examples *)

Module Demo.

Import Scraper.

Definition is_alpha (c : ascii) : bool :=
  let n := nat_of_ascii c in
  ((65 <=? n) && (n <=? 90) || (97 <=? n) && (n <=? 122))%nat.

Definition is_scheme_char (c : ascii) : bool :=
  let n := nat_of_ascii c in
  (is_alpha c || (48 <=? n) && (n <=? 57) || (n =? 43) || (n =? 45) || (n =? 46))%nat.

Fixpoint take_until (stop : ascii -> bool) (s : string) : string :=
  match s with
  | EmptyString => EmptyString
  | String c r => if stop c then EmptyString else String c (take_until stop r)
  end.

Fixpoint all_chars (p : ascii -> bool) (s : string) : bool :=
  match s with
  | EmptyString => true
  | String c r => p c && all_chars p r
  end.

Definition skip (n : nat) (s : string) : string :=
  String.substring n (String.length s - n) s.

Definition netloc_of (rest : string) : string :=
  if String.prefix "//" rest
  then take_until (fun c => let n := nat_of_ascii c in
                            ((n =? 47) || (n =? 63) || (n =? 35))%nat)
         (skip 2 rest)
  else EmptyString.

(** Leading control characters and spaces are stripped, tabs and line
    breaks removed wherever they are. *)
Fixpoint lstrip_blank (s : string) : string :=
  match s with
  | EmptyString => EmptyString
  | String c r => if (nat_of_ascii c <=? 32)%nat then lstrip_blank r else s
  end.

Fixpoint remove_unsafe (s : string) : string :=
  match s with
  | EmptyString => EmptyString
  | String c r =>
      let n := nat_of_ascii c in
      if ((n =? 9) || (n =? 10) || (n =? 13))%nat then remove_unsafe r
      else String c (remove_unsafe r)
  end.

Fixpoint lowercase (s : string) : string :=
  match s with
  | EmptyString => EmptyString
  | String c r =>
      let n := nat_of_ascii c in
      String (if ((65 <=? n) && (n <=? 90))%nat then ascii_of_nat (n + 32) else c)
        (lowercase r)
  end.

Fixpoint has_char (n : nat) (s : string) : bool :=
  match s with
  | EmptyString => false
  | String c r => (nat_of_ascii c =? n)%nat || has_char n r
  end.

(** The split of an ASCII URL into scheme and network location, the way
    [urlparse] (Python 3.11) splits it: the scheme is what precedes the
    first colon, in lower case, when it starts with a letter and holds
    scheme characters only; the location is what follows a double slash up
    to the next slash, question mark or hash.  A location with one square
    bracket and not the other is refused, as the library refuses it; the
    address between two brackets is not checked here, which the library
    does. *)
Definition split_url (u : string) : option ParseResult :=
  let url := remove_unsafe (lstrip_blank u) in
  let pre := take_until (fun c => (nat_of_ascii c =? 58)%nat) url in
  let has_colon := (String.length pre <? String.length url)%nat in
  let starts_alpha := match pre with String c _ => is_alpha c | _ => false end in
  let with_scheme := has_colon && starts_alpha && all_chars is_scheme_char pre in
  let rest := if with_scheme then skip (S (String.length pre)) url else url in
  let location := netloc_of rest in
  if xorb (has_char 91 location) (has_char 93 location) then None
  else Some {| scheme := if with_scheme then lowercase pre else EmptyString;
               netloc := location |}.

Definition float_sum (l : list float) : float :=
  fold_left (fun acc x => (acc + x)%float) l 0%float.

(** A runtime for the examples.  Its [float_repr] prints one decimal, which
    is what [str] prints for the thresholds 20.0, 10.0 and 80.0; its mean is
    the float sum over the length. *)
Definition runtime : Runtime :=
  {| urlparse := split_url;
     float_repr := format_fixed 1;
     statistics_mean :=
       fun l => float_div_int (float_sum l) (Z.of_nat (List.length l));
     html_title := fun _ => EmptyString |}.

Definition page (status : Z) : Response :=
  {| resp_status := status; resp_text := "<html></html>";
     http_error_text := pretty status +:+ " Error" |}.

(** A network on which every request times out. *)
Definition network_down : Environment :=
  {| uniform := fun _ a b => b;
     session_get := fun n _ =>
       GetRaised (RequestException ("timed out, request " +:+ pretty n));
     selenium_source := fun _ _ => Raise (OtherException "no driver");
     default_extract := fun _ _ => Return [];
     aio_get := fun _ _ => GetRaised (OtherException "timed out");
     clock := fun n => Z.of_nat n |}.

(** A network that answers every request with the given status. *)
Definition network_answering (status : Z) : Environment :=
  {| uniform := fun _ a b => a;
     session_get := fun _ _ => Got (page status);
     selenium_source := fun _ _ => Return "<html></html>"%string;
     default_extract := fun _ target => Return [("url"%string, VStr target)];
     aio_get := fun _ _ => Got (page status);
     clock := fun n => Z.of_nat n |}.

Definition scraper (d : float) (retries : Z) : WebScraper :=
  new_scraper d retries 30 false.

Definition async_scraper (limit : Z) : AsyncScraper.AsyncWebScraper :=
  {| AsyncScraper.max_concurrent := limit; AsyncScraper.delay := 1%float;
     AsyncScraper.timeout := 30 |}.

Import Monitoring.

Definition request_ok (target : string) (seconds : option float) : Request :=
  {| req_url := target; req_success := true; req_status_code := Some 200;
     req_response_time := seconds; req_error := None;
     req_content_size := Some 512 |}.

Definition request_failed (target : string) (why : string) : Request :=
  {| req_url := target; req_success := false; req_status_code := None;
     req_response_time := None; req_error := Some why;
     req_content_size := None |}.

Definition sample (percent : float) : Sample :=
  {| sample_timestamp := 0; cpu_percent := 10%float; memory_percent := percent;
     memory_used_mb := 2048%float; disk_io := []; network_io := [];
     process_count := 100 |}.

(** A moment of a run at a console that prints. *)
Definition moment : Moment :=
  {| time_time := 1700000000%float; datetime_now := 1700000000000000;
     console := fun _ => None |}.

(** A monitor whose session has just started. *)
Definition fresh_monitor : ScrapingMonitor :=
  start_session (Some 20) 0 0 (new_monitor "demo" 0).

(** [n] requests to the same host that all fail. *)
Definition failures (n : nat) : list Op :=
  repeat (LogRequest (request_failed "https://example.com/x" "timed out") moment) n.

(** One request that succeeds, with or without a measured response time. *)
Definition one_success (seconds : option float) : list Op :=
  [LogRequest (request_ok "https://example.com/x" seconds) moment].

End Demo.

(** * Properties *)

Import Utils.

Example format_fixed_ex :
  format_fixed 1 (int_truediv 3 10 * 100)%float = "30.0"%string
  /\ format_fixed 1 (int_truediv 3 11 * 100)%float = "27.3"%string
  /\ format_fixed 2 12.375%float = "12.38"%string
  /\ format_fixed 1 0.25%float = "0.2"%string
  /\ format_fixed 1 (-0.75)%float = "-0.8"%string
  /\ round_ndigits 1 0.25%float = int_truediv 1 5.
Proof. vm_compute. repeat split. Qed.

Example split_url_ex :
  Demo.split_url "https://example.com/a?b" = Some {| scheme := "https"; netloc := "example.com" |}
  /\ Demo.split_url "not-a-url" = Some {| scheme := ""; netloc := "" |}
  /\ Demo.split_url "//example.com/x" = Some {| scheme := ""; netloc := "example.com" |}
  /\ Demo.split_url "mailto:someone" = Some {| scheme := "mailto"; netloc := "" |}
  /\ Demo.split_url "  HTTP://Example.com" = Some {| scheme := "http"; netloc := "Example.com" |}
  /\ Demo.split_url "http://[invalid" = None.
Proof. vm_compute. repeat split. Qed.

(** ** Facts on true division *)

Lemma div_eucl_shift_same p :
  Z.div_eucl (Z.shiftl (Z.pos p) 53) (Z.pos p) = (9007199254740992, 0).
Proof.
  rewrite Z.shiftl_mul_pow2 by lia. rewrite Z.mul_comm.
  pose proof (Z.div_mul (2 ^ 53) (Z.pos p) ltac:(lia)) as Hq.
  pose proof (Z.mod_mul (2 ^ 53) (Z.pos p) ltac:(lia)) as Hr.
  unfold Z.div, Z.modulo in Hq, Hr.
  destruct (Z.div_eucl _ _) as [q r]. now subst.
Qed.

Lemma div_core_same p :
  SFdiv_core_binary prec emax (Zpos p) 0 (Zpos p) 0
  = (9007199254740992, -53, loc_Exact).
Proof.
  unfold SFdiv_core_binary.
  rewrite (Z.sub_diag (Zdigits2 (Z.pos p) + 0)).
  change (Z.min (fexp prec emax 0) (0 - 0)) with (-53).
  change (0 - 0 - -53) with 53. cbv iota beta.
  change (IntDef.Z.div_eucl (Z.shiftl (Z.pos p) 53) (Z.pos p))
    with (Z.div_eucl (Z.shiftl (Z.pos p) 53) (Z.pos p)).
  rewrite div_eucl_shift_same. unfold new_location.
  destruct (Z.even (Z.pos p)); reflexivity.
Qed.

(** A positive integer divided by itself is exactly one. *)
Lemma int_truediv_same n : 0 < n -> int_truediv n n = 1%float.
Proof.
  destruct n as [|p|p]; try lia. intros _.
  unfold int_truediv, SFdiv. rewrite div_core_same. vm_compute. reflexivity.
Qed.

(** ** The sequential executor *)

Section SequentialExecutor.

Import Scraper.

Variable rt : Runtime.
Variable env : Environment.

(** A URL for which the parser finds no scheme or no host (or on which it
    raises). *)
Definition lacks_scheme_or_host (target : string) : Prop :=
  match urlparse rt target with
  | Some parsed => scheme parsed = EmptyString \/ netloc parsed = EmptyString
  | None => True
  end.

Lemma validate_url_false target :
  lacks_scheme_or_host target -> validate_url rt target = false.
Proof.
  unfold lacks_scheme_or_host, validate_url.
  destruct (urlparse rt target) as [parsed|]; [|reflexivity].
  intros [H | H]; rewrite H; simpl; [reflexivity | apply andb_false_r].
Qed.

(** The text of the error with which request number [n] fails. *)
Definition attempt_error (n : nat) (target : string) : string :=
  match session_get env n target with
  | Got r => http_error_text r
  | GetRaised e => str_exn e
  end.

(** Request number [n] fails the way the retry loop catches: the transport
    raises a RequestException, or the response has an error status. *)
Definition fails_at (target : string) (n : nat) : Prop :=
  match session_get env n target with
  | Got r => is_error_status (resp_status r) = true
  | GetRaised (RequestException _) => True
  | GetRaised (OtherException _) => False
  end.

(** The jittered delay computed from draw number [n]. *)
Definition jitter_delay (d : float) (n : nat) : float :=
  (d + uniform env n 0 (d * 0.5))%float.

(** What attempt [i] of a ladder of [N] retries does when it fails: the
    jittered sleep, the request and, unless it was the last one, the backoff
    of [2^i] seconds.  [d0] is the number of draws before the ladder. *)
Definition attempt_effects (d : float) (target : string) (N d0 i : nat)
  : list Effect :=
  [Sleep (jitter_delay d (d0 + i)); HttpGet target]
  ++ (if (i <? N)%nat then [Backoff (2 ^ Z.of_nat i)] else []).

Definition charge (d : float) (d0 : nat) (acc : float) (i : nat) : float :=
  (acc + jitter_delay d (d0 + i))%float.

Lemma get_checked_fails target w :
  fails_at target (requests w) ->
  get_checked env target w =
    ({| effects := effects w ++ [HttpGet target]; draws := draws w;
        requests := S (requests w) |},
     Raise (RequestException (attempt_error (requests w) target))).
Proof.
  unfold fails_at, get_checked, attempt_error.
  destruct (session_get env (requests w) target) as [r | [m | m]]; intros H.
  - rewrite H. reflexivity.
  - reflexivity.
  - contradiction.
Qed.

Lemma attempt_loop_step target k attempt s w :
  attempt_loop env target (S k) attempt s w =
    let '(s1, w1) := pause env s w in
    match get_checked env target w1 with
    | (w2, Return r) => (count_success s1, w2, Return (Some r))
    | (w2, Raise (RequestException m)) =>
        if attempt =? max_retries s1
        then (count_failure s1, w2, Raise (RequestException m))
        else attempt_loop env target k (attempt + 1) s1
               (perform (Backoff (2 ^ attempt)) w2)
    | (w2, Raise (OtherException m)) => (s1, w2, Raise (OtherException m))
    end.
Proof. reflexivity. Qed.

Lemma pause_positive s w :
  float_gt (delay s) 0 = true ->
  pause env s w =
    (with_stats s
       {| requests_made := requests_made (stats s);
          successful_requests := successful_requests (stats s);
          failed_requests := failed_requests (stats s);
          total_delay_time :=
            (total_delay_time (stats s) + jitter_delay (delay s) (draws w))%float |},
     {| effects := effects w ++ [Sleep (jitter_delay (delay s) (draws w))];
        draws := S (draws w); requests := requests w |}).
Proof. intros H. unfold pause. rewrite H. reflexivity. Qed.

Local Arguments attempt_loop : simpl never.

Lemma attempt_loop_all_fail target (N : nat) :
  (forall n, fails_at target n) ->
  forall k a s w d0 r0,
    max_retries s = Z.of_nat N ->
    float_gt (delay s) 0 = true ->
    draws w = (d0 + a)%nat -> requests w = (r0 + a)%nat ->
    (a + S k = S N)%nat ->
    attempt_loop env target (S k) (Z.of_nat a) s w =
      (with_stats s
         {| requests_made := requests_made (stats s);
            successful_requests := successful_requests (stats s);
            failed_requests := failed_requests (stats s) + 1;
            total_delay_time :=
              fold_left (charge (delay s) d0) (seq a (S k)) (total_delay_time (stats s)) |},
       {| effects := effects w
                     ++ flat_map (attempt_effects (delay s) target N d0) (seq a (S k));
          draws := (d0 + S N)%nat; requests := (r0 + S N)%nat |},
       Raise (RequestException (attempt_error (r0 + N) target))).
Proof.
  intros Hfail k. induction k as [|k IH]; intros a s w d0 r0 Hmax Hdelay Hd Hr Hak;
    rewrite attempt_loop_step, pause_positive by assumption;
    rewrite get_checked_fails by apply Hfail; simpl; rewrite Hmax.
  - assert (a = N) by lia. subst a. rewrite Z.eqb_refl.
    unfold count_failure, with_stats, charge, attempt_effects. simpl.
    rewrite Hd, Hr, Nat.ltb_irrefl, <- app_assoc. simpl.
    repeat f_equal; lia.
  - destruct (Z.eqb_spec (Z.of_nat a) (Z.of_nat N)) as [E | _]; [lia|].
    replace (Z.of_nat a + 1) with (Z.of_nat (S a)) by lia.
    rewrite (IH (S a) _ _ d0 r0); simpl; try assumption; try lia.
    unfold with_stats, charge, attempt_effects, perform. simpl.
    rewrite ?Hd, ?Hr.
    assert (Hlt : (a <? N)%nat = true) by (apply Nat.ltb_lt; lia).
    rewrite Hlt, <- !app_assoc. simpl. reflexivity.
Qed.

(** [requests_made] and [successful_requests] have moved together from [s]
    to [s']; the configuration is the same. *)
Definition moved_together (s s' : WebScraper) : Prop :=
  requests_made (stats s') - successful_requests (stats s')
    = requests_made (stats s) - successful_requests (stats s)
  /\ successful_requests (stats s) <= successful_requests (stats s')
  /\ failed_requests (stats s) <= failed_requests (stats s')
  /\ custom_extractor s' = custom_extractor s
  /\ use_selenium s' = use_selenium s
  /\ max_retries s' = max_retries s
  /\ delay s' = delay s.

Lemma moved_together_refl s : moved_together s s.
Proof. unfold moved_together. repeat split; lia. Qed.

Lemma moved_together_trans s1 s2 s3 :
  moved_together s1 s2 -> moved_together s2 s3 -> moved_together s1 s3.
Proof.
  unfold moved_together.
  intros (A1 & A2 & A3 & A4 & A5 & A6 & A7) (B1 & B2 & B3 & B4 & B5 & B6 & B7).
  repeat split; try lia; congruence.
Qed.

Lemma pause_moved_together s w : moved_together s (pause env s w).1.
Proof.
  unfold pause. destruct (float_gt (delay s) 0); simpl;
    unfold moved_together; simpl; repeat split; lia.
Qed.

Lemma attempt_loop_moved_together target k :
  forall a s w, moved_together s (attempt_loop env target k a s w).1.1.
Proof.
  induction k as [|k IH]; intros a s w.
  - apply moved_together_refl.
  - rewrite attempt_loop_step.
    pose proof (pause_moved_together s w) as Hp.
    destruct (pause env s w) as [s1 w1]. simpl in Hp.
    destruct (get_checked env target w1) as [w2 [r | [m | m]]].
    + eapply moved_together_trans; [exact Hp|].
      unfold moved_together; simpl; repeat split; lia.
    + destruct (a =? max_retries s1).
      * eapply moved_together_trans; [exact Hp|].
        unfold moved_together; simpl; repeat split; lia.
      * eapply moved_together_trans; [exact Hp | apply IH].
    + exact Hp.
Qed.

Lemma scrape_url_moved_together target s w :
  moved_together s (scrape_url rt env target s w).1.1.
Proof.
  unfold scrape_url. destruct (negb (validate_url rt target)).
  { apply moved_together_refl. }
  assert (H : moved_together s (fetch_document env target s w).1.1).
  { unfold fetch_document. destruct (use_selenium s).
    - destruct (_parse_with_selenium env target w) as [w1 [soup | e]];
        apply moved_together_refl.
    - unfold _make_request.
      pose proof (attempt_loop_moved_together target
                    (Z.to_nat (max_retries s + 1)) 0 s w) as Hl.
      destruct (attempt_loop env target _ 0 s w) as [[s1 w1] [[r|] | e]]; exact Hl. }
  destruct (fetch_document env target s w) as [[s1 w1] [[soup status] | e]];
    [destruct (run_extractor env s1 soup target)|]; exact H.
Qed.

Lemma scrape_loop_moved_together urls :
  forall results s w, moved_together s (scrape_loop rt env urls results s w).1.1.
Proof.
  induction urls as [|u rest IH]; intros results s w; simpl.
  - apply moved_together_refl.
  - pose proof (scrape_url_moved_together u s w) as H.
    destruct (scrape_url rt env u s w) as [[s1 w1] result].
    eapply moved_together_trans; [exact H | apply IH].
Qed.

(** Every outcome carries the URL it was asked for. *)
Lemma scrape_url_url target s w : url (scrape_url rt env target s w).2 = target.
Proof.
  unfold scrape_url. destruct (negb (validate_url rt target)); [reflexivity|].
  destruct (fetch_document env target s w) as [[s1 w1] [[soup status] | e]];
    [destruct (run_extractor env s1 soup target)|]; reflexivity.
Qed.

Lemma scrape_loop_urls urls :
  forall results s w,
    map url (scrape_loop rt env urls results s w).2 = map url results ++ urls.
Proof.
  induction urls as [|u rest IH]; intros results s w; simpl.
  - symmetry. apply app_nil_r.
  - pose proof (scrape_url_url u s w) as H.
    destruct (scrape_url rt env u s w) as [[s1 w1] result]. simpl in H.
    rewrite IH, map_app. simpl. rewrite H, <- app_assoc. reflexivity.
Qed.

Definition is_http_get (e : Effect) : bool :=
  match e with HttpGet _ => true | _ => false end.

Definition is_sleep (e : Effect) : bool :=
  match e with Sleep _ => true | _ => false end.

Definition backoff_seconds (e : Effect) : option Z :=
  match e with Backoff secs => Some secs | _ => None end.

Lemma ladder_counts d target N d0 k :
  forall a,
    let ladder := flat_map (attempt_effects d target N d0) (seq a k) in
    List.length (List.filter is_http_get ladder) = k
    /\ List.length (List.filter is_sleep ladder) = k
    /\ omap backoff_seconds ladder
       = map (fun i => 2 ^ Z.of_nat i) (List.filter (fun i => (i <? N)%nat) (seq a k)).
Proof.
  induction k as [|k IH]; intros a; [repeat split|].
  specialize (IH (S a)). cbn zeta in IH |- *. destruct IH as (IH1 & IH2 & IH3).
  cbn [seq flat_map]. unfold attempt_effects at 1 3 5.
  cbn [List.filter]. change (list_omap Effect Z) with (@omap list _ Effect Z) in *.
  destruct (a <? N)%nat; simpl; rewrite ?IH1, ?IH2; repeat split;
    change (list_omap Effect Z) with (@omap list _ Effect Z); rewrite IH3; reflexivity.
Qed.

(** C2: a URL without a scheme or without a host is answered at once by a
    failure outcome with the text "Invalid URL" and status 0; the world is
    untouched (no request, no sleep, no retry) and so are the statistics, the
    delay-time counter among them. *)
Theorem invalid_url_fails_fast (target : string) (s : WebScraper) (w : World) :
  lacks_scheme_or_host target ->
  let '(s', w', result) := scrape_url rt env target s w in
  success result = false
  /\ error_message result = Some "Invalid URL"%string
  /\ status_code result = 0
  /\ url result = target
  /\ w' = w
  /\ s' = s
  /\ total_delay_time (stats s') = total_delay_time (stats s).
Proof.
  intros H. unfold scrape_url. rewrite (validate_url_false _ H). simpl.
  repeat split.
Qed.

(** C3: with max_retries = N and a positive delay, a URL whose every request
    fails costs exactly N+1 requests, each preceded by a jittered sleep that
    is added to the delay-time counter, with a backoff of 2^i seconds after
    failed attempt i < N; the outcome is a failure carrying the error text of
    the last request only. *)
Theorem retry_ladder_exhausted (target : string) (s : WebScraper) (w : World)
    (N : nat) :
  max_retries s = Z.of_nat N ->
  float_gt (delay s) 0 = true ->
  use_selenium s = false ->
  validate_url rt target = true ->
  (forall n, fails_at target n) ->
  let '(s', w', result) := scrape_url rt env target s w in
  let ladder := flat_map (attempt_effects (delay s) target N (draws w)) (seq 0 (S N)) in
  effects w' = effects w ++ ladder
  /\ List.length (List.filter is_http_get ladder) = S N
  /\ List.length (List.filter is_sleep ladder) = S N
  /\ omap backoff_seconds ladder = map (fun i => 2 ^ Z.of_nat i) (seq 0 N)
  /\ requests w' = (requests w + S N)%nat
  /\ total_delay_time (stats s')
     = fold_left (charge (delay s) (draws w)) (seq 0 (S N)) (total_delay_time (stats s))
  /\ failed_requests (stats s') = failed_requests (stats s) + 1
  /\ requests_made (stats s') = requests_made (stats s)
  /\ success result = false
  /\ status_code result = 0
  /\ error_message result = Some (attempt_error (requests w + N) target).
Proof.
  intros Hmax Hdelay Hsel Hvalid Hfail.
  unfold scrape_url, fetch_document, _make_request.
  rewrite Hvalid, Hsel, Hmax. simpl negb. cbv iota.
  replace (Z.to_nat (Z.of_nat N + 1)) with (S N) by lia.
  change 0 with (Z.of_nat 0) at 1.
  rewrite (attempt_loop_all_fail target N Hfail N 0%nat s w (draws w) (requests w))
    by (assumption || lia).
  cbv zeta. destruct (ladder_counts (delay s) target N (draws w) (S N) 0%nat)
    as (C1 & C2 & C3).
  repeat split; try assumption.
  rewrite C3. f_equal.
  replace (seq 0 (S N)) with (seq 0 N ++ [N]) by (rewrite seq_S; reflexivity).
  rewrite List.filter_app. simpl. rewrite Nat.ltb_irrefl, app_nil_r.
  apply forallb_filter_id. apply forallb_forall. intros i Hi.
  apply in_seq in Hi. apply Nat.ltb_lt. lia.
Qed.

(** What a call did to the three counters of [self.stats]. *)
Definition counted (s s1 : WebScraper) (made succeeded failed : Z) : Prop :=
  requests_made (stats s1) = requests_made (stats s) + made
  /\ successful_requests (stats s1) = successful_requests (stats s) + succeeded
  /\ failed_requests (stats s1) = failed_requests (stats s) + failed.

(** The counters after [_make_request], by the way it ended.  A response is
    returned by an attempt that succeeded: the last request was answered
    with a status that is no error.  A RequestException leaves the loop
    from an attempt that failed. *)
Definition request_tally (target : string) (s s1 : WebScraper) (w1 : World)
    (out : Outcome (option Response)) : Prop :=
  match out with
  | Return (Some r) =>
      session_get env (Nat.pred (requests w1)) target = Got r
      /\ is_error_status (resp_status r) = false
      /\ counted s s1 1 1 0
  | Raise (RequestException _) =>
      fails_at target (Nat.pred (requests w1)) /\ counted s s1 0 0 1
  | Return None | Raise (OtherException _) => counted s s1 0 0 0
  end.

Lemma pause_counted s w : counted s (pause env s w).1 0 0 0.
Proof.
  unfold pause, counted. destruct (float_gt (delay s) 0); simpl; repeat split; lia.
Qed.

Lemma attempt_loop_tally target k :
  forall a s w,
    request_tally target s (attempt_loop env target k a s w).1.1
      (attempt_loop env target k a s w).1.2 (attempt_loop env target k a s w).2.
Proof.
  induction k as [|k IH]; intros a s w.
  - simpl. unfold counted. repeat split; lia.
  - rewrite attempt_loop_step.
    pose proof (pause_counted s w) as (P1 & P2 & P3).
    destruct (pause env s w) as [s1 w1]. simpl in P1, P2, P3.
    unfold get_checked.
    destruct (session_get env (requests w1) target) as [r | [m | m]] eqn:E.
    + destruct (is_error_status (resp_status r)) eqn:Es.
      * destruct (a =? max_retries s1).
        -- simpl. unfold fails_at, counted. rewrite E, Es. simpl.
           repeat split; lia.
        -- specialize (IH (a + 1) s1
                         (perform (Backoff (2 ^ a))
                            {| effects := effects w1 ++ [HttpGet target];
                               draws := draws w1; requests := S (requests w1) |})).
           revert IH. unfold request_tally, counted.
           destruct (attempt_loop env target k (a + 1) s1 _) as [[s2 w2] [[r2|] | [m2 | m2]]];
             simpl; intros IH; repeat split; try tauto; lia.
      * simpl. unfold counted. simpl. rewrite E. repeat split; try assumption; lia.
    + destruct (a =? max_retries s1).
      * simpl. unfold fails_at, counted. rewrite E. simpl. repeat split; lia.
      * specialize (IH (a + 1) s1
                       (perform (Backoff (2 ^ a))
                          {| effects := effects w1 ++ [HttpGet target];
                             draws := draws w1; requests := S (requests w1) |})).
        revert IH. unfold request_tally, counted.
        destruct (attempt_loop env target k (a + 1) s1 _) as [[s2 w2] [[r2|] | [m2 | m2]]];
          simpl; intros IH; repeat split; try tauto; lia.
    + simpl. unfold counted. repeat split; lia.
Qed.

(** The call of [_make_request] a URL leads to and what it answers: [None]
    for a URL that is rejected or read through the browser, which leads to
    no call. *)
Definition request_of (target : string) (s : WebScraper) (w : World)
  : option (Outcome (option Response)) :=
  if validate_url rt target && negb (use_selenium s)
  then Some (_make_request env target s w).2
  else None.

(** The requests of a batch, URL by URL. *)
Fixpoint batch_requests (urls : list string) (s : WebScraper) (w : World)
  : list (option (Outcome (option Response))) :=
  match urls with
  | [] => []
  | u :: rest =>
      request_of u s w
      :: batch_requests rest (scrape_url rt env u s w).1.1 (scrape_url rt env u s w).1.2
  end.

(** The request was answered by a response that is no error. *)
Definition answered (o : option (Outcome (option Response))) : bool :=
  match o with Some (Return (Some _)) => true | _ => false end.

(** The request failed on its last attempt. *)
Definition gave_up (o : option (Outcome (option Response))) : bool :=
  match o with Some (Raise (RequestException _)) => true | _ => false end.

Definition how_many {A} (p : A -> bool) (l : list A) : Z :=
  Z.of_nat (List.length (List.filter p l)).

Lemma how_many_cons {A} (p : A -> bool) x l :
  how_many p (x :: l) = (if p x then 1 else 0) + how_many p l.
Proof. unfold how_many. simpl. destruct (p x); simpl; lia. Qed.

Lemma scrape_url_tally target s w :
  let s' := (scrape_url rt env target s w).1.1 in
  let o := request_of target s w in
  counted s s' (if answered o then 1 else 0) (if answered o then 1 else 0)
    (if gave_up o then 1 else 0).
Proof.
  cbv zeta. unfold request_of, scrape_url, fetch_document.
  destruct (validate_url rt target); simpl;
    [|unfold counted; repeat split; lia].
  destruct (use_selenium s); simpl.
  - destruct (selenium_source env _ target) as [soup | e];
      [destruct (run_extractor env s soup target)|];
      unfold counted; simpl; repeat split; lia.
  - unfold _make_request.
    pose proof (attempt_loop_tally target (Z.to_nat (max_retries s + 1)) 0 s w) as H.
    destruct (attempt_loop env target _ 0 s w) as [[s1 w1] [[r|] | [m | m]]];
      simpl in *;
      [destruct (run_extractor env s1 (resp_text r) target)| | |];
      simpl; tauto.
Qed.

Lemma scrape_loop_tally urls :
  forall acc s w,
    let s' := (scrape_loop rt env urls acc s w).1.1 in
    let outs := batch_requests urls s w in
    counted s s' (how_many answered outs) (how_many answered outs)
      (how_many gave_up outs).
Proof.
  induction urls as [|u rest IH]; intros acc s w.
  - unfold counted, how_many. simpl. repeat split; lia.
  - cbv zeta. cbn [batch_requests scrape_loop]. rewrite !how_many_cons.
    pose proof (scrape_url_tally u s w) as (U1 & U2 & U3).
    destruct (scrape_url rt env u s w) as [[s1 w1] result]. simpl in U1, U2, U3.
    destruct (IH (acc ++ [result]) s1 w1) as (I1 & I2 & I3).
    simpl. unfold counted. repeat split; lia.
Qed.

(** C10: the counters of the executor after a batch, whatever the network
    does.  [successful_requests] and [requests_made] have both grown by the
    number of URLs whose request was answered on some attempt (each such
    request incremented the two together, once); [failed_requests] has
    grown by the number of URLs whose request failed on its last attempt,
    and those left [requests_made] alone.  On a scraper with fresh
    statistics the two counters are therefore equal, and the success rate of
    [get_stats] is 100 as soon as one request has succeeded and 0
    otherwise, however many have failed. *)
Theorem stats_count_only_successes (urls : list string) (s : WebScraper) (w : World) :
  let s' := (scrape_multiple_urls rt env urls s w).1.1 in
  let successes := how_many answered (batch_requests urls s w) in
  let failures := how_many gave_up (batch_requests urls s w) in
  requests_made (stats s') = requests_made (stats s) + successes
  /\ successful_requests (stats s') = successful_requests (stats s) + successes
  /\ failed_requests (stats s') = failed_requests (stats s) + failures
  /\ (forall target s0 w0,
        request_tally target s0 (_make_request env target s0 w0).1.1
          (_make_request env target s0 w0).1.2 (_make_request env target s0 w0).2)
  /\ (stats s = new_stats ->
      requests_made (stats s') = successful_requests (stats s')
      /\ successful_requests (stats s') = successes
      /\ failed_requests (stats s') = failures
      /\ success_rate (get_stats s')
         = if 0 <? successes then 100%float else 0%float).
Proof.
  cbv zeta. unfold scrape_multiple_urls.
  destruct (scrape_loop_tally urls [] s w) as (H1 & H2 & H3).
  split; [exact H1|]. split; [exact H2|]. split; [exact H3|].
  split; [intros target s0 w0; apply attempt_loop_tally|].
  intros Hnew. rewrite Hnew in H1, H2, H3. simpl in H1, H2, H3.
  split; [lia|]. split; [exact H2|]. split; [exact H3|].
  unfold get_stats. cbn [success_rate]. rewrite H1, H2.
  assert (Hpos : 0 <= how_many answered (batch_requests urls s w))
    by (unfold how_many; lia).
  destruct (Z.ltb_spec 0 (how_many answered (batch_requests urls s w)))
    as [Hp | Hz].
  - rewrite Z.max_r by lia. rewrite int_truediv_same by exact Hp.
    vm_compute. reflexivity.
  - replace (how_many answered (batch_requests urls s w)) with 0 by lia.
    vm_compute. reflexivity.
Qed.

End SequentialExecutor.

(** ** The concurrent executor *)

Section ConcurrentExecutor.

Import Scraper AsyncScraper.

Variable rt : Runtime.
Variable env : Environment.
Variable a : AsyncWebScraper.

(** A coroutine that holds a permit. *)
Definition holds_permit (t : string * Phase) : nat :=
  match t.2 with Sleeping | Requesting _ => 1 | _ => 0 end.

(** The number of resumptions a coroutine still needs. *)
Definition steps_left (t : string * Phase) : nat :=
  match t.2 with Waiting => 3 | Sleeping => 2 | Requesting _ => 1 | Finished _ => 0 end.

(** The coroutine of [u]: it is still the one created for [u], and the
    result it has returned, if any, is about [u]. *)
Definition task_of (u : string) (t : string * Phase) : Prop :=
  t.1 = u /\ match t.2 with Finished r => url r = u | _ => True end.

(** What every batch spawned for [urls] satisfies, however far it has run. *)
Definition batch_inv (urls : list string) (b : Batch) : Prop :=
  Forall2 task_of urls (tasks b)
  /\ permits b + Z.of_nat (sum_list (holds_permit <$> tasks b)) = max_concurrent a.

Lemma sum_list_insert {A} (f : A -> nat) (l : list A) (i : nat) (x y : A) :
  l !! i = Some x ->
  (sum_list (f <$> <[i:=y]> l) + f x = sum_list (f <$> l) + f y)%nat.
Proof.
  revert i. induction l as [|z l IH]; intros [|i] H; simpl in *; try discriminate.
  - injection H as ->. lia.
  - specialize (IH i H). unfold fmap in IH. lia.
Qed.

Lemma Forall2_insert_r {A B} (P : A -> B -> Prop) (l : list A) (k : list B) i x y :
  Forall2 P l k -> l !! i = Some x -> P x y -> Forall2 P l (<[i:=y]> k).
Proof.
  intros HF Hl HP. rewrite <- (list_insert_id l i x Hl).
  apply Forall2_insert; assumption.
Qed.

Lemma fetch_result_url target n stamp : url (fetch_result rt env target n stamp) = target.
Proof. unfold fetch_result. destruct (aio_get env n target); reflexivity. Qed.

Lemma spawn_inv urls : batch_inv urls (spawn a urls).
Proof.
  split; simpl.
  - induction urls; constructor; [split; reflexivity | assumption].
  - assert (E : sum_list (holds_permit <$> map (fun u => (u, Waiting)) urls) = 0%nat)
      by (induction urls; simpl; auto).
    rewrite E. lia.
Qed.

Lemma task_of_lookup urls l i t :
  Forall2 task_of urls l -> l !! i = Some t -> urls !! i = Some t.1.
Proof.
  intros HF Hl. destruct (Forall2_lookup_r _ _ _ _ _ HF Hl) as (u & Hu & [E _]).
  rewrite Hu, E. reflexivity.
Qed.

Lemma advance_inv urls i b : batch_inv urls b -> batch_inv urls (advance rt env a i b).
Proof.
  intros [HF HP]. unfold advance.
  destruct (tasks b !! i) as [[target ph]|] eqn:Hi; [|split; assumption].
  pose proof (task_of_lookup _ _ _ _ HF Hi) as Hu. simpl in Hu.
  destruct ph as [| |n|r].
  - destruct (0 <? permits b); [|split; assumption].
    split; simpl.
    + eapply Forall2_insert_r; [exact HF | exact Hu | split; reflexivity].
    + pose proof (sum_list_insert holds_permit _ i _ (target, Sleeping) Hi) as E.
      unfold holds_permit at 2 4 in E. simpl in E. lia.
  - split; simpl.
    + eapply Forall2_insert_r; [exact HF | exact Hu | split; reflexivity].
    + pose proof (sum_list_insert holds_permit _ i _
                    (target, Requesting (issued b)) Hi) as E.
      unfold holds_permit at 2 4 in E. simpl in E. lia.
  - split; simpl.
    + eapply Forall2_insert_r; [exact HF | exact Hu |].
      split; [reflexivity | apply fetch_result_url].
    + pose proof (sum_list_insert holds_permit _ i _
                    (target, Finished (fetch_result rt env target n
                                         (List.length (effects b)))) Hi) as E.
      unfold holds_permit at 2 4 in E. simpl in E. lia.
  - split; assumption.
Qed.

Lemma run_inv urls schedule :
  forall b, batch_inv urls b -> batch_inv urls (run rt env a schedule b).
Proof.
  induction schedule as [|i rest IH]; intros b H; simpl; [assumption|].
  apply IH, advance_inv, H.
Qed.

Lemma run_app s1 s2 b :
  run rt env a (s1 ++ s2) b = run rt env a s2 (run rt env a s1 b).
Proof. unfold run. apply fold_left_app. Qed.

(** The join hands the results back in the order of the input. *)
Lemma gather_urls urls b outs :
  batch_inv urls b -> gather b = Some outs -> map url outs = urls.
Proof.
  intros [HF _] HG. unfold gather in HG. apply mapM_Some in HG.
  revert outs HG. induction HF as [|u t urls l [Ht Hr] HF IH]; intros outs HG.
  - inversion HG. reflexivity.
  - inversion HG as [|t' r l' outs' Hfin HG']; subst. simpl.
    rewrite (IH _ HG'). f_equal.
    unfold finished in Hfin. destruct (t.2); try discriminate.
    injection Hfin as <-. exact Hr.
Qed.

(** Once nothing is left to do, the join returns. *)
Lemma gather_done (l : list (string * Phase)) :
  sum_list (steps_left <$> l) = 0%nat -> is_Some (mapM finished l).
Proof.
  intros H. apply mapM_is_Some.
  induction l as [|[u ph] l IH]; constructor.
  - simpl in H. unfold steps_left in H at 1. simpl in H.
    destruct ph; try lia. eexists; reflexivity.
  - apply IH. simpl in H. unfold fmap. lia.
Qed.

(** Either some coroutine holds a permit, or none does. *)
Lemma find_holder (l : list (string * Phase)) :
  (exists i u, l !! i = Some (u, Sleeping) \/ exists n, l !! i = Some (u, Requesting n))
  \/ sum_list (holds_permit <$> l) = 0%nat.
Proof.
  induction l as [|[u ph] l IH]; [right; reflexivity|].
  destruct ph as [| |n|r].
  - destruct IH as [(i & v & H) | H]; [left; exists (S i), v; exact H | right; exact H].
  - left; exists 0%nat, u; left; reflexivity.
  - left; exists 0%nat, u; right; exists n; reflexivity.
  - destruct IH as [(i & v & H) | H]; [left; exists (S i), v; exact H | right; exact H].
Qed.

(** With no permit held and work left, some coroutine waits for a permit. *)
Lemma find_waiting (l : list (string * Phase)) :
  sum_list (holds_permit <$> l) = 0%nat ->
  (0 < sum_list (steps_left <$> l))%nat ->
  exists i u, l !! i = Some (u, Waiting).
Proof.
  induction l as [|[u ph] l IH]; simpl; intros H0 Hpos; [lia|].
  destruct ph as [| |n|r].
  - exists 0%nat, u; reflexivity.
  - unfold holds_permit in H0 at 1; simpl in H0; lia.
  - unfold holds_permit in H0 at 1; simpl in H0; lia.
  - unfold holds_permit in H0 at 1; unfold steps_left in Hpos at 1; simpl in *.
    destruct (IH H0 Hpos) as (i & v & H). exists (S i), v; exact H.
Qed.

(** While work is left and the semaphore was created with a permit, the
    event loop can resume a coroutine that gets one step closer to its end. *)
Lemma progress urls b :
  0 < max_concurrent a -> batch_inv urls b ->
  (0 < sum_list (steps_left <$> tasks b))%nat ->
  exists i, S (sum_list (steps_left <$> tasks (advance rt env a i b)))
            = sum_list (steps_left <$> tasks b).
Proof.
  intros Hmax [_ HP] Hpos.
  destruct (find_holder (tasks b)) as [(i & u & [H | [n H]]) | H0].
  - exists i. unfold advance. rewrite H. simpl.
    pose proof (sum_list_insert steps_left _ i _ (u, Requesting (issued b)) H) as E.
    unfold steps_left at 2 4 in E. simpl in E. lia.
  - exists i. unfold advance. rewrite H. simpl.
    pose proof (sum_list_insert steps_left _ i _
                  (u, Finished (fetch_result rt env u n (List.length (effects b)))) H) as E.
    unfold steps_left at 2 4 in E. simpl in E. lia.
  - destruct (find_waiting _ H0 Hpos) as (i & u & H).
    exists i. unfold advance. rewrite H.
    assert (Hp : (0 <? permits b) = true) by (apply Z.ltb_lt; lia).
    rewrite Hp. simpl.
    pose proof (sum_list_insert steps_left _ i _ (u, Sleeping) H) as E.
    unfold steps_left at 2 4 in E. simpl in E. lia.
Qed.

(** From wherever the batch stands, some continuation of the schedule
    completes the join. *)
Lemma completion urls (n : nat) :
  0 < max_concurrent a ->
  forall b, batch_inv urls b -> sum_list (steps_left <$> tasks b) = n ->
  exists rest, is_Some (gather (run rt env a rest b)).
Proof.
  intros Hmax. induction n as [|n IH]; intros b Hinv Hn.
  - exists []. simpl. apply gather_done, Hn.
  - destruct (progress urls b Hmax Hinv ltac:(lia)) as [i Hi].
    destruct (IH (advance rt env a i b)) as [rest Hrest];
      [apply advance_inv, Hinv | lia |].
    exists (i :: rest). exact Hrest.
Qed.

End ConcurrentExecutor.

(** ** Batches: one outcome per URL, in input order *)

(** C1: a batch returns exactly one outcome per input URL, the i-th about
    the i-th URL.  For the sequential executor this is the list it returns;
    for the concurrent executor it holds of the list the join returns under
    any schedule of the event loop (any completion order), and from any point
    of any schedule the join can still complete, provided the semaphore was
    created with at least one permit. *)
Theorem one_outcome_per_url (rt : Runtime) (env : Environment) (urls : list string) :
  (forall s w,
     let results := (Scraper.scrape_multiple_urls rt env urls s w).2 in
     List.length results = List.length urls /\ map Scraper.url results = urls)
  /\ (forall a schedule outs,
        AsyncScraper.scrape_multiple_async rt env a urls schedule = Some outs ->
        List.length outs = List.length urls
        /\ map Scraper.url outs = urls
        /\ forall i, Scraper.url <$> outs !! i = urls !! i)
  /\ (forall a schedule,
        0 < AsyncScraper.max_concurrent a ->
        exists rest outs,
          AsyncScraper.scrape_multiple_async rt env a urls (schedule ++ rest)
          = Some outs).
Proof.
  split; [|split].
  - intros s w. cbv zeta. unfold Scraper.scrape_multiple_urls.
    pose proof (scrape_loop_urls rt env urls [] s w) as H. simpl in H.
    split; [|exact H].
    rewrite <- (length_map Scraper.url), H. reflexivity.
  - intros a schedule outs H. unfold AsyncScraper.scrape_multiple_async in H.
    assert (E : map Scraper.url outs = urls).
    { eapply gather_urls; [|exact H]. apply run_inv, spawn_inv. }
    split; [|split; [exact E|]].
    + rewrite <- (length_map Scraper.url), E. reflexivity.
    + intros i. rewrite <- E. symmetry. apply list_lookup_fmap.
  - intros a schedule Hmax. unfold AsyncScraper.scrape_multiple_async.
    pose (b := AsyncScraper.run rt env a schedule (AsyncScraper.spawn a urls)).
    destruct (completion rt env a urls
                (sum_list (steps_left <$> AsyncScraper.tasks b)) Hmax b)
      as [rest [outs Hrest]].
    + apply run_inv, spawn_inv.
    + reflexivity.
    + exists rest, outs. rewrite run_app. exact Hrest.
Qed.

Lemma one_outcome_per_url_witness :
  exists outs,
    AsyncScraper.scrape_multiple_async Demo.runtime (Demo.network_answering 200)
      (Demo.async_scraper 2) ["http://a.example/"; "http://b.example/"; "http://c.example/"]%string
      [2; 0; 1; 2; 0; 0; 1; 2; 1; 1; 1]%nat = Some outs
    /\ map Scraper.url outs
       = ["http://a.example/"; "http://b.example/"; "http://c.example/"]%string.
Proof.
  eexists. split; [vm_compute; reflexivity|].
  refine (proj1 (proj2 (proj1 (proj2 (one_outcome_per_url Demo.runtime
            (Demo.network_answering 200) _)) (Demo.async_scraper 2)
            [2; 0; 1; 2; 0; 0; 1; 2; 1; 1; 1]%nat _ _))).
  vm_compute. reflexivity.
Defined.

(** A schedule under which the coroutines finish in the order first, third,
    second; the join still answers in input order. *)
Example gather_order_ex :
  let b := AsyncScraper.run Demo.runtime (Demo.network_answering 200)
             (Demo.async_scraper 2)
             [2; 0; 1; 2; 0; 0; 1; 2; 1; 1; 1]%nat
             (AsyncScraper.spawn (Demo.async_scraper 2)
                ["http://a.example/"; "http://b.example/"; "http://c.example/"]%string) in
  List.filter (fun e => match e with AsyncScraper.Release _ => true | _ => false end)
    (AsyncScraper.effects b)
  = [AsyncScraper.Release "http://a.example/"; AsyncScraper.Release "http://c.example/";
     AsyncScraper.Release "http://b.example/"]
  /\ (map Scraper.url <$> AsyncScraper.gather b)
     = Some ["http://a.example/"; "http://b.example/"; "http://c.example/"]%string
  /\ AsyncScraper.permits b = 2.
Proof. vm_compute. repeat split. Qed.

Lemma invalid_url_fails_fast_witness :
  lacks_scheme_or_host Demo.runtime "not-a-url"
  /\ (Scraper.scrape_url Demo.runtime (Demo.network_answering 200) "not-a-url"
        (Demo.scraper 1 3) Scraper.new_world).1
     = (Demo.scraper 1 3, Scraper.new_world).
Proof.
  assert (H : lacks_scheme_or_host Demo.runtime "not-a-url") by (left; reflexivity).
  split; [exact H|].
  pose proof (invalid_url_fails_fast Demo.runtime (Demo.network_answering 200)
                "not-a-url" (Demo.scraper 1 3) Scraper.new_world H) as T.
  destruct (Scraper.scrape_url _ _ _ _ _) as [[s' w'] result].
  destruct T as (_ & _ & _ & _ & -> & -> & _). reflexivity.
Defined.

Lemma retry_ladder_exhausted_witness :
  let '(s', w', result) :=
    Scraper.scrape_url Demo.runtime Demo.network_down "https://example.com/"
      (Demo.scraper 1 2) Scraper.new_world in
  Scraper.effects w'
    = [Scraper.Sleep 1.5; Scraper.HttpGet "https://example.com/"; Scraper.Backoff 1;
       Scraper.Sleep 1.5; Scraper.HttpGet "https://example.com/"; Scraper.Backoff 2;
       Scraper.Sleep 1.5; Scraper.HttpGet "https://example.com/"]
  /\ Scraper.total_delay_time (Scraper.stats s') = 4.5%float
  /\ Scraper.error_message result = Some "timed out, request 2"%string.
Proof.
  pose proof (retry_ladder_exhausted Demo.runtime Demo.network_down
                "https://example.com/" (Demo.scraper 1 2) Scraper.new_world 2
                eq_refl eq_refl eq_refl eq_refl (fun n => I)) as T.
  destruct (Scraper.scrape_url _ _ _ _ _) as [[s' w'] result].
  destruct T as (E & _ & _ & _ & _ & D & _ & _ & _ & _ & M).
  rewrite E, D, M. vm_compute. repeat split.
Defined.

(** The statistics after a batch in which nothing succeeded and after one in
    which everything did. *)
Example get_stats_ex :
  let failed := (Scraper.scrape_multiple_urls Demo.runtime (Demo.network_answering 500)
                   ["https://example.com/a"; "https://example.com/b"]%string
                   (Demo.scraper 0 1) Scraper.new_world).1.1 in
  let mixed := (Scraper.scrape_multiple_urls Demo.runtime (Demo.network_answering 200)
                  ["https://example.com/a"; "not-a-url"]%string
                  failed Scraper.new_world).1.1 in
  Scraper.stats failed
    = {| Scraper.requests_made := 0; Scraper.successful_requests := 0;
         Scraper.failed_requests := 2; Scraper.total_delay_time := 0 |}
  /\ Scraper.success_rate (Scraper.get_stats failed) = 0%float
  /\ Scraper.stats mixed
     = {| Scraper.requests_made := 1; Scraper.successful_requests := 1;
          Scraper.failed_requests := 2; Scraper.total_delay_time := 0 |}
  /\ Scraper.success_rate (Scraper.get_stats mixed) = 100%float.
Proof. vm_compute. repeat split. Qed.

(** C4, the code at a 404 answer: the concurrent executor reports the URL as
    a success with status 404 and no error text, where the sequential
    executor, for the same answer, reports a failure. *)
Lemma async_error_status_is_success :
  AsyncScraper.scrape_multiple_async Demo.runtime (Demo.network_answering 404)
    (Demo.async_scraper 2) ["https://example.com/missing"]%string [0; 0; 0]%nat
  = Some [ {| Scraper.url := "https://example.com/missing";
              Scraper.status_code := 404;
              Scraper.success := true;
              Scraper.data := [("url"%string, VStr "https://example.com/missing");
                               ("title"%string, VStr "");
                               ("text_length"%string, VInt 13)];
              Scraper.timestamp := 3;
              Scraper.error_message := None |} ]
  /\ Scraper.success
       (Scraper.scrape_url Demo.runtime (Demo.network_answering 404)
          "https://example.com/missing" (Demo.scraper 0 0) Scraper.new_world).2
     = false.
Proof. vm_compute. split; reflexivity. Qed.

(** ** The sampler's ring buffer *)

Section RingBuffer.

Import Monitoring.

Context {A : Type}.

Definition appends (maxlen : nat) (xs : list A) (d : list A) : list A :=
  fold_left (fun acc x => deque_append maxlen x acc) xs d.

Lemma deque_append_drop (maxlen : nat) (x : A) (d : list A) :
  (List.length d <= maxlen)%nat ->
  deque_append maxlen x d = drop (List.length (d ++ [x]) - maxlen) (d ++ [x])
  /\ (List.length (deque_append maxlen x d) <= maxlen)%nat.
Proof.
  intros H. unfold deque_append. rewrite length_app. simpl.
  destruct (Nat.ltb_spec maxlen (List.length d + 1)) as [Hfull | Hroom].
  - replace (List.length d + 1 - maxlen)%nat with 1%nat by lia.
    split; [reflexivity|]. rewrite length_drop, length_app. simpl. lia.
  - replace (List.length d + 1 - maxlen)%nat with 0%nat by lia.
    split; [reflexivity|]. rewrite length_app. simpl. lia.
Qed.

(** A bounded deque holds the most recent [maxlen] of everything it held
    or was given. *)
Lemma appends_drop (maxlen : nat) (xs : list A) :
  forall d, (List.length d <= maxlen)%nat ->
    appends maxlen xs d = drop (List.length (d ++ xs) - maxlen) (d ++ xs).
Proof.
  induction xs as [|x xs IH]; intros d H.
  - simpl. rewrite app_nil_r.
    replace (List.length d - maxlen)%nat with 0%nat by lia. reflexivity.
  - destruct (deque_append_drop maxlen x d H) as [E Hlen].
    change (appends maxlen (x :: xs) d)
      with (appends maxlen xs (deque_append maxlen x d)).
    rewrite (IH _ Hlen), E. clear IH E Hlen.
    rewrite !length_app, length_drop, length_app. simpl.
    set (k := (List.length d + 1 - maxlen)%nat).
    assert (Hk : (k <= List.length (d ++ [x]))%nat)
      by (rewrite length_app; simpl; lia).
    rewrite <- (drop_app_le (d ++ [x]) xs k Hk), drop_drop, <- app_assoc. simpl.
    f_equal. lia.
Qed.

End RingBuffer.

Lemma monitor_wake_history c pm :
  Monitoring.monitoring pm = true ->
  Monitoring.monitoring (Monitoring.monitor_wake c pm) = true
  /\ Monitoring.metrics_history (Monitoring.monitor_wake c pm)
     = match c with
       | Some m => Monitoring.deque_append Monitoring.history_maxlen m
                     (Monitoring.metrics_history pm)
       | None => Monitoring.metrics_history pm
       end.
Proof.
  intros H. unfold Monitoring.monitor_wake. rewrite H.
  destruct c; simpl; split; solve [reflexivity | exact H].
Qed.

Lemma monitor_loop_appends captures :
  forall pm,
    Monitoring.monitoring pm = true ->
    Monitoring.metrics_history (Monitoring._monitor_loop captures pm)
    = appends Monitoring.history_maxlen (omap id captures)
        (Monitoring.metrics_history pm).
Proof.
  induction captures as [|c rest IH]; intros pm Hpm; [reflexivity|].
  change (Monitoring._monitor_loop (c :: rest) pm)
    with (Monitoring._monitor_loop rest (Monitoring.monitor_wake c pm)).
  destruct (monitor_wake_history c pm Hpm) as [Hm Hh].
  rewrite (IH _ Hm), Hh. destruct c; reflexivity.
Qed.

(** C9: however many measurements the loop appends, the history is the most
    recent ones, at most 1000 of them: after 1000 + K appends, the K oldest
    are gone and the 1000 newest remain, in order.  Wakes whose measurement
    fails append nothing. *)
Theorem ring_buffer_keeps_newest (i : float) (captures : list (option Monitoring.Sample)) :
  let samples := omap id captures in
  let pm := Monitoring._monitor_loop captures
              (Monitoring.start_monitoring (Monitoring.new_performance_monitor i)) in
  Monitoring.metrics_history pm = drop (List.length samples - 1000) samples
  /\ List.length (Monitoring.metrics_history pm) = Nat.min (List.length samples) 1000
  /\ (List.length (Monitoring.metrics_history pm) <= 1000)%nat.
Proof.
  cbv zeta. rewrite monitor_loop_appends by reflexivity.
  simpl Monitoring.metrics_history.
  rewrite appends_drop by (simpl; lia). simpl app.
  unfold Monitoring.history_maxlen.
  split; [reflexivity|]. rewrite length_drop. lia.
Qed.

Example ring_buffer_ex :
  appends 3 [4; 5; 6; 7; 8]%nat [1; 2; 3]%nat = [6; 7; 8]%nat
  /\ appends 0 [1; 2]%nat [] = []
  /\ appends 3 [1; 2]%nat [] = [1; 2]%nat.
Proof. repeat split. Qed.

(** ** The metrics aggregator *)

Section Aggregator.

Import Monitoring.

Variable rt : Runtime.

(** The invariant as the specification words it: the average is the
    cumulative processing time over the completions, 0 without any. *)
Definition average_is_total_over_completions (m : ScrapingMetrics) : Prop :=
  average_response_time m
  = if successful_requests m + failed_requests m =? 0 then 0%float
    else float_div_int (total_processing_time m)
           (successful_requests m + failed_requests m).

Definition completions (m : ScrapingMetrics) : Z :=
  successful_requests m + failed_requests m.

(** The progress part of [log_request] touches the tracker only. *)
Lemma update_progress_frame r (mt : Moment) mon :
  metrics (update_progress r mt mon).1 = metrics mon
  /\ alerts (update_progress r mt mon).1 = alerts mon
  /\ performance_monitor (update_progress r mt mon).1 = performance_monitor mon
  /\ error_rate_threshold (update_progress r mt mon).1 = error_rate_threshold mon
  /\ response_time_threshold (update_progress r mt mon).1 = response_time_threshold mon
  /\ memory_threshold (update_progress r mt mon).1 = memory_threshold mon.
Proof.
  unfold update_progress. destruct (progress_tracker mon) as [p|];
    [destruct (tracker_update _ _ _ _) as [p' raised]|]; repeat split.
Qed.

(** [log_request] by cases on what the progress part raises. *)
Lemma log_request_cases r (mt : Moment) mon :
  let mon1 := with_metrics mon (update_metrics rt r (metrics mon)) in
  log_request rt r mt mon
  = match (update_progress r mt mon1).2 with
    | Some e => ((update_progress r mt mon1).1, Some e)
    | None => _check_alerts rt (update_progress r mt mon1).1
    end.
Proof.
  cbv zeta. unfold log_request.
  destruct (update_progress r mt _) as [mon2 [e|]]; reflexivity.
Qed.

Lemma log_request_metrics r (mt : Moment) mon :
  metrics (log_request rt r mt mon).1 = update_metrics rt r (metrics mon).
Proof.
  rewrite log_request_cases. cbv zeta.
  destruct (update_progress_frame r mt
              (with_metrics mon (update_metrics rt r (metrics mon)))) as (Em & _).
  destruct (update_progress r mt _).2; simpl.
  - exact Em.
  - unfold _check_alerts. destruct (check_memory rt _ _) as [l3 raised]. exact Em.
Qed.

Lemma check_alerts_frame mon :
  metrics (_check_alerts rt mon).1 = metrics mon
  /\ progress_tracker (_check_alerts rt mon).1 = progress_tracker mon
  /\ performance_monitor (_check_alerts rt mon).1 = performance_monitor mon
  /\ error_rate_threshold (_check_alerts rt mon).1 = error_rate_threshold mon
  /\ response_time_threshold (_check_alerts rt mon).1 = response_time_threshold mon
  /\ memory_threshold (_check_alerts rt mon).1 = memory_threshold mon.
Proof.
  unfold _check_alerts. destruct (check_memory rt _ _) as [l raised]. repeat split.
Qed.

(** The progress part does not read the metrics. *)
Lemma update_progress_with_metrics r (mt : Moment) mon m :
  (update_progress r mt (with_metrics mon m)).2 = (update_progress r mt mon).2
  /\ progress_tracker (update_progress r mt (with_metrics mon m)).1
     = progress_tracker (update_progress r mt mon).1.
Proof.
  unfold update_progress. simpl. destruct (progress_tracker mon) as [p|];
    [destruct (tracker_update _ _ _ _) as [p' raised]|]; split; reflexivity.
Qed.

Lemma log_request_frame r (mt : Moment) mon :
  progress_tracker (log_request rt r mt mon).1
  = progress_tracker (update_progress r mt mon).1
  /\ performance_monitor (log_request rt r mt mon).1 = performance_monitor mon
  /\ error_rate_threshold (log_request rt r mt mon).1 = error_rate_threshold mon
  /\ response_time_threshold (log_request rt r mt mon).1 = response_time_threshold mon
  /\ memory_threshold (log_request rt r mt mon).1 = memory_threshold mon.
Proof.
  rewrite log_request_cases. cbv zeta.
  destruct (update_progress_frame r mt
              (with_metrics mon (update_metrics rt r (metrics mon))))
    as (_ & _ & F3 & F4 & F5 & F6).
  destruct (update_progress_with_metrics r mt mon (update_metrics rt r (metrics mon)))
    as (_ & Ft).
  simpl in F3, F4, F5, F6.
  destruct (update_progress r mt (with_metrics mon _)) as [mon2 [e|]];
    simpl in *.
  - repeat split; assumption.
  - destruct (check_alerts_frame mon2) as (_ & C2 & C3 & C4 & C5 & C6).
    rewrite C2, C3, C4, C5, C6. repeat split; assumption.
Qed.

(** An update counts and files its item whether or not the display raises. *)
Lemma tracker_update_counts increment info (mt : Moment) p :
  let p' := (tracker_update increment info mt p).1 in
  total_items p' = total_items p
  /\ current_item p' = current_item p + increment
  /\ completed_items p'
     = (if item_success info then completed_items p ++ [info] else completed_items p)
  /\ failed_items p'
     = (if item_success info then failed_items p else failed_items p ++ [info]).
Proof.
  cbv zeta. unfold tracker_update, count_item.
  destruct (PrimFloat.leb _ _); [destruct (_display_progress _ _)|];
    repeat split.
Qed.

Lemma update_metrics_completions r m :
  completions (update_metrics rt r m) = completions m + 1.
Proof. unfold completions, update_metrics. simpl. destruct (req_success r); lia. Qed.

Lemma update_metrics_timed r m :
  opt_float_truthy (req_response_time r) = true ->
  average_response_time (update_metrics rt r m)
  = float_div_int (total_processing_time (update_metrics rt r m))
      (completions (update_metrics rt r m)).
Proof.
  intros H. unfold completions, update_metrics. simpl. rewrite H. reflexivity.
Qed.

Lemma update_metrics_untimed r m :
  opt_float_truthy (req_response_time r) = false ->
  average_response_time (update_metrics rt r m) = average_response_time m
  /\ total_processing_time (update_metrics rt r m) = total_processing_time m.
Proof.
  intros H. unfold update_metrics. simpl. rewrite H.
  split; [reflexivity|].
  destruct (req_response_time r) as [x|]; [|reflexivity].
  simpl in H. rewrite H. reflexivity.
Qed.

(** A run of [log_request] calls. *)
Definition log_requests (rs : list (Request * Moment)) (mon : ScrapingMonitor)
  : ScrapingMonitor :=
  fold_left (fun acc rq => (log_request rt rq.1 rq.2 acc).1) rs mon.

Lemma log_requests_invariant rs :
  forall mon,
    0 <= completions (metrics mon) ->
    average_is_total_over_completions (metrics mon) ->
    Forall (fun rq => opt_float_truthy (req_response_time rq.1) = true) rs ->
    0 <= completions (metrics (log_requests rs mon))
    /\ average_is_total_over_completions (metrics (log_requests rs mon)).
Proof.
  induction rs as [|[r t] rs IH]; intros mon Hpos Hinv Hall; [split; assumption|].
  inversion Hall as [|? ? Hr Hrest]; subst. simpl in Hr.
  simpl. apply IH; [| |exact Hrest]; rewrite log_request_metrics.
  - rewrite update_metrics_completions. lia.
  - unfold average_is_total_over_completions.
    pose proof (update_metrics_completions r (metrics mon)) as Hc.
    unfold completions in Hc, Hpos. rewrite Hc.
    destruct (Z.eqb_spec (successful_requests (metrics mon)
                          + failed_requests (metrics mon) + 1) 0) as [E|_]; [lia|].
    rewrite <- Hc. apply update_metrics_timed, Hr.
Qed.

(** C5, as the code has it: a record adds one completion; when its response
    time is present and not zero, the average becomes the cumulative time over
    the completions; when it is zero or absent, average and cumulative time
    stay as they were.  A session starts with average 0, so the invariant of
    the specification holds after every run of records that all carry a
    response time. *)
Theorem average_recomputed_on_timed_records (r : Request) (mt : Moment)
    (mon : ScrapingMonitor) :
  let m := metrics mon in
  let m' := metrics (log_request rt r mt mon).1 in
  completions m' = completions m + 1
  /\ (opt_float_truthy (req_response_time r) = true ->
      average_response_time m' = float_div_int (total_processing_time m') (completions m'))
  /\ (opt_float_truthy (req_response_time r) = false ->
      average_response_time m' = average_response_time m
      /\ total_processing_time m' = total_processing_time m)
  /\ (forall total now tnow,
        average_response_time (metrics (start_session total now tnow mon)) = 0%float)
  /\ (forall total now tnow rs,
        Forall (fun rq => opt_float_truthy (req_response_time rq.1) = true) rs ->
        average_is_total_over_completions
          (metrics (log_requests rs (start_session total now tnow mon)))).
Proof.
  cbv zeta. rewrite log_request_metrics.
  split; [apply update_metrics_completions|].
  split; [apply update_metrics_timed|].
  split; [apply update_metrics_untimed|].
  split; [reflexivity|].
  intros total now tnow rs Hall.
  apply log_requests_invariant; [simpl; unfold completions; simpl; lia | | exact Hall].
  reflexivity.
Qed.

(** Two dictionaries that agree on every entry but [duration_seconds]. *)
Definition same_but_duration (d1 d2 : MetricsDict) : Prop :=
  d_start_time d1 = d_start_time d2
  /\ d_end_time d1 = d_end_time d2
  /\ d_total_urls d1 = d_total_urls d2
  /\ d_successful_requests d1 = d_successful_requests d2
  /\ d_failed_requests d1 = d_failed_requests d2
  /\ d_success_rate d1 = d_success_rate d2
  /\ d_total_bytes_downloaded d1 = d_total_bytes_downloaded d2
  /\ d_total_processing_time d1 = d_total_processing_time d2
  /\ d_average_response_time d1 = d_average_response_time d2
  /\ d_requests_per_second d1 = d_requests_per_second d2
  /\ d_errors_by_type d1 = d_errors_by_type d2
  /\ d_status_codes d1 = d_status_codes d2
  /\ d_domain_stats d1 = d_domain_stats d2.

(** The session is marked as ended before the tracker finishes. *)
Lemma end_session_end_time now (mt : Moment) mon :
  end_time (metrics (end_session now mt mon).1) = Some now.
Proof.
  unfold end_session.
  destruct (progress_tracker mon) as [p|];
    [destruct (tracker_finish mt p) as [p' raised]|];
    simpl; destruct (_ && _); reflexivity.
Qed.

Lemma end_session_frame now (mt : Moment) mon :
  alerts (end_session now mt mon).1 = alerts mon
  /\ error_rate_threshold (end_session now mt mon).1 = error_rate_threshold mon
  /\ response_time_threshold (end_session now mt mon).1 = response_time_threshold mon
  /\ memory_threshold (end_session now mt mon).1 = memory_threshold mon.
Proof.
  unfold end_session.
  destruct (progress_tracker mon) as [p|];
    [destruct (tracker_finish mt p) as [p' raised]|]; repeat split.
Qed.

Lemma end_session_counts now (mt : Moment) mon :
  successful_requests (metrics (end_session now mt mon).1)
  = successful_requests (metrics mon)
  /\ failed_requests (metrics (end_session now mt mon).1) = failed_requests (metrics mon).
Proof.
  unfold end_session.
  destruct (progress_tracker mon) as [p|];
    [destruct (tracker_finish mt p) as [p' raised]|];
    simpl; destruct (_ && _); split; reflexivity.
Qed.

(** C6, as the code has it: two snapshots of the same metrics, taken at
    clock readings [now1] and [now2], are equal once the session has ended;
    before that they agree on every entry except [duration_seconds], which
    is the time from the start to the reading of each call. *)
Theorem snapshot_idempotent_once_ended (m : ScrapingMetrics) (now1 now2 : Z) :
  (is_Some (end_time m) -> to_dict m now1 = to_dict m now2)
  /\ same_but_duration (to_dict m now1) (to_dict m now2)
  /\ (end_time m = None ->
      d_duration_seconds (to_dict m now1) = total_seconds (now1 - start_time m)
      /\ d_duration_seconds (to_dict m now2) = total_seconds (now2 - start_time m))
  /\ (forall mon now mt,
        to_dict (metrics (end_session now mt mon).1) now1
        = to_dict (metrics (end_session now mt mon).1) now2).
Proof.
  split; [|split; [|split]].
  - intros [e He]. unfold to_dict, duration. rewrite He. reflexivity.
  - unfold same_but_duration. repeat split.
  - intros He. unfold to_dict, duration. simpl. rewrite He. split; reflexivity.
  - intros mon now mt. unfold to_dict, duration.
    rewrite end_session_end_time. reflexivity.
Qed.

End Aggregator.

(** ** The alert evaluator *)

Section Alerts.

Import Monitoring.

Variable rt : Runtime.

(** The messages of the rules in breach, in the order of the rules, as the
    specification describes them: the error rate once ten requests have
    completed, the average response time, and the sampler's average memory
    once it has a measurement. *)
Definition breached_alerts (mon : ScrapingMonitor) : list string :=
  let m := metrics mon in
  (if (10 <=? successful_requests m + failed_requests m)
      && float_gt (error_rate m) (error_rate_threshold mon)
   then [error_rate_alert rt (error_rate m) (error_rate_threshold mon)] else [])
  ++ (if float_gt (average_response_time m) (response_time_threshold mon)
      then [slow_response_alert (average_response_time m)] else [])
  ++ match get_current_stats rt (performance_monitor mon) with
     | Some st =>
         if float_gt (avg_memory_percent st) (memory_threshold mon)
         then [memory_alert (avg_memory_percent st)] else []
     | None => []
     end.

Definition add_alerts (msgs l : list string) : list string :=
  fold_left (fun acc a => add_alert a acc) msgs l.

Definition occurrences (a : string) (l : list string) : nat :=
  count_occ string_dec l a.

Lemma check_alerts_breached mon :
  alerts (_check_alerts rt mon).1 = add_alerts (breached_alerts mon) (alerts mon).
Proof.
  unfold _check_alerts, breached_alerts, check_memory, check_response_time,
    check_error_rate, add_alerts.
  rewrite !fold_left_app.
  destruct (10 <=? _); simpl;
    [destruct (float_gt (error_rate _) _); simpl|];
    (destruct (float_gt (average_response_time _) _); simpl);
    (destruct (get_current_stats rt _) as [st|];
     [destruct (float_gt (avg_memory_percent st) _)
     |destruct (float_gt 0 _)]); reflexivity.
Qed.

Lemma add_alert_prefix a l : l `prefix_of` add_alert a l.
Proof.
  unfold add_alert. destruct (bool_decide (a ∈ l)); [reflexivity|].
  apply prefix_app_r. reflexivity.
Qed.

Lemma add_alerts_prefix msgs : forall l, l `prefix_of` add_alerts msgs l.
Proof.
  induction msgs as [|a msgs IH]; intros l; [reflexivity|].
  etransitivity; [apply (add_alert_prefix a)|apply IH].
Qed.

Lemma occurrences_absent a l : a ∉ l -> occurrences a l = 0%nat.
Proof.
  intros H. apply count_occ_not_In. rewrite <- list_elem_of_In. exact H.
Qed.

Lemma add_alert_occurrences a b l :
  occurrences b (add_alert a l)
  = if decide (b ∈ l) then occurrences b l
    else if decide (a = b) then 1%nat else 0%nat.
Proof.
  unfold add_alert, occurrences. destruct (bool_decide_reflect (a ∈ l)) as [Ha | Ha].
  - destruct (decide (b ∈ l)) as [Hb | Hb]; [reflexivity|].
    destruct (decide (a = b)) as [-> | _]; [contradiction|].
    apply occurrences_absent, Hb.
  - rewrite count_occ_app. simpl.
    destruct (decide (b ∈ l)) as [Hb | Hb].
    + destruct (string_dec a b) as [-> | _]; [contradiction | lia].
    + fold (occurrences b l). rewrite (occurrences_absent _ _ Hb).
      destruct (string_dec a b), (decide (a = b)); simpl;
        first [reflexivity | contradiction].
Qed.

Lemma add_alert_elem a b l : b ∈ add_alert a l <-> b ∈ l \/ b = a.
Proof.
  unfold add_alert. destruct (bool_decide_reflect (a ∈ l)) as [Ha | Ha].
  - split; [auto | intros [H | ->]; assumption].
  - rewrite elem_of_app, list_elem_of_singleton. reflexivity.
Qed.

(** A string occurs after the rules have run as often as before if it was
    there, once if it is the message of a breach, and not at all otherwise. *)
Lemma add_alerts_occurrences msgs b :
  forall l,
    occurrences b (add_alerts msgs l)
    = if decide (b ∈ l) then occurrences b l
      else if decide (b ∈ msgs) then 1%nat else 0%nat.
Proof.
  induction msgs as [|a msgs IH]; intros l.
  - change (add_alerts [] l) with l.
    destruct (decide (b ∈ l)) as [H | H]; [reflexivity|].
    destruct (decide (b ∈ [])) as [Hn | _]; [by apply not_elem_of_nil in Hn|].
    apply occurrences_absent, H.
  - change (add_alerts (a :: msgs) l) with (add_alerts msgs (add_alert a l)).
    rewrite IH, add_alert_occurrences.
    destruct (decide (b ∈ add_alert a l)) as [H1 | H1];
      rewrite add_alert_elem in H1.
    + destruct (decide (b ∈ l)) as [H | H]; [reflexivity|].
      destruct H1 as [H1 | ->]; [contradiction|].
      rewrite !decide_True; [reflexivity | | reflexivity]. left.
    + destruct (decide (b ∈ l)) as [H | H]; [tauto|].
      destruct (decide (b ∈ msgs)) as [Hm | Hm].
      * rewrite decide_True by (right; exact Hm). reflexivity.
      * rewrite decide_False; [reflexivity|].
        rewrite elem_of_cons. intros [-> | ?]; tauto.
Qed.

Lemma add_alerts_elem msgs b : forall l, b ∈ msgs -> b ∈ add_alerts msgs l.
Proof.
  intros l Hb. apply list_elem_of_In, (count_occ_In string_dec).
  fold (occurrences b (add_alerts msgs l)). rewrite add_alerts_occurrences.
  destruct (decide (b ∈ l)) as [H | H].
  - apply (count_occ_In string_dec), list_elem_of_In, H.
  - rewrite decide_True by exact Hb. lia.
Qed.

Lemma string_length_app (s t : string) :
  String.length (s +:+ t) = (String.length s + String.length t)%nat.
Proof. induction s as [|c s IH]; simpl; [reflexivity | rewrite IH; reflexivity]. Qed.

Lemma string_app_cancel_r (t : string) :
  forall s1 s2 : string, s1 +:+ t = s2 +:+ t -> s1 = s2.
Proof.
  induction s1 as [|c s1 IH]; intros [|c' s2] H; simpl in H.
  - reflexivity.
  - apply (f_equal String.length) in H. simpl in H.
    rewrite !string_length_app in H. simpl in H. lia.
  - apply (f_equal String.length) in H. simpl in H.
    rewrite !string_length_app in H. simpl in H. lia.
  - injection H as -> H. f_equal. apply IH, H.
Qed.

Lemma string_app_cancel_l (s : string) :
  forall t1 t2 : string, s +:+ t1 = s +:+ t2 -> t1 = t2.
Proof.
  induction s as [|c s IH]; intros t1 t2 H; simpl in H; [exact H|].
  injection H as H. apply IH, H.
Qed.

(** Messages of the same rule differ as soon as the formatted numbers do. *)
Lemma alert_texts_injective :
  (forall r1 r2 thr, format_fixed 1 r1 <> format_fixed 1 r2 ->
     error_rate_alert rt r1 thr <> error_rate_alert rt r2 thr)
  /\ (forall a1 a2, format_fixed 2 a1 <> format_fixed 2 a2 ->
        slow_response_alert a1 <> slow_response_alert a2)
  /\ (forall p1 p2, format_fixed 1 p1 <> format_fixed 1 p2 ->
        memory_alert p1 <> memory_alert p2).
Proof.
  unfold error_rate_alert, slow_response_alert, memory_alert.
  repeat split; intros; intros Heq;
    match goal with Hne : _ <> _ |- _ => apply Hne end;
    apply string_app_cancel_l in Heq; apply string_app_cancel_r in Heq; exact Heq.
Qed.

Lemma check_alerts_prefix mon :
  alerts mon `prefix_of` alerts (_check_alerts rt mon).1.
Proof. rewrite check_alerts_breached. apply add_alerts_prefix. Qed.

(** The alerts after [log_request]: those before when the progress display
    raised, otherwise those the rules leave. *)
Lemma log_request_alerts r (mt : Moment) mon :
  exists mon2,
    alerts mon2 = alerts mon
    /\ (alerts (log_request rt r mt mon).1 = alerts mon
        \/ alerts (log_request rt r mt mon).1 = alerts (_check_alerts rt mon2).1).
Proof.
  rewrite log_request_cases. cbv zeta.
  destruct (update_progress_frame r mt
              (with_metrics mon (update_metrics rt r (metrics mon))))
    as (_ & Ea & _).
  exists (update_progress r mt
            (with_metrics mon (update_metrics rt r (metrics mon)))).1.
  split; [exact Ea|].
  destruct (update_progress r mt _).2 as [e|]; simpl;
    [left; exact Ea | right; reflexivity].
Qed.

Lemma log_request_alerts_prefix r (mt : Moment) mon :
  alerts mon `prefix_of` alerts (log_request rt r mt mon).1.
Proof.
  destruct (log_request_alerts r mt mon) as (mon2 & E & [H | H]); rewrite H.
  - reflexivity.
  - rewrite <- E. apply check_alerts_prefix.
Qed.

End Alerts.

(** C7: the alert list after the rules have run is the list before, with
    the message of each rule in breach appended unless that very string is
    already there.  So a message that was present keeps its number of
    occurrences, a new one occurs once, and nothing else appears.  For each
    of the three rules, two messages differ whenever their formatted numbers
    differ; and when the rules run again later, on a monitor whose list
    extends the one left here, a breach whose message differs from one of
    this run leaves both messages in the list: a second, distinct alert. *)
Theorem alerts_deduplicated_by_string (rt : Runtime) (mon : Monitoring.ScrapingMonitor) :
  let before := Monitoring.alerts mon in
  let after := Monitoring.alerts (Monitoring._check_alerts rt mon).1 in
  after = add_alerts (breached_alerts rt mon) before
  /\ before `prefix_of` after
  /\ (forall a, a ∈ breached_alerts rt mon -> a ∈ after)
  /\ (forall a, a ∈ before -> occurrences a after = occurrences a before)
  /\ (forall a, a ∉ before -> a ∈ breached_alerts rt mon -> occurrences a after = 1%nat)
  /\ (forall a, a ∉ before -> a ∉ breached_alerts rt mon -> a ∉ after)
  /\ (forall r1 r2 thr,
        format_fixed 1 r1 <> format_fixed 1 r2 ->
        Monitoring.error_rate_alert rt r1 thr <> Monitoring.error_rate_alert rt r2 thr)
  /\ (forall a1 a2,
        format_fixed 2 a1 <> format_fixed 2 a2 ->
        Monitoring.slow_response_alert a1 <> Monitoring.slow_response_alert a2)
  /\ (forall p1 p2,
        format_fixed 1 p1 <> format_fixed 1 p2 ->
        Monitoring.memory_alert p1 <> Monitoring.memory_alert p2)
  /\ (forall later a b,
        after `prefix_of` Monitoring.alerts later ->
        a ∈ breached_alerts rt mon ->
        b ∈ breached_alerts rt later ->
        a <> b ->
        let final := Monitoring.alerts (Monitoring._check_alerts rt later).1 in
        a ∈ final /\ b ∈ final /\ (2 <= List.length final)%nat).
Proof.
  cbv zeta. rewrite check_alerts_breached.
  split; [reflexivity|].
  split; [apply add_alerts_prefix|].
  split; [intros b Hb; apply add_alerts_elem, Hb|].
  split; [intros b Hb; rewrite add_alerts_occurrences, decide_True by exact Hb;
          reflexivity|].
  split; [intros b Hb Hm; rewrite add_alerts_occurrences, decide_False by exact Hb;
          rewrite decide_True by exact Hm; reflexivity|].
  split.
  { intros b Hb Hm Hin.
    apply list_elem_of_In, (count_occ_In string_dec) in Hin.
    fold (occurrences b (add_alerts (breached_alerts rt mon) (Monitoring.alerts mon)))
      in Hin.
    rewrite add_alerts_occurrences, decide_False, decide_False in Hin by assumption.
    lia. }
  destruct (alert_texts_injective rt) as (J1 & J2 & J3).
  split; [exact J1|]. split; [exact J2|]. split; [exact J3|].
  intros later a b [rest Hpre] Ha Hb Hab.
  rewrite check_alerts_breached.
  assert (Ha1 : a ∈ add_alerts (breached_alerts rt mon) (Monitoring.alerts mon))
    by (apply add_alerts_elem, Ha).
  assert (Ha2 : a ∈ Monitoring.alerts later)
    by (rewrite Hpre; apply elem_of_app; left; exact Ha1).
  assert (Ha3 : a ∈ add_alerts (breached_alerts rt later) (Monitoring.alerts later)).
  { destruct (add_alerts_prefix (breached_alerts rt later) (Monitoring.alerts later))
      as [more ->]. apply elem_of_app. left. exact Ha2. }
  assert (Hb3 : b ∈ add_alerts (breached_alerts rt later) (Monitoring.alerts later))
    by (apply add_alerts_elem, Hb).
  split; [exact Ha3|]. split; [exact Hb3|].
  apply list_elem_of_In, in_split in Ha3 as (l1 & l2 & E).
  rewrite E in Hb3 |- *. rewrite length_app. simpl.
  apply elem_of_app in Hb3 as [Hb3 | Hb3].
  - destruct l1; [by apply not_elem_of_nil in Hb3 | simpl; lia].
  - apply elem_of_cons in Hb3 as [Hb3 | Hb3]; [congruence|].
    destruct l2; [by apply not_elem_of_nil in Hb3 | simpl; lia].
Qed.

(** Ten failures in a row breach the error-rate rule at 100.0%; the eleventh
    breaches it at the same formatted value and adds nothing; a success then
    moves the rate to 91.7%, which alerts again. *)
Example alerts_dedup_ex :
  Monitoring.alerts (Monitoring.run_ops Demo.runtime (Demo.failures 10) Demo.fresh_monitor)
  = ["High error rate: 100.0% (threshold: 20.0%)"%string]
  /\ Monitoring.alerts (Monitoring.run_ops Demo.runtime (Demo.failures 11) Demo.fresh_monitor)
     = ["High error rate: 100.0% (threshold: 20.0%)"%string]
  /\ Monitoring.alerts
       (Monitoring.run_ops Demo.runtime (Demo.failures 11 ++ Demo.one_success None)
          Demo.fresh_monitor)
     = ["High error rate: 100.0% (threshold: 20.0%)"%string;
        "High error rate: 91.7% (threshold: 20.0%)"%string].
Proof. vm_compute. repeat split. Qed.

Lemma alerts_deduplicated_by_string_witness :
  let mon := Monitoring.run_ops Demo.runtime
               (Demo.failures 11 ++ Demo.one_success None) Demo.fresh_monitor in
  let a := "High error rate: 91.7% (threshold: 20.0%)"%string in
  let b := "High error rate: 100.0% (threshold: 20.0%)"%string in
  a ∈ Monitoring.alerts mon
  /\ a ∈ breached_alerts Demo.runtime mon
  /\ occurrences a (Monitoring.alerts (Monitoring._check_alerts Demo.runtime mon).1)
     = occurrences a (Monitoring.alerts mon)
  /\ b ∈ Monitoring.alerts (Monitoring._check_alerts Demo.runtime mon).1
  /\ (2 <= List.length
             (Monitoring.alerts (Monitoring._check_alerts Demo.runtime mon).1))%nat.
Proof.
  cbv zeta.
  assert (H : "High error rate: 91.7% (threshold: 20.0%)"%string
              ∈ Monitoring.alerts
                  (Monitoring.run_ops Demo.runtime
                     (Demo.failures 11 ++ Demo.one_success None) Demo.fresh_monitor))
    by (vm_compute; right; left).
  split; [exact H|]. split; [vm_compute; left|].
  split;
    [exact (proj1 (proj2 (proj2 (proj2
              (alerts_deduplicated_by_string Demo.runtime _)))) _ H)|].
  assert (P : Monitoring.alerts
                (Monitoring._check_alerts Demo.runtime
                   (Monitoring.run_ops Demo.runtime (Demo.failures 10)
                      Demo.fresh_monitor)).1
              `prefix_of`
              Monitoring.alerts
                (Monitoring.run_ops Demo.runtime
                   (Demo.failures 11 ++ Demo.one_success None) Demo.fresh_monitor))
    by (vm_compute; eexists; reflexivity).
  destruct (proj2 (proj2 (proj2 (proj2 (proj2 (proj2 (proj2 (proj2 (proj2
              (alerts_deduplicated_by_string Demo.runtime
                 (Monitoring.run_ops Demo.runtime (Demo.failures 10)
                    Demo.fresh_monitor)))))))))) _
              "High error rate: 100.0% (threshold: 20.0%)"%string
              "High error rate: 91.7% (threshold: 20.0%)"%string P
              ltac:(vm_compute; left) ltac:(vm_compute; left)
              ltac:(vm_compute; discriminate))
    as (Q1 & _ & Q3).
  split; [exact Q1 | exact Q3].
Defined.

Lemma step_alerts_prefix (rt : Runtime) (mon : Monitoring.ScrapingMonitor)
    (op : Monitoring.Op) :
  Monitoring.alerts mon `prefix_of` Monitoring.alerts (Monitoring.step rt mon op).
Proof.
  destruct op as [total now tnow | r mt | | c | now mt]; simpl; try reflexivity.
  - apply log_request_alerts_prefix.
  - apply check_alerts_prefix.
  - rewrite (proj1 (end_session_frame now mt mon)). reflexivity.
Qed.

(** C8, as the code has it: no operation on a monitor removes an alert, so
    the list after any run of operations extends the list before;
    [start_session] leaves the list as it is, and the list is empty only when
    the monitor is created. *)
Theorem alerts_only_grow (rt : Runtime) (ops : list Monitoring.Op)
    (mon : Monitoring.ScrapingMonitor) :
  Monitoring.alerts mon `prefix_of` Monitoring.alerts (Monitoring.run_ops rt ops mon)
  /\ (forall total now tnow,
        Monitoring.alerts (Monitoring.start_session total now tnow mon)
        = Monitoring.alerts mon)
  /\ (forall session_name now,
        Monitoring.alerts (Monitoring.new_monitor session_name now) = []).
Proof.
  split; [|split; reflexivity].
  revert mon. induction ops as [|op ops IH]; intros mon; [reflexivity|].
  change (Monitoring.run_ops rt (op :: ops) mon)
    with (Monitoring.run_ops rt ops (Monitoring.step rt mon op)).
  etransitivity; [apply step_alerts_prefix | apply IH].
Qed.

(** The claim of C8 fails on the code: the alert raised in one session is
    still in the list after the next [start_session]. *)
Lemma alerts_survive_start_session :
  Monitoring.alerts
    (Monitoring.start_session (Some 5) 60000000 60000000
       (Monitoring.end_session 50000000 Demo.moment
          (Monitoring.run_ops Demo.runtime (Demo.failures 10) Demo.fresh_monitor)).1)
  <> [].
Proof. vm_compute. discriminate. Qed.

(** The claim of C5 fails on the code: after a request that took 2 seconds
    and one without a measured time, the average is still 2, not 2 / 2. *)
Lemma average_stale_after_untimed_record :
  let m := Monitoring.metrics
             (Monitoring.run_ops Demo.runtime
                (Demo.one_success (Some 2%float) ++ Demo.one_success None)
                Demo.fresh_monitor) in
  Monitoring.average_response_time m = 2%float
  /\ float_div_int (Monitoring.total_processing_time m) (completions m) = 1%float
  /\ ~ average_is_total_over_completions m.
Proof.
  cbv zeta. split; [vm_compute; reflexivity|]. split; [vm_compute; reflexivity|].
  unfold average_is_total_over_completions. intros H.
  apply (f_equal Prim2SF) in H. vm_compute in H. discriminate.
Qed.

Lemma average_recomputed_on_timed_records_witness :
  Monitoring.average_response_time
    (Monitoring.metrics
       (Monitoring.log_request Demo.runtime
          (Demo.request_ok "https://example.com/x" (Some 3%float)) Demo.moment
          (Monitoring.run_ops Demo.runtime (Demo.one_success (Some 2%float))
             Demo.fresh_monitor)).1)
  = 2.5%float.
Proof.
  rewrite (proj1 (proj2 (average_recomputed_on_timed_records Demo.runtime
                           (Demo.request_ok "https://example.com/x" (Some 3%float))
                           Demo.moment _)) eq_refl).
  vm_compute. reflexivity.
Defined.

(** The claim of C6 fails on the code: before the session has ended, two
    snapshots of the same metrics taken one second apart differ. *)
Lemma snapshots_differ_before_end :
  Monitoring.to_dict (Monitoring.metrics Demo.fresh_monitor) 1000000
  <> Monitoring.to_dict (Monitoring.metrics Demo.fresh_monitor) 2000000.
Proof.
  intros H. apply (f_equal Monitoring.d_duration_seconds) in H.
  apply (f_equal Prim2SF) in H. vm_compute in H. discriminate.
Qed.

Lemma snapshot_idempotent_once_ended_witness :
  is_Some (Monitoring.end_time
             (Monitoring.metrics (Monitoring.end_session 5000000 Demo.moment Demo.fresh_monitor).1))
  /\ Monitoring.to_dict
       (Monitoring.metrics (Monitoring.end_session 5000000 Demo.moment Demo.fresh_monitor).1) 6000000
     = Monitoring.to_dict
         (Monitoring.metrics (Monitoring.end_session 5000000 Demo.moment Demo.fresh_monitor).1) 9000000.
Proof.
  assert (H : is_Some (Monitoring.end_time
                         (Monitoring.metrics
                            (Monitoring.end_session 5000000 Demo.moment Demo.fresh_monitor).1)))
    by (eexists; reflexivity).
  split; [exact H|].
  exact (proj1 (snapshot_idempotent_once_ended _ 6000000 9000000) H).
Defined.

Example to_dict_ex :
  Monitoring.d_duration_seconds
    (Monitoring.to_dict (Monitoring.metrics Demo.fresh_monitor) 1000000) = 1%float
  /\ Monitoring.d_duration_seconds
       (Monitoring.to_dict (Monitoring.metrics Demo.fresh_monitor) 2000000) = 2%float
  /\ Monitoring.d_duration_seconds
       (Monitoring.to_dict
          (Monitoring.metrics (Monitoring.end_session 5000000 Demo.moment Demo.fresh_monitor).1)
          9000000) = 5%float.
Proof. vm_compute. repeat split. Qed.

(** * Further properties *)

(** ** The sequential executor: how a ladder ends *)

Section RetryLadder.

Import Scraper.

Variable rt : Runtime.
Variable env : Environment.

Local Arguments attempt_loop : simpl never.

Lemma get_checked_ok target w r :
  session_get env (requests w) target = Got r ->
  is_error_status (resp_status r) = false ->
  get_checked env target w =
    ({| effects := effects w ++ [HttpGet target]; draws := draws w;
        requests := S (requests w) |}, Return r).
Proof. intros H E. unfold get_checked. rewrite H, E. reflexivity. Qed.

Lemma get_checked_other target w m :
  session_get env (requests w) target = GetRaised (OtherException m) ->
  get_checked env target w =
    ({| effects := effects w ++ [HttpGet target]; draws := draws w;
        requests := S (requests w) |}, Raise (OtherException m)).
Proof. intros H. unfold get_checked. rewrite H. reflexivity. Qed.

(** The scraper after [k] more jittered delays have been charged. *)
Definition charged (s : WebScraper) (d0 a k : nat) : WebScraper :=
  with_stats s
    {| requests_made := requests_made (stats s);
       successful_requests := successful_requests (stats s);
       failed_requests := failed_requests (stats s);
       total_delay_time :=
         fold_left (charge env (delay s) d0) (seq a k) (total_delay_time (stats s)) |}.

(** After [k] failed attempts that leave retries, the loop stands at attempt
    [a + k], every failed attempt having slept, requested and backed off. *)
Lemma attempt_loop_after_failures target (N : nat) :
  forall k a m s w d0 r0,
    max_retries s = Z.of_nat N ->
    float_gt (delay s) 0 = true ->
    draws w = (d0 + a)%nat -> requests w = (r0 + a)%nat ->
    (a + k <= N)%nat ->
    (forall i, (a <= i < a + k)%nat -> fails_at env target (r0 + i)) ->
    attempt_loop env target (k + S m) (Z.of_nat a) s w =
    attempt_loop env target (S m) (Z.of_nat (a + k))
      (charged s d0 a k)
      {| effects := effects w
                    ++ flat_map (attempt_effects env (delay s) target N d0) (seq a k);
         draws := (d0 + a + k)%nat; requests := (r0 + a + k)%nat |}.
Proof.
  induction k as [|k IH]; intros a m s w d0 r0 Hmax Hdelay Hd Hr Hak Hfail.
  - simpl. rewrite app_nil_r, !Nat.add_0_r, <- Hd, <- Hr.
    destruct s as [? ? ? ? ? []], w. reflexivity.
  - change (S k + S m)%nat with (S (k + S m)).
    rewrite attempt_loop_step, pause_positive by assumption.
    rewrite get_checked_fails by (simpl; rewrite Hr; apply Hfail; lia).
    simpl. rewrite Hmax.
    destruct (Z.eqb_spec (Z.of_nat a) (Z.of_nat N)) as [E | _]; [lia|].
    replace (Z.of_nat a + 1) with (Z.of_nat (S a)) by lia.
    rewrite (IH (S a) m _ _ d0 r0); simpl; try assumption; try lia.
    + replace (S (a + k)) with (a + S k)%nat by lia.
      unfold charged, with_stats, charge, attempt_effects, perform. simpl.
      rewrite ?Hd, ?Hr.
      assert (Hlt : (a <? N)%nat = true) by (apply Nat.ltb_lt; lia).
      rewrite Hlt, <- !app_assoc. simpl.
      f_equal. f_equal; lia.
    + intros i Hi. apply Hfail. lia.
Qed.

(** X1: when the first [k] requests for a URL fail and request [k] is
    answered, with [k] within the retries allowed, [_make_request] returns
    that response after exactly [k + 1] requests: each attempt slept its
    jittered delay first, each failure was followed by its backoff, one
    success is counted and no failure. *)
Theorem retry_succeeds_after_failures (target : string) (s : WebScraper) (w : World)
    (N k : nat) (r : Response) :
  max_retries s = Z.of_nat N ->
  (k <= N)%nat ->
  float_gt (delay s) 0 = true ->
  (forall i, (i < k)%nat -> fails_at env target (requests w + i)) ->
  session_get env (requests w + k) target = Got r ->
  is_error_status (resp_status r) = false ->
  let '(s', w', out) := _make_request env target s w in
  out = Return (Some r)
  /\ effects w'
     = effects w
       ++ flat_map (attempt_effects env (delay s) target N (draws w)) (seq 0 k)
       ++ [Sleep (jitter_delay env (delay s) (draws w + k)); HttpGet target]
  /\ requests w' = (requests w + S k)%nat
  /\ requests_made (stats s') = requests_made (stats s) + 1
  /\ successful_requests (stats s') = successful_requests (stats s) + 1
  /\ failed_requests (stats s') = failed_requests (stats s)
  /\ total_delay_time (stats s')
     = fold_left (charge env (delay s) (draws w)) (seq 0 (S k))
         (total_delay_time (stats s)).
Proof.
  intros Hmax Hk Hdelay Hfail Hgot Hok. rewrite seq_S, fold_left_app.
  unfold _make_request. rewrite Hmax.
  replace (Z.to_nat (Z.of_nat N + 1)) with (k + S (N - k))%nat by lia.
  change 0 with (Z.of_nat 0).
  rewrite (attempt_loop_after_failures target N k 0%nat (N - k)%nat s w
             (draws w) (requests w)); try assumption; try lia.
  2: { intros i Hi. apply Hfail. lia. }
  rewrite attempt_loop_step, pause_positive by exact Hdelay.
  rewrite (get_checked_ok target _ r);
    [| simpl; rewrite Nat.add_0_r; exact Hgot | exact Hok].
  simpl. rewrite !Nat.add_0_r, <- !app_assoc. simpl.
  repeat split; lia.
Qed.

(** X2: an exception of the transport that is not a RequestException is
    not retried.  Raised at attempt [k], after [k] failures that were
    retried, it ends [_make_request] at once: no backoff follows, and the
    attempt is counted neither as a success nor as a failure. *)
Theorem other_exception_not_retried (target : string) (s : WebScraper) (w : World)
    (N k : nat) (msg : string) :
  max_retries s = Z.of_nat N ->
  (k <= N)%nat ->
  float_gt (delay s) 0 = true ->
  (forall i, (i < k)%nat -> fails_at env target (requests w + i)) ->
  session_get env (requests w + k) target = GetRaised (OtherException msg) ->
  let '(s', w', out) := _make_request env target s w in
  out = Raise (OtherException msg)
  /\ effects w'
     = effects w
       ++ flat_map (attempt_effects env (delay s) target N (draws w)) (seq 0 k)
       ++ [Sleep (jitter_delay env (delay s) (draws w + k)); HttpGet target]
  /\ requests w' = (requests w + S k)%nat
  /\ requests_made (stats s') = requests_made (stats s)
  /\ successful_requests (stats s') = successful_requests (stats s)
  /\ failed_requests (stats s') = failed_requests (stats s).
Proof.
  intros Hmax Hk Hdelay Hfail Hraise. unfold _make_request. rewrite Hmax.
  replace (Z.to_nat (Z.of_nat N + 1)) with (k + S (N - k))%nat by lia.
  change 0 with (Z.of_nat 0).
  rewrite (attempt_loop_after_failures target N k 0%nat (N - k)%nat s w
             (draws w) (requests w)); try assumption; try lia.
  2: { intros i Hi. apply Hfail. lia. }
  rewrite attempt_loop_step, pause_positive by exact Hdelay.
  rewrite (get_checked_other target _ msg)
    by (simpl; rewrite Nat.add_0_r; exact Hraise).
  simpl. rewrite !Nat.add_0_r, <- !app_assoc. simpl.
  repeat split; lia.
Qed.

End RetryLadder.

(** ** The sequential executor: edges of the configuration *)

Section ExecutorEdges.

Import Scraper.

Variable rt : Runtime.
Variable env : Environment.

Local Arguments attempt_loop : simpl never.

(** X3: with a negative [max_retries] the retry loop has no iteration:
    a valid URL is answered by a failure outcome whose text is that of the
    AttributeError on the missing response, without any request, sleep or
    change of the statistics. *)
Theorem negative_retries_never_request (target : string) (s : WebScraper) (w : World) :
  max_retries s < 0 ->
  use_selenium s = false ->
  validate_url rt target = true ->
  scrape_url rt env target s w
  = (s, w, failure_result env target w "'NoneType' object has no attribute 'text'").
Proof.
  intros Hneg Hsel Hvalid. unfold scrape_url, fetch_document, _make_request.
  rewrite Hvalid, Hsel. replace (Z.to_nat (max_retries s + 1)) with 0%nat by lia.
  reflexivity.
Qed.

(** No pause was taken between two states of the executor. *)
Definition unpaused (s : WebScraper) (w : World) (s' : WebScraper) (w' : World) : Prop :=
  delay s' = delay s
  /\ total_delay_time (stats s') = total_delay_time (stats s)
  /\ draws w' = draws w
  /\ List.filter is_sleep (effects w') = List.filter is_sleep (effects w).

Lemma unpaused_refl s w : unpaused s w s w.
Proof. repeat split. Qed.

Lemma unpaused_trans s1 w1 s2 w2 s3 w3 :
  unpaused s1 w1 s2 w2 -> unpaused s2 w2 s3 w3 -> unpaused s1 w1 s3 w3.
Proof.
  intros (A1 & A2 & A3 & A4) (B1 & B2 & B3 & B4).
  repeat split; congruence.
Qed.

Lemma get_checked_world target w :
  let w' := (get_checked env target w).1 in
  effects w' = effects w ++ [HttpGet target]
  /\ draws w' = draws w /\ requests w' = S (requests w).
Proof.
  unfold get_checked. destruct (session_get env (requests w) target) as [r|e];
    [destruct (is_error_status (resp_status r))|]; repeat split.
Qed.

Lemma attempt_loop_unpaused target k :
  forall a s w,
    float_gt (delay s) 0 = false ->
    unpaused s w (attempt_loop env target k a s w).1.1
      (attempt_loop env target k a s w).1.2.
Proof.
  induction k as [|k IH]; intros a s w Hd; [apply unpaused_refl|].
  rewrite attempt_loop_step. unfold pause. rewrite Hd.
  pose proof (get_checked_world target w) as (E1 & E2 & E3).
  destruct (get_checked env target w) as [w2 [r | [m | m]]]; simpl in *.
  - unfold unpaused. simpl. rewrite E1, List.filter_app, app_nil_r. repeat split.
    exact E2.
  - destruct (a =? max_retries s).
    + unfold unpaused. simpl. rewrite E1, List.filter_app, app_nil_r.
      repeat split. exact E2.
    + eapply unpaused_trans; [|apply IH; exact Hd].
      unfold unpaused, perform. simpl.
      rewrite E1, !List.filter_app, !app_nil_r. repeat split. exact E2.
  - unfold unpaused. simpl. rewrite E1, List.filter_app, app_nil_r. repeat split.
    exact E2.
Qed.

Lemma scrape_url_unpaused target s w :
  float_gt (delay s) 0 = false ->
  unpaused s w (scrape_url rt env target s w).1.1 (scrape_url rt env target s w).1.2.
Proof.
  intros Hd. unfold scrape_url. destruct (negb (validate_url rt target));
    [apply unpaused_refl|].
  assert (H : unpaused s w (fetch_document env target s w).1.1
                (fetch_document env target s w).1.2).
  { unfold fetch_document. destruct (use_selenium s).
    - unfold _parse_with_selenium.
      destruct (selenium_source env _ target); simpl;
        (unfold unpaused, perform; simpl;
         rewrite List.filter_app, app_nil_r; repeat split).
    - unfold _make_request.
      pose proof (attempt_loop_unpaused target (Z.to_nat (max_retries s + 1)) 0 s w Hd)
        as Hl.
      destruct (attempt_loop env target _ 0 s w) as [[s1 w1] [[r|] | e]]; exact Hl. }
  destruct (fetch_document env target s w) as [[s1 w1] [[soup status] | e]];
    [destruct (run_extractor env s1 soup target)|]; exact H.
Qed.

Lemma scrape_loop_unpaused urls :
  forall results s w,
    float_gt (delay s) 0 = false ->
    unpaused s w (scrape_loop rt env urls results s w).1.1
      (scrape_loop rt env urls results s w).1.2.
Proof.
  induction urls as [|u rest IH]; intros results s w Hd; simpl;
    [apply unpaused_refl|].
  pose proof (scrape_url_unpaused u s w Hd) as H.
  destruct (scrape_url rt env u s w) as [[s1 w1] result]. simpl in H.
  eapply unpaused_trans; [exact H|]. apply IH.
  destruct H as [-> _]. exact Hd.
Qed.

(** X4: when [delay] is not positive (zero, negative or NaN) the executor
    never sleeps before a request: over a whole batch no random number is
    drawn, no delay sleep happens and the delay-time counter keeps its
    value. *)
Theorem no_delay_no_pause (urls : list string) (s : WebScraper) (w : World) :
  float_gt (delay s) 0 = false ->
  let '(s', w', _) := scrape_multiple_urls rt env urls s w in
  total_delay_time (stats s') = total_delay_time (stats s)
  /\ draws w' = draws w
  /\ List.filter is_sleep (effects w') = List.filter is_sleep (effects w).
Proof.
  intros Hd. unfold scrape_multiple_urls.
  pose proof (scrape_loop_unpaused urls [] s w Hd) as (_ & H1 & H2 & H3).
  destruct (scrape_loop rt env urls [] s w) as [[s' w'] results].
  repeat split; assumption.
Qed.

(** X5: when the fetch succeeds and the extractor raises, the URL gets a
    failure outcome with status 0 and the extractor's error text, while the
    statistics have counted the request as made and successful. *)
Theorem extractor_failure_after_counted_success (target : string) (s : WebScraper)
    (w : World) (r : Response) (e : PyExn) :
  validate_url rt target = true ->
  use_selenium s = false ->
  0 <= max_retries s ->
  session_get env (requests w) target = Got r ->
  is_error_status (resp_status r) = false ->
  run_extractor env s (resp_text r) target = Raise e ->
  let '(s', w', result) := scrape_url rt env target s w in
  success result = false
  /\ status_code result = 0
  /\ error_message result = Some (str_exn e)
  /\ data result = []
  /\ requests_made (stats s') = requests_made (stats s) + 1
  /\ successful_requests (stats s') = successful_requests (stats s) + 1
  /\ failed_requests (stats s') = failed_requests (stats s).
Proof.
  intros Hvalid Hsel Hmax Hgot Hok Hext.
  unfold scrape_url, fetch_document, _make_request. rewrite Hvalid, Hsel.
  replace (Z.to_nat (max_retries s + 1)) with (S (Z.to_nat (max_retries s))) by lia.
  rewrite attempt_loop_step. unfold pause.
  destruct (float_gt (delay s) 0);
    (rewrite (get_checked_ok env target _ r) by assumption); simpl;
    unfold run_extractor in *; simpl; rewrite Hext; simpl; repeat split.
Qed.

(** Each pass through the retry loop counts at most one outcome. *)
Lemma attempt_loop_counts_once target k :
  forall a s w,
    let s' := (attempt_loop env target k a s w).1.1 in
    successful_requests (stats s') + failed_requests (stats s')
    <= successful_requests (stats s) + failed_requests (stats s) + 1.
Proof.
  induction k as [|k IH]; intros a s w; cbv zeta.
  - unfold attempt_loop. simpl. lia.
  - rewrite attempt_loop_step.
    pose proof (pause_moved_together env s w) as (_ & P1 & P2 & _).
    assert (P3 : successful_requests (stats (pause env s w).1)
                 + failed_requests (stats (pause env s w).1)
                 = successful_requests (stats s) + failed_requests (stats s)).
    { unfold pause. destruct (float_gt (delay s) 0); reflexivity. }
    destruct (pause env s w) as [s1 w1]. simpl in P3.
    destruct (get_checked env target w1) as [w2 [r | [m | m]]]; simpl; try lia.
    destruct (a =? max_retries s1); simpl; [lia|].
    etransitivity; [apply IH|]. lia.
Qed.

Definition valid_count (urls : list string) : Z :=
  Z.of_nat (List.length (List.filter (validate_url rt) urls)).

Lemma scrape_url_counts_once target s w :
  let s' := (scrape_url rt env target s w).1.1 in
  successful_requests (stats s') + failed_requests (stats s')
  <= successful_requests (stats s) + failed_requests (stats s)
     + (if validate_url rt target then 1 else 0).
Proof.
  cbv zeta. unfold scrape_url. destruct (validate_url rt target); simpl; [|lia].
  assert (H : successful_requests (stats (fetch_document env target s w).1.1)
              + failed_requests (stats (fetch_document env target s w).1.1)
              <= successful_requests (stats s) + failed_requests (stats s) + 1).
  { unfold fetch_document. destruct (use_selenium s).
    - destruct (_parse_with_selenium env target w) as [w1 [soup | e]]; simpl; lia.
    - unfold _make_request.
      pose proof (attempt_loop_counts_once target
                    (Z.to_nat (max_retries s + 1)) 0 s w) as Hl.
      destruct (attempt_loop env target _ 0 s w) as [[s1 w1] [[r|] | e]]; exact Hl. }
  destruct (fetch_document env target s w) as [[s1 w1] [[soup status] | e]];
    [destruct (run_extractor env s1 soup target)|]; exact H.
Qed.

Lemma scrape_loop_counts urls :
  forall results s w,
    let s' := (scrape_loop rt env urls results s w).1.1 in
    successful_requests (stats s') + failed_requests (stats s')
    <= successful_requests (stats s) + failed_requests (stats s) + valid_count urls.
Proof.
  unfold valid_count.
  induction urls as [|u rest IH]; intros results s w; cbv zeta; simpl; [lia|].
  pose proof (scrape_url_counts_once u s w) as H.
  destruct (scrape_url rt env u s w) as [[s1 w1] result]. simpl in H.
  specialize (IH (results ++ [result]) s1 w1). cbv zeta in IH.
  destruct (validate_url rt u); simpl; lia.
Qed.

(** X6: over a batch the counters never decrease, and together
    [successful_requests] and [failed_requests] grow by at most one per URL
    that passes validation; rejected URLs are counted nowhere. *)
Theorem counters_bounded_by_valid_urls (urls : list string) (s : WebScraper) (w : World) :
  let s' := (scrape_multiple_urls rt env urls s w).1.1 in
  successful_requests (stats s) <= successful_requests (stats s')
  /\ failed_requests (stats s) <= failed_requests (stats s')
  /\ successful_requests (stats s') + failed_requests (stats s')
     <= successful_requests (stats s) + failed_requests (stats s) + valid_count urls
  /\ valid_count urls <= Z.of_nat (List.length urls).
Proof.
  cbv zeta. unfold scrape_multiple_urls.
  pose proof (scrape_loop_moved_together rt env urls [] s w) as (_ & H1 & H2 & _).
  pose proof (scrape_loop_counts urls [] s w) as H3. cbv zeta in H3.
  repeat split; try assumption.
  unfold valid_count. pose proof (List.filter_length_le (validate_url rt) urls). lia.
Qed.

Lemma scrape_loop_acc urls :
  forall acc s w,
    scrape_loop rt env urls acc s w
    = ((scrape_loop rt env urls [] s w).1, acc ++ (scrape_loop rt env urls [] s w).2).
Proof.
  induction urls as [|u rest IH]; intros acc s w; simpl.
  - rewrite app_nil_r. reflexivity.
  - destruct (scrape_url rt env u s w) as [[s1 w1] result].
    rewrite (IH (acc ++ [result])), (IH ([] ++ [result])). simpl.
    rewrite <- app_assoc. reflexivity.
Qed.

(** X7: a batch is its URLs scraped one after the other: scraping
    [us1 ++ us2] is scraping [us1], then [us2] from the state this left, and
    the outcomes are those of [us1] followed by those of [us2].  Whatever the
    outcomes of [us1] are, all of [us2] is scraped. *)
Theorem batch_composes (us1 us2 : list string) (s : WebScraper) (w : World) :
  let '(s1, w1, res1) := scrape_multiple_urls rt env us1 s w in
  let '(s2, w2, res2) := scrape_multiple_urls rt env us2 s1 w1 in
  scrape_multiple_urls rt env (us1 ++ us2) s w = (s2, w2, res1 ++ res2).
Proof.
  unfold scrape_multiple_urls. revert s w.
  induction us1 as [|u rest IH]; intros s w; simpl.
  - destruct (scrape_loop rt env us2 [] s w) as [[s2 w2] res2]. reflexivity.
  - destruct (scrape_url rt env u s w) as [[s0 w0] result].
    rewrite (scrape_loop_acc rest ([] ++ [result])),
            (scrape_loop_acc (rest ++ us2) ([] ++ [result])).
    specialize (IH s0 w0).
    destruct (scrape_loop rt env rest [] s0 w0) as [[s1 w1] res1]. simpl.
    destruct (scrape_loop rt env us2 [] s1 w1) as [[s2 w2] res2].
    rewrite IH. simpl. reflexivity.
Qed.

Lemma scrape_url_selenium target s w :
  use_selenium s = true ->
  let '(s', w', result) := scrape_url rt env target s w in
  s' = s
  /\ requests w' = requests w
  /\ List.filter is_http_get (effects w') = List.filter is_http_get (effects w)
  /\ (success result = true -> status_code result = 200).
Proof.
  intros Hsel. unfold scrape_url, fetch_document, _parse_with_selenium.
  rewrite Hsel. destruct (negb (validate_url rt target)); simpl.
  { repeat split. discriminate. }
  destruct (selenium_source env _ target) as [soup | e]; simpl.
  - destruct (run_extractor env s soup target); simpl;
      rewrite List.filter_app, app_nil_r; repeat split. discriminate.
  - rewrite List.filter_app, app_nil_r. repeat split. discriminate.
Qed.

(** X8: with [use_selenium] set, a batch goes through the browser only:
    no HTTP request is issued, the scraper and its statistics stay as they
    were, and every successful outcome carries status 200. *)
Theorem selenium_batch_bypasses_requests (urls : list string) (s : WebScraper)
    (w : World) :
  use_selenium s = true ->
  let '(s', w', results) := scrape_multiple_urls rt env urls s w in
  s' = s
  /\ requests w' = requests w
  /\ List.filter is_http_get (effects w') = List.filter is_http_get (effects w)
  /\ Forall (fun result => success result = true -> status_code result = 200) results.
Proof.
  intros Hsel. unfold scrape_multiple_urls.
  assert (H : forall acc w0,
             Forall (fun result => success result = true -> status_code result = 200) acc ->
             let '(s', w', results) := scrape_loop rt env urls acc s w0 in
             s' = s /\ requests w' = requests w0
             /\ List.filter is_http_get (effects w') = List.filter is_http_get (effects w0)
             /\ Forall (fun result => success result = true -> status_code result = 200)
                  results).
  { induction urls as [|u rest IH]; intros acc w0 Hacc; simpl; [repeat split; exact Hacc|].
    pose proof (scrape_url_selenium u s w0 Hsel) as Hu.
    destruct (scrape_url rt env u s w0) as [[s1 w1] result].
    destruct Hu as (-> & E1 & E2 & E3).
    assert (Hacc' : Forall (fun result => success result = true
                                          -> status_code result = 200)
                      (acc ++ [result]))
      by (apply Forall_app; split; [exact Hacc | repeat constructor; exact E3]).
    specialize (IH (acc ++ [result]) w1 Hacc').
    destruct (scrape_loop rt env rest (acc ++ [result]) s w1) as [[s' w'] results].
    destruct IH as (-> & F1 & F2 & F3).
    repeat split; first [congruence | exact F3]. }
  apply (H [] w). constructor.
Qed.

End ExecutorEdges.

(** ** The concurrent executor: permits, requests and delays *)

Section PermitPool.

Import Scraper AsyncScraper.

Variable rt : Runtime.
Variable env : Environment.
Variable a : AsyncWebScraper.

(** The number of coroutines between acquiring and releasing a permit. *)
Definition in_flight (b : Batch) : nat := sum_list (holds_permit <$> tasks b).

(** The URL of a coroutine whose request has been issued. *)
Definition requested (t : string * Phase) : option string :=
  match t.2 with Requesting _ | Finished _ => Some t.1 | _ => None end.

(** The URL of a coroutine that has entered the semaphore. *)
Definition started (t : string * Phase) : option string :=
  match t.2 with Waiting => None | _ => Some t.1 end.

Definition get_target (e : Effect) : option string :=
  match e with AsyncGet target => Some target | _ => None end.

Definition sleep_secs (e : Effect) : option float :=
  match e with AsyncSleep secs => Some secs | _ => None end.

Definition acquire_target (e : Effect) : option string :=
  match e with Acquire target => Some target | _ => None end.

Definition release_target (e : Effect) : option string :=
  match e with Release target => Some target | _ => None end.

(** What the trace of a batch records, whatever the schedule. *)
Definition trace_inv (b : Batch) : Prop :=
  0 <= permits b
  /\ issued b = List.length (omap requested (tasks b))
  /\ omap get_target (effects b) ≡ₚ omap requested (tasks b)
  /\ omap acquire_target (effects b) ≡ₚ omap started (tasks b)
  /\ omap release_target (effects b) ≡ₚ omap finished (tasks b) ≫= (fun r => [url r])
  /\ omap sleep_secs (effects b)
     = repeat (delay a) (List.length (omap started (tasks b))).

Lemma omap_insert_same {A B} (f : A -> option B) (l : list A) i x y :
  l !! i = Some x -> f y = f x -> omap f (<[i:=y]> l) = omap f l.
Proof.
  revert i. induction l as [|z l IH]; intros [|i] H E; simpl in *; try discriminate.
  - injection H as ->. rewrite E. reflexivity.
  - destruct (f z); [f_equal|]; exact (IH i H E).
Qed.

Lemma omap_insert_new {A B} (f : A -> option B) (l : list A) i x y v :
  l !! i = Some x -> f x = None -> f y = Some v ->
  omap f (<[i:=y]> l) ≡ₚ v :: omap f l.
Proof.
  revert i. induction l as [|z l IH]; intros [|i] H Ex Ey; simpl in *; try discriminate.
  - injection H as ->. rewrite Ex, Ey. reflexivity.
  - pose proof (IH i H Ex Ey) as IH'. destruct (f z).
    + etransitivity; [apply perm_skip, IH' | apply perm_swap].
    + exact IH'.
Qed.

Lemma repeat_snoc {A} (x : A) n : repeat x n ++ [x] = repeat x (S n).
Proof. induction n; simpl; [reflexivity | f_equal; assumption]. Qed.

Lemma spawn_trace_inv urls : 0 <= max_concurrent a -> trace_inv (spawn a urls).
Proof.
  intros Hmax. unfold trace_inv, spawn. simpl.
  assert (E1 : omap requested (map (fun u => (u, Waiting)) urls) = [])
    by (induction urls; simpl; auto).
  assert (E2 : omap started (map (fun u => (u, Waiting)) urls) = [])
    by (induction urls; simpl; auto).
  assert (E3 : omap finished (map (fun u : string => (u, Waiting)) urls) = [])
    by (induction urls; simpl; auto).
  rewrite E1, E2, E3. repeat split; try reflexivity. exact Hmax.
Qed.

Lemma advance_trace_inv urls i b :
  batch_inv a urls b -> trace_inv b -> trace_inv (advance rt env a i b).
Proof.
  intros [HF _] (Hp & Hi & Hg & Ha & Hr & Hs). unfold advance.
  destruct (tasks b !! i) as [[target ph]|] eqn:Hl; [|repeat split; assumption].
  destruct ph as [| |n|r].
  - destruct (Z.ltb_spec 0 (permits b)) as [Hpos|_]; [|repeat split; assumption].
    unfold trace_inv. simpl. rewrite !omap_app. simpl. rewrite !app_nil_r.
    rewrite (omap_insert_same requested _ i _ (target, Sleeping) Hl eq_refl).
    rewrite (omap_insert_same finished _ i _ (target, Sleeping) Hl eq_refl).
    pose proof (omap_insert_new started _ i _ (target, Sleeping) target Hl
                  eq_refl eq_refl) as Hn.
    rewrite Hn. simpl. rewrite Hs, <- Ha.
    repeat split; try assumption; try lia.
    + rewrite Ha. symmetry. apply Permutation_cons_append.
    + apply repeat_snoc.
  - unfold trace_inv. simpl. rewrite !omap_app. simpl. rewrite !app_nil_r.
    rewrite (omap_insert_same started _ i _ (target, Requesting (issued b))
               Hl eq_refl).
    rewrite (omap_insert_same finished _ i _ (target, Requesting (issued b))
               Hl eq_refl).
    pose proof (omap_insert_new requested _ i _ (target, Requesting (issued b))
                  target Hl eq_refl eq_refl) as Hn.
    rewrite Hn. simpl.
    repeat split; try assumption; try lia.
    rewrite Hg. symmetry. apply Permutation_cons_append.
  - set (r := fetch_result rt env target n (List.length (effects b))).
    unfold trace_inv. simpl. rewrite !omap_app. simpl. rewrite !app_nil_r.
    rewrite (omap_insert_same started _ i _ (target, Finished r) Hl eq_refl).
    rewrite (omap_insert_same requested _ i _ (target, Finished r) Hl eq_refl).
    pose proof (omap_insert_new finished _ i _ (target, Finished r) r Hl
                  eq_refl eq_refl) as Hn.
    rewrite Hn. simpl. unfold r at 1. rewrite fetch_result_url.
    repeat split; try assumption; try lia.
    rewrite Hr. symmetry. apply Permutation_cons_append.
  - repeat split; assumption.
Qed.

Lemma run_trace_inv urls schedule :
  forall b, batch_inv a urls b -> trace_inv b ->
            trace_inv (run rt env a schedule b).
Proof.
  induction schedule as [|i rest IH]; intros b Hb Ht; simpl; [assumption|].
  apply IH; [apply advance_inv, Hb | apply (advance_trace_inv urls), Ht; exact Hb].
Qed.

(** X9: the semaphore bounds the batch.  Under any schedule, the number of
    coroutines between acquire and release is what is missing from the
    semaphore, and never more than [max_concurrent]. *)
Theorem in_flight_bounded (urls : list string) (schedule : list nat) :
  0 <= max_concurrent a ->
  let b := run rt env a schedule (spawn a urls) in
  0 <= permits b <= max_concurrent a
  /\ Z.of_nat (in_flight b) = max_concurrent a - permits b
  /\ Z.of_nat (in_flight b) <= max_concurrent a.
Proof.
  intros Hmax. cbv zeta.
  pose proof (run_inv rt env a urls schedule _ (spawn_inv a urls)) as [_ HP].
  pose proof (run_trace_inv urls schedule _ (spawn_inv a urls)
                (spawn_trace_inv urls Hmax)) as (Hp & _).
  unfold in_flight. lia.
Qed.

Lemma all_finished (l : list (string * Phase)) outs :
  mapM finished l = Some outs ->
  omap requested l = l.*1 /\ omap started l = l.*1
  /\ omap finished l = outs /\ sum_list (holds_permit <$> l) = 0%nat.
Proof.
  intros H. apply mapM_Some in H.
  induction H as [|[u ph] r l outs Hf H IH]; [repeat split|].
  destruct IH as (E1 & E2 & E3 & E4).
  unfold finished in Hf. simpl in Hf. destruct ph; try discriminate.
  injection Hf as ->.
  change (omap requested ((u, Finished r) :: l)) with (u :: omap requested l).
  change (omap started ((u, Finished r) :: l)) with (u :: omap started l).
  change (omap finished ((u, Finished r) :: l)) with (r :: omap finished l).
  rewrite E1, E2, E3. repeat split. exact E4.
Qed.

(** X10: the concurrent executor makes a single attempt per URL.  When the
    join returns, exactly one request has been issued for each input URL,
    each coroutine has acquired and released the semaphore once and slept
    exactly [delay] seconds (no jitter), and all permits are back. *)
Theorem one_request_per_url (urls : list string) (schedule : list nat)
    (outs : list ScrapingResult) :
  0 <= max_concurrent a ->
  scrape_multiple_async rt env a urls schedule = Some outs ->
  let b := run rt env a schedule (spawn a urls) in
  issued b = List.length urls
  /\ omap get_target (effects b) ≡ₚ urls
  /\ omap acquire_target (effects b) ≡ₚ urls
  /\ omap release_target (effects b) ≡ₚ urls
  /\ omap sleep_secs (effects b) = repeat (delay a) (List.length urls)
  /\ permits b = max_concurrent a.
Proof.
  intros Hmax Hout. cbv zeta. unfold scrape_multiple_async, gather in Hout.
  pose proof (run_inv rt env a urls schedule _ (spawn_inv a urls)) as [HF HP].
  pose proof (run_trace_inv urls schedule _ (spawn_inv a urls)
                (spawn_trace_inv urls Hmax)) as (Hp & Hi & Hg & Ha & Hr & Hs).
  pose proof (gather_urls a urls _ outs (conj HF HP) Hout) as Hurls.
  destruct (all_finished _ _ Hout) as (E1 & E2 & E3 & E4).
  assert (Efst : (tasks (run rt env a schedule (spawn a urls))).*1 = urls).
  { clear -HF. induction HF as [|u t us l [Ht _] HF IH]; simpl; [reflexivity|].
    rewrite Ht. f_equal. exact IH. }
  rewrite E1, Efst in Hi, Hg. rewrite E2, Efst in Ha, Hs.
  rewrite E3 in Hr. rewrite E4 in HP.
  repeat split; try assumption; try lia.
  rewrite Hr. rewrite <- Hurls. clear.
  induction outs as [|r outs IH]; simpl; [reflexivity | rewrite IH; reflexivity].
Qed.

End PermitPool.

(** ** The monitor: failures, duplicates, progress *)

Section MonitorInvariants.

Import Monitoring.

Variable rt : Runtime.

Lemma check_alerts_raised mon :
  (_check_alerts rt mon).2
  = match get_current_stats rt (performance_monitor mon) with
    | Some _ => None
    | None => if float_gt 0 (memory_threshold mon)
              then Some (OtherException "'avg_memory_percent'") else None
    end.
Proof.
  unfold _check_alerts, check_memory.
  destruct (get_current_stats rt (performance_monitor mon)) as [st|].
  - destruct (float_gt (avg_memory_percent st) (memory_threshold mon)); reflexivity.
  - destruct (float_gt 0 (memory_threshold mon)); reflexivity.
Qed.

(** What [log_request] raises: what the progress display raised, or else
    what the alert rules raise. *)
Lemma log_request_raised r (mt : Moment) mon :
  (log_request rt r mt mon).2
  = match (update_progress r mt mon).2 with
    | Some e => Some e
    | None =>
        match get_current_stats rt (performance_monitor mon) with
        | Some _ => None
        | None => if float_gt 0 (memory_threshold mon)
                  then Some (OtherException "'avg_memory_percent'") else None
        end
    end.
Proof.
  rewrite log_request_cases. cbv zeta.
  destruct (update_progress_frame r mt
              (with_metrics mon (update_metrics rt r (metrics mon))))
    as (_ & _ & F3 & _ & _ & F6).
  destruct (update_progress_with_metrics r mt mon (update_metrics rt r (metrics mon)))
    as (Er & _).
  rewrite <- Er. simpl in F3, F6.
  destruct (update_progress r mt (with_metrics mon _)) as [mon2 [e|]]; simpl in *;
    [reflexivity|].
  rewrite check_alerts_raised, F3, F6. reflexivity.
Qed.

(** The thresholds a monitor was given. *)
Definition thresholds (mon : ScrapingMonitor) : float * float * float :=
  (error_rate_threshold mon, response_time_threshold mon, memory_threshold mon).

Lemma step_thresholds mon op : thresholds (step rt mon op) = thresholds mon.
Proof.
  unfold thresholds.
  destruct op as [total now tnow | r mt | | c | now mt]; try reflexivity; simpl.
  - destruct (log_request_frame rt r mt mon) as (_ & _ & -> & -> & ->). reflexivity.
  - destruct (check_alerts_frame rt mon) as (_ & _ & _ & -> & -> & ->). reflexivity.
  - destruct (end_session_frame now mt mon) as (_ & -> & -> & ->). reflexivity.
Qed.

Lemma run_ops_thresholds ops :
  forall mon, thresholds (run_ops rt ops mon) = thresholds mon.
Proof.
  induction ops as [|op ops IH]; intros mon; [reflexivity|].
  change (run_ops rt (op :: ops) mon) with (run_ops rt ops (step rt mon op)).
  rewrite IH. apply step_thresholds.
Qed.

(** The operations that create no progress tracker: all but a
    [start_session] with a total. *)
Definition without_total (op : Op) : bool :=
  match op with
  | StartSession total _ _ => negb (opt_int_truthy total)
  | _ => true
  end.

Lemma step_without_tracker mon op :
  without_total op = true -> progress_tracker mon = None ->
  progress_tracker (step rt mon op) = None.
Proof.
  intros Hop Hp.
  destruct op as [total now tnow | r mt | | c | now mt]; simpl in *.
  - unfold start_session. simpl. destruct (opt_int_truthy total); [discriminate|].
    exact Hp.
  - destruct (log_request_frame rt r mt mon) as (-> & _).
    unfold update_progress. rewrite Hp. exact Hp.
  - destruct (check_alerts_frame rt mon) as (_ & -> & _). exact Hp.
  - exact Hp.
  - unfold end_session. rewrite Hp. reflexivity.
Qed.

Lemma run_ops_without_tracker ops :
  forall mon,
    forallb without_total ops = true -> progress_tracker mon = None ->
    progress_tracker (run_ops rt ops mon) = None.
Proof.
  induction ops as [|op ops IH]; intros mon Hops Hp; [exact Hp|].
  simpl in Hops. apply andb_true_iff in Hops as [Hop Hops].
  change (run_ops rt (op :: ops) mon) with (run_ops rt ops (step rt mon op)).
  apply (IH _ Hops), step_without_tracker; assumption.
Qed.

(** X11: on a monitor built by the constructor, whatever has happened to it
    since, the alert rules never raise (the thresholds are still 20, 10 and
    80, and the lookup of the memory average is only reached when the
    sampler has an answer), so [log_request] raises exactly what the update
    of the progress tracker raises.  That is nothing when no session with a
    total was started, there being no tracker, and nothing when the display
    is not due; a display that is due can raise, as the estimate does for a
    total too large for a [timedelta]. *)
Theorem record_raises_only_from_display (ops : list Op) (session_name : string)
    (now : Z) (r : Request) (mt : Moment) :
  let mon := run_ops rt ops (new_monitor session_name now) in
  (log_request rt r mt mon).2 = (update_progress r mt mon).2
  /\ (_check_alerts rt mon).2 = None
  /\ thresholds mon = (20%float, 10%float, 80%float)
  /\ (forallb without_total ops = true ->
      progress_tracker mon = None /\ (log_request rt r mt mon).2 = None)
  /\ (forall p,
        progress_tracker mon = Some p ->
        (log_request rt r mt mon).2
        = (if PrimFloat.leb (update_interval p) (time_time mt - last_update p)%float
           then _display_progress mt (count_item 1 (item_info r) p)
           else None)).
Proof.
  cbv zeta.
  pose proof (run_ops_thresholds ops (new_monitor session_name now)) as H.
  assert (E : memory_threshold (run_ops rt ops (new_monitor session_name now))
              = 80%float) by (injection H as _ _ ->; reflexivity).
  assert (L : (log_request rt r mt (run_ops rt ops (new_monitor session_name now))).2
              = (update_progress r mt
                   (run_ops rt ops (new_monitor session_name now))).2).
  { rewrite log_request_raised, E.
    destruct (update_progress r mt _).2; [reflexivity|].
    destruct (get_current_stats rt _); reflexivity. }
  split; [exact L|].
  split; [rewrite check_alerts_raised, E; destruct (get_current_stats rt _); reflexivity|].
  split; [exact H|].
  split.
  - intros Hops.
    pose proof (run_ops_without_tracker ops (new_monitor session_name now) Hops eq_refl)
      as Hp.
    split; [exact Hp|]. rewrite L. unfold update_progress. rewrite Hp. reflexivity.
  - intros p Hp. rewrite L. unfold update_progress. rewrite Hp.
    unfold tracker_update.
    destruct (PrimFloat.leb _ _); [|reflexivity].
    destruct (_display_progress mt _) as [e|]; reflexivity.
Qed.

(** X12: the one way the alert rules raise.  On a monitor whose memory
    threshold was set below zero and whose sampler has no measurement yet,
    the default 0 of the lookup passes the comparison and the subscript
    raises KeyError; [log_request] raises it unless the progress display has
    raised before, and the request has been counted all the same. *)
Theorem negative_memory_threshold_raises (r : Request) (mt : Moment)
    (mon : ScrapingMonitor) :
  metrics_history (performance_monitor mon) = [] ->
  float_gt 0 (memory_threshold mon) = true ->
  (_check_alerts rt mon).2 = Some (OtherException "'avg_memory_percent'")
  /\ (log_request rt r mt mon).2
     = match (update_progress r mt mon).2 with
       | Some e => Some e
       | None => Some (OtherException "'avg_memory_percent'")
       end
  /\ (progress_tracker mon = None ->
      (log_request rt r mt mon).2 = Some (OtherException "'avg_memory_percent'"))
  /\ completions (metrics (log_request rt r mt mon).1) = completions (metrics mon) + 1.
Proof.
  intros Hh Hthr. rewrite log_request_raised, log_request_metrics, check_alerts_raised.
  unfold get_current_stats. rewrite Hh. simpl. rewrite Hthr.
  split; [reflexivity|]. split; [reflexivity|].
  split; [|apply update_metrics_completions].
  intros Hp. unfold update_progress. rewrite Hp. reflexivity.
Qed.

Lemma add_alert_NoDup a l : NoDup l -> NoDup (add_alert a l).
Proof.
  intros H. unfold add_alert. destruct (bool_decide_reflect (a ∈ l)) as [Ha|Ha];
    [exact H|].
  apply NoDup_app. split; [exact H|]. split; [|apply NoDup_singleton].
  intros x Hx Hx'. apply list_elem_of_singleton in Hx'. subst. contradiction.
Qed.

Lemma add_alerts_NoDup msgs : forall l, NoDup l -> NoDup (add_alerts msgs l).
Proof.
  induction msgs as [|a msgs IH]; intros l H; [exact H|].
  apply (IH (add_alert a l)), add_alert_NoDup, H.
Qed.

Lemma step_alerts_NoDup mon op : NoDup (alerts mon) -> NoDup (alerts (step rt mon op)).
Proof.
  intros H. destruct op as [total now tnow | r mt | | c | now mt]; simpl; try exact H.
  - destruct (log_request_alerts rt r mt mon) as (mon2 & E & [-> | ->]); [exact H|].
    rewrite check_alerts_breached. apply add_alerts_NoDup. rewrite E. exact H.
  - rewrite check_alerts_breached. apply add_alerts_NoDup. exact H.
  - rewrite (proj1 (end_session_frame now mt mon)). exact H.
Qed.

(** X13: the alert list of a monitor never holds the same string twice,
    whatever operations it has gone through since its construction. *)
Theorem alerts_never_duplicated (ops : list Op) (session_name : string) (now : Z) :
  NoDup (alerts (run_ops rt ops (new_monitor session_name now))).
Proof.
  assert (H : forall mon, NoDup (alerts mon) -> NoDup (alerts (run_ops rt ops mon))).
  { induction ops as [|op ops IH]; intros mon Hm; [exact Hm|].
    change (run_ops rt (op :: ops) mon) with (run_ops rt ops (step rt mon op)).
    apply IH, step_alerts_NoDup, Hm. }
  apply H. apply NoDup_nil_2.
Qed.

(** The operations that happen inside a session. *)
Definition in_session (op : Op) : bool :=
  match op with
  | LogRequest _ _ | CheckAlerts | SamplerWake _ => true
  | StartSession _ _ _ | EndSession _ _ => false
  end.

(** The progress tracker and the metrics tell the same story. *)
Definition tracker_agrees (mon : ScrapingMonitor) : Prop :=
  exists p,
    progress_tracker mon = Some p
    /\ current_item p = completions (metrics mon)
    /\ Z.of_nat (List.length (completed_items p)) = successful_requests (metrics mon)
    /\ Z.of_nat (List.length (failed_items p)) = failed_requests (metrics mon).

Lemma step_tracker_agrees mon op :
  in_session op = true -> tracker_agrees mon -> tracker_agrees (step rt mon op).
Proof.
  intros Hop (p & Hp & H1 & H2 & H3).
  destruct op as [total now tnow | r mt | | c | now mt]; try discriminate; simpl.
  - unfold tracker_agrees.
    destruct (log_request_frame rt r mt mon) as (-> & _).
    rewrite log_request_metrics.
    unfold update_progress. rewrite Hp.
    match goal with
    | |- context [tracker_update 1 ?info mt p] =>
        destruct (tracker_update_counts 1 info mt p) as (_ & T2 & T3 & T4);
        destruct (tracker_update 1 info mt p) as [p' raised]
    end.
    simpl in T2, T3, T4. simpl. exists p'. split; [reflexivity|].
    rewrite T2, T3, T4. unfold completions, item_info in *. simpl.
    destruct (req_success r); simpl; rewrite ?length_app; simpl; repeat split; lia.
  - destruct (check_alerts_frame rt mon) as (Em & Et & _).
    unfold tracker_agrees. rewrite Em, Et. exists p. repeat split; assumption.
  - exists p. repeat split; assumption.
Qed.

(** X14: during a session started with a total, the progress tracker
    and the metrics agree after every operation: the tracker's position is
    the number of completions, its list of completed items is as long as
    [successful_requests] and its list of failed items as long as
    [failed_requests]. *)
Theorem tracker_matches_metrics (total now tnow : Z) (mon : ScrapingMonitor)
    (ops : list Op) :
  total <> 0 ->
  forallb in_session ops = true ->
  tracker_agrees (run_ops rt ops (start_session (Some total) now tnow mon)).
Proof.
  intros Htotal Hops.
  assert (H : forall m, tracker_agrees m -> tracker_agrees (run_ops rt ops m)).
  { induction ops as [|op ops IH]; intros m Hm; [exact Hm|].
    simpl in Hops. apply andb_true_iff in Hops as [Hop Hops].
    change (run_ops rt (op :: ops) m) with (run_ops rt ops (step rt m op)).
    apply (IH Hops), step_tracker_agrees; assumption. }
  apply H. unfold tracker_agrees, start_session. simpl.
  destruct (Z.eqb_spec total 0) as [E|_]; [contradiction|]. simpl.
  eexists. split; [reflexivity|]. repeat split.
Qed.

(** X25: [end_session] raises exactly what [finish] of the progress tracker
    raises, so never without a tracker.  In every case the session is
    marked as ended at [now] and the counters and the alerts are kept.  The
    sampler is stopped when [end_session] returns; when it raises, the
    sampler is left as it was, which after [start_session] is running. *)
Theorem end_session_raises_before_stopping (now : Z) (mt : Moment)
    (mon : ScrapingMonitor) :
  let '(mon', raised) := end_session now mt mon in
  raised = match progress_tracker mon with
           | Some p => (tracker_finish mt p).2
           | None => None
           end
  /\ end_time (metrics mon') = Some now
  /\ successful_requests (metrics mon') = successful_requests (metrics mon)
  /\ failed_requests (metrics mon') = failed_requests (metrics mon)
  /\ alerts mon' = alerts mon
  /\ (raised = None ->
      performance_monitor mon' = stop_monitoring (performance_monitor mon)
      /\ monitoring (performance_monitor mon') = false)
  /\ (is_Some raised ->
      performance_monitor mon' = performance_monitor mon
      /\ forall total now0 tnow mon0,
           mon = start_session total now0 tnow mon0 ->
           monitoring (performance_monitor mon') = true).
Proof.
  pose proof (end_session_end_time now mt mon) as He.
  pose proof (end_session_counts now mt mon) as [Hs Hf].
  pose proof (end_session_frame now mt mon) as (Ha & _).
  assert (Hr : (end_session now mt mon).2
               = match progress_tracker mon with
                 | Some p => (tracker_finish mt p).2
                 | None => None
                 end
               /\ performance_monitor (end_session now mt mon).1
                  = match (end_session now mt mon).2 with
                    | Some _ => performance_monitor mon
                    | None => stop_monitoring (performance_monitor mon)
                    end).
  { unfold end_session. destruct (progress_tracker mon) as [p|];
      [destruct (tracker_finish mt p) as [p' [e|]]|]; split; reflexivity. }
  destruct Hr as [Hr Hp].
  destruct (end_session now mt mon) as [mon' raised]. simpl in *.
  repeat split; try assumption.
  - subst raised. rewrite H in Hp. exact Hp.
  - rewrite H in Hp. rewrite Hp. reflexivity.
  - destruct H as [e He']. rewrite He' in Hp. exact Hp.
  - intros total now0 tnow mon0 ->. destruct H as [e He']. rewrite He' in Hp.
    rewrite Hp. unfold start_session, start_monitoring. simpl.
    destruct (monitoring (performance_monitor mon0)) eqn:E; [exact E | reflexivity].
Qed.

End MonitorInvariants.

(** ** The aggregator: counters and histograms *)

Section Aggregates.

Import Monitoring.

Variable rt : Runtime.

(** The number of recorded requests that satisfy [p]. *)
Definition count_where (p : Request -> bool) (rs : list (Request * Moment)) : Z :=
  Z.of_nat (List.length (List.filter (fun rq => p rq.1) rs)).

Definition bytes_of (rs : list (Request * Moment)) : Z :=
  fold_right (fun rq acc => default 0 (req_content_size rq.1) + acc) 0 rs.

(** The sum of the counts of a histogram. *)
Definition histogram_total `{Countable K} (d : gmap K Z) : Z :=
  map_fold (fun _ v acc => v + acc) 0 d.

Lemma histogram_total_bump `{Countable K} (k : K) (d : gmap K Z) :
  histogram_total (bump k d) = histogram_total d + 1.
Proof.
  unfold histogram_total, bump.
  assert (Hcomm : forall (m : gmap K Z) (j1 j2 : K) (z1 z2 y : Z),
             j1 <> j2 -> m !! j1 = Some z1 -> m !! j2 = Some z2 ->
             z1 + (z2 + y) = z2 + (z1 + y)) by (intros; lia).
  destruct (d !! k) as [v|] eqn:Hk; simpl.
  - rewrite <- insert_delete_eq.
    rewrite map_fold_insert_L; [|apply Hcomm | apply lookup_delete_eq].
    rewrite (map_fold_delete_L _ _ k v d); [lia | apply Hcomm | exact Hk].
  - rewrite map_fold_insert_L; [lia | apply Hcomm | exact Hk].
Qed.

Definition has_error_text (r : Request) : bool :=
  negb (req_success r) && opt_str_truthy (req_error r).

Definition has_status (r : Request) : bool := opt_int_truthy (req_status_code r).

Definition url_parses (r : Request) : bool :=
  match urlparse rt (req_url r) with Some _ => true | None => false end.

Definition b2z (b : bool) : Z := if b then 1 else 0.

Lemma update_metrics_aggregates r m :
  let m' := update_metrics rt r m in
  successful_requests m' = successful_requests m + b2z (req_success r)
  /\ failed_requests m' = failed_requests m + b2z (negb (req_success r))
  /\ total_bytes_downloaded m'
     = total_bytes_downloaded m + default 0 (req_content_size r)
  /\ histogram_total (errors_by_type m')
     = histogram_total (errors_by_type m) + b2z (has_error_text r)
  /\ histogram_total (status_codes m')
     = histogram_total (status_codes m) + b2z (has_status r)
  /\ histogram_total (domain_stats m')
     = histogram_total (domain_stats m) + b2z (url_parses r).
Proof.
  cbv zeta. unfold update_metrics, has_error_text, has_status, url_parses. simpl.
  repeat split.
  - destruct (req_success r); simpl; lia.
  - destruct (req_success r); simpl; lia.
  - destruct (req_content_size r) as [n|]; simpl; [|lia].
    destruct (Z.eqb_spec n 0); simpl; lia.
  - destruct (req_success r); simpl; [lia|].
    destruct (req_error r) as [[|c e]|]; simpl; try lia.
    apply histogram_total_bump.
  - destruct (req_status_code r) as [c|]; simpl; [|lia].
    destruct (c =? 0); simpl; [lia | apply histogram_total_bump].
  - destruct (urlparse rt (req_url r)); simpl; [apply histogram_total_bump | lia].
Qed.

Lemma count_where_cons p rq rs :
  count_where p (rq :: rs) = b2z (p rq.1) + count_where p rs.
Proof.
  unfold count_where. simpl. destruct (p rq.1); simpl; lia.
Qed.

Lemma log_requests_aggregates rs :
  forall mon,
    let m := metrics mon in
    let m' := metrics (log_requests rt rs mon) in
    successful_requests m' = successful_requests m + count_where req_success rs
    /\ failed_requests m'
       = failed_requests m + count_where (fun r => negb (req_success r)) rs
    /\ total_bytes_downloaded m' = total_bytes_downloaded m + bytes_of rs
    /\ histogram_total (errors_by_type m')
       = histogram_total (errors_by_type m) + count_where has_error_text rs
    /\ histogram_total (status_codes m')
       = histogram_total (status_codes m) + count_where has_status rs
    /\ histogram_total (domain_stats m')
       = histogram_total (domain_stats m) + count_where url_parses rs.
Proof.
  induction rs as [|[r t] rs IH]; intros mon; cbv zeta.
  - unfold count_where. simpl. repeat split; lia.
  - change (log_requests rt ((r, t) :: rs) mon)
      with (log_requests rt rs (log_request rt r t mon).1).
    specialize (IH (log_request rt r t mon).1). cbv zeta in IH.
    rewrite log_request_metrics in IH.
    destruct IH as (A1 & A2 & A3 & A4 & A5 & A6).
    destruct (update_metrics_aggregates r (metrics mon)) as (B1 & B2 & B3 & B4 & B5 & B6).
    rewrite !count_where_cons. simpl fst.
    rewrite A1, A2, A3, A4, A5, A6, B1, B2, B3, B4, B5, B6. simpl.
    repeat split; lia.
Qed.

Lemma count_where_le p rs : 0 <= count_where p rs <= Z.of_nat (List.length rs).
Proof.
  unfold count_where. pose proof (List.filter_length_le (fun rq => p rq.1) rs). lia.
Qed.

Lemma count_where_impl (p q : Request -> bool) rs :
  (forall r, p r = true -> q r = true) -> count_where p rs <= count_where q rs.
Proof.
  intros Hpq. induction rs as [|rq rs IH]; [reflexivity|].
  rewrite !count_where_cons. specialize (Hpq rq.1).
  destruct (p rq.1), (q rq.1); simpl; first [lia | discriminate Hpq; reflexivity].
Qed.

(** X15: the counters of a session are the counts of what was recorded:
    after the requests [rs], [successful_requests] is the number of them
    flagged successful, [failed_requests] the number of the others, and
    [total_bytes_downloaded] the sum of their content sizes (an absent size
    counting for 0).  Every request is in exactly one of the two counters. *)
Theorem counters_count_records (total : option Z) (now tnow : Z)
    (mon : ScrapingMonitor) (rs : list (Request * Moment)) :
  let m := metrics (log_requests rt rs (start_session total now tnow mon)) in
  successful_requests m = count_where req_success rs
  /\ failed_requests m = count_where (fun r => negb (req_success r)) rs
  /\ successful_requests m + failed_requests m = Z.of_nat (List.length rs)
  /\ total_bytes_downloaded m = bytes_of rs.
Proof.
  cbv zeta.
  destruct (log_requests_aggregates rs (start_session total now tnow mon))
    as (A1 & A2 & A3 & _).
  simpl in A1, A2, A3. rewrite A1, A2, A3. repeat split.
  clear. induction rs as [|rq rs IH]; [reflexivity|].
  rewrite !count_where_cons. simpl List.length.
  destruct (req_success rq.1); simpl; lia.
Qed.

(** X16: the histograms of a session add up to what was recorded: the
    error histogram to the number of failed requests that carried an error
    text, the status histogram to the number of requests with a status
    (other than 0), the domain histogram to the number of requests whose URL
    the parser accepted.  So the error histogram never exceeds
    [failed_requests], and no histogram exceeds the number of requests. *)
Theorem histograms_count_records (total : option Z) (now tnow : Z)
    (mon : ScrapingMonitor) (rs : list (Request * Moment)) :
  let m := metrics (log_requests rt rs (start_session total now tnow mon)) in
  histogram_total (errors_by_type m) = count_where has_error_text rs
  /\ histogram_total (status_codes m) = count_where has_status rs
  /\ histogram_total (domain_stats m) = count_where url_parses rs
  /\ histogram_total (errors_by_type m) <= failed_requests m
  /\ histogram_total (status_codes m) <= Z.of_nat (List.length rs)
  /\ histogram_total (domain_stats m) <= Z.of_nat (List.length rs).
Proof.
  cbv zeta.
  destruct (log_requests_aggregates rs (start_session total now tnow mon))
    as (_ & A2 & _ & A4 & A5 & A6).
  simpl in A2, A4, A5, A6.
  change (histogram_total (∅ : gmap string Z)) with 0 in A4, A6.
  change (histogram_total (∅ : gmap Z Z)) with 0 in A5.
  rewrite A2, A4, A5, A6. simpl.
  repeat split; try apply count_where_le.
  apply count_where_impl. intros r Hr. unfold has_error_text in Hr.
  apply andb_true_iff in Hr as [Hr _]. exact Hr.
Qed.

(** X17: the [success_rate] of the metrics at its ends: 0 while nothing
    has completed, 0 when nothing succeeded, 100 when nothing failed. *)
Theorem success_rate_extremes (m : ScrapingMetrics) :
  (successful_requests m + failed_requests m <= 0 -> success_rate m = 0%float)
  /\ (successful_requests m = 0 -> 0 < failed_requests m -> success_rate m = 0%float)
  /\ (0 < successful_requests m -> failed_requests m = 0 ->
      success_rate m = 100%float).
Proof.
  unfold success_rate. repeat split.
  - intros H. destruct (Z.ltb_spec 0 (successful_requests m + failed_requests m));
      [lia | reflexivity].
  - intros Hs Hf. rewrite Hs. simpl.
    destruct (Z.ltb_spec 0 (failed_requests m)) as [_|]; [|lia].
    destruct (failed_requests m); try lia. vm_compute. reflexivity.
  - intros Hs Hf. rewrite Hf, Z.add_0_r.
    destruct (Z.ltb_spec 0 (successful_requests m)) as [_|]; [|lia].
    rewrite int_truediv_same by exact Hs. vm_compute. reflexivity.
Qed.

End Aggregates.

(** ** The sampler: stopping and the window of its statistics *)

Section Sampler.

Import Monitoring.

Variable rt : Runtime.

Lemma monitor_loop_idle captures :
  forall pm, monitoring pm = false -> _monitor_loop captures pm = pm.
Proof.
  induction captures as [|c rest IH]; intros pm H; [reflexivity|].
  change (_monitor_loop (c :: rest) pm) with (_monitor_loop rest (monitor_wake c pm)).
  assert (E : monitor_wake c pm = pm) by (unfold monitor_wake; rewrite H; reflexivity).
  rewrite E. apply IH, H.
Qed.

(** X18: a sampler that is not running records nothing: before
    [start_monitoring] and after [stop_monitoring] the loop leaves the monitor
    as it is, whatever it would have measured.  Starting twice is starting
    once, stopping twice is stopping once, and neither touches the history,
    so a restarted sampler continues the history it had. *)
Theorem stopped_sampler_records_nothing (pm : PerformanceMonitor)
    (captures : list (option Sample)) :
  _monitor_loop captures (stop_monitoring pm) = stop_monitoring pm
  /\ (forall i, _monitor_loop captures (new_performance_monitor i)
                = new_performance_monitor i)
  /\ start_monitoring (start_monitoring pm) = start_monitoring pm
  /\ stop_monitoring (stop_monitoring pm) = stop_monitoring pm
  /\ metrics_history (start_monitoring (stop_monitoring pm)) = metrics_history pm
  /\ monitoring (start_monitoring pm) = true.
Proof.
  split; [apply monitor_loop_idle; reflexivity|].
  split; [intros i; apply monitor_loop_idle; reflexivity|].
  unfold start_monitoring, stop_monitoring.
  destruct (monitoring pm) eqn:E; simpl; rewrite ?E; repeat split.
Qed.

(** What [get_current_stats] derives from the measurements alone. *)
Definition averages (st : SystemStats) : float * float * float * Z :=
  (avg_cpu_percent st, avg_memory_percent st, current_memory_mb st,
   measurements_count st).

(** X19: [get_current_stats] is empty exactly when there is no
    measurement; otherwise it counts the measurements it averaged, between 1
    and 10, and once ten are there the averages, the current memory and the
    count depend on the ten newest only. *)
Theorem current_stats_window (pm : PerformanceMonitor) :
  (get_current_stats rt pm = None <-> metrics_history pm = [])
  /\ (forall st, get_current_stats rt pm = Some st ->
        measurements_count st
        = Z.of_nat (Nat.min (List.length (metrics_history pm)) 10)
        /\ 1 <= measurements_count st <= 10)
  /\ (forall older recent,
        metrics_history pm = older ++ recent ->
        List.length recent = 10%nat ->
        averages <$> get_current_stats rt pm
        = averages <$> get_current_stats rt
            {| interval := interval pm; monitoring := monitoring pm;
               metrics_history := recent |}).
Proof.
  split; [|split].
  - unfold get_current_stats.
    destruct (metrics_history pm) as [|x h] eqn:E; [split; reflexivity|].
    destruct (last (drop (List.length (x :: h) - 10) (x :: h))) as [newest|] eqn:El;
      [split; discriminate|].
    apply last_None in El. apply (f_equal List.length) in El.
    rewrite length_drop in El. simpl in El. lia.
  - intros st. unfold get_current_stats.
    destruct (last _) as [newest|] eqn:El; [|discriminate].
    intros H. injection H as <-. simpl. rewrite length_drop.
    assert (Hne : metrics_history pm <> []).
    { intros E. rewrite E in El. discriminate El. }
    assert (0 < List.length (metrics_history pm))%nat
      by (destruct (metrics_history pm); [contradiction | simpl; lia]).
    split; lia.
  - intros older recent Hh Hlen. unfold get_current_stats. simpl.
    rewrite Hh, length_app, Hlen.
    replace (List.length older + 10 - 10)%nat with (List.length older) by lia.
    rewrite drop_app_length. change (10 - 10)%nat with 0%nat.
    change (drop 0 recent) with recent.
    destruct (last recent); reflexivity.
Qed.

End Sampler.

(** ** src/utils.py: the text helpers

    Texts are strings of ASCII characters, for which [len] is the number of
    characters of the string. *)

Module TextUtils.

(** [extract_domain]: the network location, [''] when the parser raises. *)
Definition extract_domain (rt : Runtime) (url : string) : string :=
  match urlparse rt url with
  | Some parsed => netloc parsed
  | None => EmptyString
  end.

(** The nine characters of the class that [safe_filename] replaces: the
    angle brackets, the colon, the double quote, slash and backslash, the
    bar, the question mark and the asterisk. *)
Definition is_invalid_char (c : ascii) : bool :=
  let n := nat_of_ascii c in
  ((n =? 60) || (n =? 62) || (n =? 58) || (n =? 34) || (n =? 47)
   || (n =? 92) || (n =? 124) || (n =? 63) || (n =? 42))%nat.

(** [re.sub] of that class by an underscore. *)
Fixpoint replace_invalid (s : string) : string :=
  match s with
  | EmptyString => EmptyString
  | String c rest =>
      String (if is_invalid_char c then "_"%char else c) (replace_invalid rest)
  end.

(** [s[:n]] for a natural number [n]. *)
Fixpoint take_chars (n : nat) (s : string) : string :=
  match n, s with
  | S n', String c rest => String c (take_chars n' rest)
  | _, _ => EmptyString
  end.

(** [s[:k]] for an integer [k]: a negative [k] counts from the end. *)
Definition slice_to (k : Z) (s : string) : string :=
  if 0 <=? k then take_chars (Z.to_nat k) s
  else take_chars (Z.to_nat (Z.of_nat (String.length s) + k)) s.

Definition safe_filename (filename : string) : string :=
  let replaced := replace_invalid filename in
  if (200 <? String.length replaced)%nat then take_chars 200 replaced else replaced.

Definition truncate_text (text : string) (max_length : Z) : string :=
  if negb (Utils.str_truthy text) || (Z.of_nat (String.length text) <=? max_length)
  then text
  else slice_to (max_length - 3) text +:+ "...".

(** The ASCII characters [\s] matches and [strip] removes: tab to carriage
    return, the four separators 0x1c to 0x1f, and the space. *)
Definition is_space (c : ascii) : bool :=
  let n := nat_of_ascii c in
  ((9 <=? n) && (n <=? 13) || (28 <=? n) && (n <=? 32))%nat.

(** [re.sub(r'\s+', ' ', s)]; [in_run] tells that the previous character
    was whitespace, already replaced. *)
Fixpoint collapse_spaces (in_run : bool) (s : string) : string :=
  match s with
  | EmptyString => EmptyString
  | String c rest =>
      if is_space c
      then (if in_run then collapse_spaces true rest
            else String " " (collapse_spaces true rest))
      else String c (collapse_spaces false rest)
  end.

Fixpoint lstrip (s : string) : string :=
  match s with
  | EmptyString => EmptyString
  | String c rest => if is_space c then lstrip rest else s
  end.

Fixpoint rstrip (s : string) : string :=
  match s with
  | EmptyString => EmptyString
  | String c rest =>
      match rstrip rest with
      | EmptyString => if is_space c then EmptyString else String c EmptyString
      | kept => String c kept
      end
  end.

Definition strip (s : string) : string := rstrip (lstrip s).

Definition normalize_whitespace (text : string) : string :=
  if negb (Utils.str_truthy text) then EmptyString
  else strip (collapse_spaces false text).

End TextUtils.

Example text_utils_ex :
  TextUtils.safe_filename "a/b:c?.txt" = "a_b_c_.txt"%string
  /\ TextUtils.truncate_text "hello world" 8 = "hello..."%string
  /\ TextUtils.truncate_text "hello world" 11 = "hello world"%string
  /\ TextUtils.truncate_text "abcdef" 2 = "abcde..."%string
  /\ TextUtils.truncate_text "abcdef" (-10) = "..."%string
  /\ TextUtils.normalize_whitespace (String (ascii_of_nat 9) "  a   b c  ")
     = "a b c"%string
  /\ TextUtils.normalize_whitespace "   " = ""%string.
Proof. vm_compute. repeat split. Qed.

Section TextProperties.

Import TextUtils.

Fixpoint every_char (p : ascii -> bool) (s : string) : bool :=
  match s with
  | EmptyString => true
  | String c rest => p c && every_char p rest
  end.

Definition is_valid_char (c : ascii) : bool := negb (is_invalid_char c).

Lemma replace_invalid_length s : String.length (replace_invalid s) = String.length s.
Proof. induction s as [|c s IH]; simpl; [reflexivity | rewrite IH; reflexivity]. Qed.

Lemma take_chars_length n :
  forall s, String.length (take_chars n s) = Nat.min n (String.length s).
Proof.
  induction n as [|n IH]; intros [|c s]; simpl; try reflexivity.
  rewrite IH. reflexivity.
Qed.

Lemma take_chars_all n : forall s, (String.length s <= n)%nat -> take_chars n s = s.
Proof.
  induction n as [|n IH]; intros [|c s] H; simpl in *; try reflexivity; try lia.
  rewrite IH by lia. reflexivity.
Qed.

Lemma take_chars_every p n :
  forall s, every_char p s = true -> every_char p (take_chars n s) = true.
Proof.
  induction n as [|n IH]; intros [|c s] H; simpl in *; try reflexivity.
  apply andb_true_iff in H as [Hc Hs]. rewrite Hc, (IH s Hs). reflexivity.
Qed.

Lemma replace_invalid_valid s : every_char is_valid_char (replace_invalid s) = true.
Proof.
  induction s as [|c s IH]; simpl; [reflexivity|]. rewrite IH, andb_true_r.
  unfold is_valid_char. destruct (is_invalid_char c) eqn:E; [reflexivity|].
  rewrite E. reflexivity.
Qed.

Lemma replace_invalid_id s : every_char is_valid_char s = true -> replace_invalid s = s.
Proof.
  induction s as [|c s IH]; simpl; intros H; [reflexivity|].
  apply andb_true_iff in H as [Hc Hs]. rewrite (IH Hs).
  unfold is_valid_char in Hc. destruct (is_invalid_char c); [discriminate|reflexivity].
Qed.

Lemma safe_filename_id f :
  every_char is_valid_char f = true -> (String.length f <= 200)%nat ->
  safe_filename f = f.
Proof.
  intros Hv Hl. unfold safe_filename. rewrite (replace_invalid_id f Hv).
  destruct (Nat.ltb_spec 200 (String.length f)); [lia | reflexivity].
Qed.

Lemma safe_filename_valid f : every_char is_valid_char (safe_filename f) = true.
Proof.
  unfold safe_filename. destruct (200 <? _)%nat;
    [apply take_chars_every|]; apply replace_invalid_valid.
Qed.

Lemma safe_filename_length f :
  String.length (safe_filename f) = Nat.min (String.length f) 200.
Proof.
  unfold safe_filename. rewrite replace_invalid_length.
  destruct (Nat.ltb_spec 200 (String.length f)).
  - rewrite take_chars_length, replace_invalid_length. lia.
  - rewrite replace_invalid_length. lia.
Qed.

(** X20: [safe_filename] keeps the length of a name up to 200 characters
    and cuts a longer one to 200; its result holds none of the nine
    characters it replaces; a name that is already safe and short enough is
    returned unchanged, so applying it twice is applying it once. *)
Theorem safe_filename_safe (f : string) :
  String.length (safe_filename f) = Nat.min (String.length f) 200
  /\ every_char is_valid_char (safe_filename f) = true
  /\ safe_filename (safe_filename f) = safe_filename f
  /\ (every_char is_valid_char f = true -> (String.length f <= 200)%nat ->
      safe_filename f = f).
Proof.
  split; [apply safe_filename_length|].
  split; [apply safe_filename_valid|].
  split; [|apply safe_filename_id].
  apply safe_filename_id; [apply safe_filename_valid|].
  rewrite safe_filename_length. lia.
Qed.

(** X21: [truncate_text] returns a text that fits unchanged.  A longer
    text becomes its first [max_length - 3] characters followed by three
    dots, of length [max_length], provided [max_length] is at least 3; for a
    smaller [max_length] the slice counts from the end of the text and the
    result is longer than [max_length]. *)
Theorem truncate_text_length (text : string) (max_length : Z) :
  let len := Z.of_nat (String.length text) in
  let result := truncate_text text max_length in
  (len <= max_length -> result = text)
  /\ (3 <= max_length -> max_length < len ->
      result = take_chars (Z.to_nat (max_length - 3)) text +:+ "..."
      /\ Z.of_nat (String.length result) = max_length)
  /\ (max_length < 3 -> max_length < len -> 0 < len ->
      Z.of_nat (String.length result) = Z.max (len + max_length - 3) 0 + 3
      /\ max_length < Z.of_nat (String.length result)).
Proof.
  cbv zeta. unfold truncate_text.
  split; [|split].
  - intros H. destruct (Z.leb_spec (Z.of_nat (String.length text)) max_length);
      [rewrite orb_true_r; reflexivity | lia].
  - intros H3 Hlen.
    assert (Ht : Utils.str_truthy text = true) by (destruct text; simpl in *; [lia|reflexivity]).
    rewrite Ht. simpl.
    destruct (Z.leb_spec (Z.of_nat (String.length text)) max_length); [lia|].
    unfold slice_to. destruct (Z.leb_spec 0 (max_length - 3)); [|lia].
    split; [reflexivity|].
    rewrite string_length_app, take_chars_length. simpl. lia.
  - intros H3 Hlen Hpos.
    assert (Ht : Utils.str_truthy text = true) by (destruct text; simpl in *; [lia|reflexivity]).
    rewrite Ht. simpl.
    destruct (Z.leb_spec (Z.of_nat (String.length text)) max_length); [lia|].
    unfold slice_to. destruct (Z.leb_spec 0 (max_length - 3)); [lia|].
    rewrite string_length_app, take_chars_length. simpl. lia.
Qed.

(** A text in which whitespace occurs only as single spaces between other
    characters; [after_space] tells that the previous character was a
    space, or that the text starts here. *)
Fixpoint tidy (after_space : bool) (s : string) : bool :=
  match s with
  | EmptyString => negb after_space
  | String c rest =>
      if is_space c
      then Ascii.eqb c " " && negb after_space && tidy true rest
      else tidy false rest
  end.

Definition is_normal (s : string) : bool :=
  match s with EmptyString => true | _ => tidy true s end.

(** The same, a space at the end allowed. *)
Fixpoint spaced (after_space : bool) (s : string) : bool :=
  match s with
  | EmptyString => true
  | String c rest =>
      if is_space c
      then Ascii.eqb c " " && negb after_space && spaced true rest
      else spaced false rest
  end.

Lemma collapse_spaced s : forall b, spaced b (collapse_spaces b s) = true.
Proof.
  induction s as [|c s IH]; intros b; simpl; [reflexivity|].
  destruct (is_space c) eqn:E.
  - destruct b; [apply IH|]. simpl. rewrite (IH true). reflexivity.
  - simpl. rewrite E. apply IH.
Qed.

Lemma lstrip_spaced s : forall b, spaced b s = true -> spaced true (lstrip s) = true.
Proof.
  induction s as [|c s IH]; intros b H; simpl in *; [reflexivity|].
  destruct (is_space c) eqn:E.
  - apply andb_true_iff in H as [_ H]. apply (IH true H).
  - simpl. rewrite E. exact H.
Qed.

Lemma rstrip_tidy s :
  forall b, spaced b s = true ->
            match rstrip s with
            | EmptyString => True
            | kept => tidy b kept = true
            end.
Proof.
  induction s as [|c s IH]; intros b H; simpl in *; [exact I|].
  destruct (is_space c) eqn:E.
  - apply andb_true_iff in H as [H1 H]. specialize (IH true H).
    destruct (rstrip s) as [|c' kept] eqn:Ek; [exact I|].
    change (tidy b (String c (String c' kept)) = true).
    cbn [tidy]. rewrite E, H1. exact IH.
  - specialize (IH false H).
    destruct (rstrip s) as [|c' kept] eqn:Ek; simpl; rewrite E; [reflexivity|].
    exact IH.
Qed.

Lemma tidy_weaken s : tidy true s = true -> tidy false s = true.
Proof.
  destruct s as [|c s]; simpl; [discriminate|].
  destruct (is_space c); [|trivial]. rewrite andb_false_r. discriminate.
Qed.

Lemma tidy_collapse s : forall b, tidy b s = true -> collapse_spaces b s = s.
Proof.
  induction s as [|c s IH]; intros b H; simpl in *; [reflexivity|].
  destruct (is_space c) eqn:E.
  - apply andb_true_iff in H as [H1 H]. apply andb_true_iff in H1 as [Hc Hb].
    destruct b; [discriminate|]. apply Ascii.eqb_eq in Hc. subst c.
    rewrite (IH true H). reflexivity.
  - rewrite (IH false H). reflexivity.
Qed.

Lemma tidy_lstrip s : tidy true s = true -> lstrip s = s.
Proof.
  destruct s as [|c s]; simpl; [reflexivity|].
  destruct (is_space c); [|reflexivity]. rewrite andb_false_r. discriminate.
Qed.

Lemma tidy_rstrip s : forall b, tidy b s = true -> rstrip s = s.
Proof.
  induction s as [|c s IH]; intros b H; [reflexivity|].
  cbn [tidy] in H. cbn [rstrip].
  destruct (is_space c) eqn:E.
  - apply andb_true_iff in H as [_ H]. rewrite (IH true H).
    destruct s; [discriminate H | reflexivity].
  - rewrite (IH false H). destruct s; reflexivity.
Qed.

Lemma normalize_normal_id s : is_normal s = true -> normalize_whitespace s = s.
Proof.
  destruct s as [|c s]; [reflexivity|]. intros H. unfold is_normal in H.
  unfold normalize_whitespace, strip. cbn [Utils.str_truthy negb].
  rewrite (tidy_collapse _ false (tidy_weaken _ H)).
  rewrite (tidy_lstrip _ H). apply (tidy_rstrip _ true H).
Qed.

Lemma normalize_is_normal text : is_normal (normalize_whitespace text) = true.
Proof.
  unfold normalize_whitespace. destruct (negb (Utils.str_truthy text)); [reflexivity|].
  unfold strip.
  pose proof (rstrip_tidy _ true
                (lstrip_spaced _ false (collapse_spaced text false))) as H.
  destruct (rstrip _); [reflexivity | exact H].
Qed.

(** X22: the result of [normalize_whitespace] has whitespace only as
    single spaces between other characters (none at either end, no run, no
    tab or newline); a text of that shape is returned unchanged, so
    normalising twice is normalising once. *)
Theorem normalize_whitespace_normal (text : string) :
  is_normal (normalize_whitespace text) = true
  /\ normalize_whitespace (normalize_whitespace text) = normalize_whitespace text
  /\ (is_normal text = true -> normalize_whitespace text = text).
Proof.
  split; [apply normalize_is_normal|].
  split; [apply normalize_normal_id, normalize_is_normal | apply normalize_normal_id].
Qed.

(** X23: a URL that [validate_url] accepts has a domain: [extract_domain]
    gives a non-empty text for it, and [log_request] counts the request
    under that very key of the domain histogram.  For a URL on which the
    parser raises, [extract_domain] gives the empty text. *)
Theorem valid_url_has_domain (rt : Runtime) (url : string) :
  (Utils.validate_url rt url = true ->
   extract_domain rt url <> EmptyString
   /\ forall r m,
        Monitoring.req_url r = url ->
        Monitoring.domain_stats (Monitoring.update_metrics rt r m)
          !! extract_domain rt url
        = Some (default 0 (Monitoring.domain_stats m !! extract_domain rt url) + 1))
  /\ (urlparse rt url = None -> extract_domain rt url = EmptyString).
Proof.
  unfold Utils.validate_url, extract_domain. split.
  - destruct (urlparse rt url) as [parsed|] eqn:E; [|discriminate].
    intros H. apply andb_true_iff in H as [_ H]. split.
    + destruct (netloc parsed); [discriminate | discriminate].
    + intros r m Hr. unfold Monitoring.update_metrics. simpl. rewrite Hr, E.
      unfold Monitoring.bump. apply lookup_insert_eq.
  - intros E. rewrite E. reflexivity.
Qed.

End TextProperties.

(** ** examples/monitoring_example.py: MonitoredWebScraper

    A [WebScraper] that owns a [ScrapingMonitor] and rebinds [_make_request]
    to a wrapper that times the original and records its outcome.
    [moment n] is what the [n]-th reading of the clock meets, [wall n] its
    [time.time()]; [content_length r] is [len(r.content)]. *)

Module Monitored.

Import Scraper Monitoring.

Record Timing := {
  moment : nat -> Moment;
  content_length : Response -> Z
}.

Definition wall (tm : Timing) (n : nat) : float := time_time (moment tm n).

Record MonitoredWebScraper := {
  base : WebScraper;
  monitor : ScrapingMonitor;
  ticks : nat;             (* readings of time.time() so far *)
  faults : nat             (* calls of the monitor that raised so far; no
                              attribute of the object, kept to state
                              properties of a run *)
}.

Definition tick (m : MonitoredWebScraper) : MonitoredWebScraper :=
  {| base := base m; monitor := monitor m; ticks := S (ticks m);
     faults := faults m |}.

(** [self.monitor.log_request(...)]; the tracker reads the time when there
    is a tracker. *)
Definition record (rt : Runtime) (tm : Timing) (r : Request) (m : MonitoredWebScraper)
    (s : WebScraper) : MonitoredWebScraper * option PyExn :=
  let '(mon, raised) := log_request rt r (moment tm (ticks m)) (monitor m) in
  ({| base := s; monitor := mon;
      ticks := match progress_tracker (monitor m) with
               | Some _ => S (ticks m)
               | None => ticks m
               end;
      faults := match raised with
                | Some _ => S (faults m)
                | None => faults m
                end |}, raised).

(** The [except Exception as e] branch of the wrapper: the failure is
    recorded and [e] raised again, unless recording raises first. *)
Definition record_failure (rt : Runtime) (tm : Timing) (target : string)
    (start_time : float) (e : PyExn) (m : MonitoredWebScraper) (s : WebScraper)
  : MonitoredWebScraper * Outcome (option Response) :=
  let response_time := (wall tm (ticks m) - start_time)%float in
  let '(m2, raised) :=
    record rt tm
      {| req_url := target; req_success := false; req_status_code := None;
         req_response_time := Some response_time;
         req_error := Some (str_exn e); req_content_size := None |} (tick m) s in
  match raised with
  | Some e' => (m2, Raise e')
  | None => (m2, Raise e)
  end.

(** [monitored_make_request]. *)
Definition monitored_make_request (rt : Runtime) (env : Environment) (tm : Timing)
    (target : string) (m : MonitoredWebScraper) (w : World)
  : MonitoredWebScraper * World * Outcome (option Response) :=
  let start_time := wall tm (ticks m) in
  let m0 := tick m in
  match _make_request env target (base m) w with
  | (s1, w1, Return (Some r)) =>
      let response_time := (wall tm (ticks m0) - start_time)%float in
      let '(m2, raised) :=
        record rt tm
          {| req_url := target; req_success := true;
             req_status_code := Some (resp_status r);
             req_response_time := Some response_time;
             req_error := None;
             req_content_size := Some (content_length tm r) |} (tick m0) s1 in
      match raised with
      | None => (m2, w1, Return (Some r))
      | Some e =>
          let '(m3, out) := record_failure rt tm target start_time e m2 s1 in
          (m3, w1, out)
      end
  | (s1, w1, Return None) =>
      let '(m3, out) :=
        record_failure rt tm target start_time
          (OtherException "'NoneType' object has no attribute 'status_code'")
          m0 s1 in
      (m3, w1, out)
  | (s1, w1, Raise e) =>
      let '(m3, out) := record_failure rt tm target start_time e m0 s1 in
      (m3, w1, out)
  end.

(** [scrape_url] of the subclass: the inherited method, whose call of
    [self._make_request] reaches the wrapper. *)
Definition scrape_url (rt : Runtime) (env : Environment) (tm : Timing)
    (target : string) (m : MonitoredWebScraper) (w : World)
  : MonitoredWebScraper * World * ScrapingResult :=
  if negb (Utils.validate_url rt target) then
    (m, w, failure_result env target w "Invalid URL")
  else
    let fetched :=
      if use_selenium (base m) then
        match _parse_with_selenium env target w with
        | (w1, Return soup) => (m, w1, Return (soup, 200))
        | (w1, Raise e) => (m, w1, Raise e)
        end
      else
        match monitored_make_request rt env tm target m w with
        | (m1, w1, Return (Some r)) => (m1, w1, Return (resp_text r, resp_status r))
        | (m1, w1, Return None) =>
            (m1, w1, Raise (OtherException "'NoneType' object has no attribute 'text'"))
        | (m1, w1, Raise e) => (m1, w1, Raise e)
        end in
    match fetched with
    | (m1, w1, Return (soup, status)) =>
        match run_extractor env (base m1) soup target with
        | Return d => (m1, w1, success_result env target w1 status d)
        | Raise e => (m1, w1, failure_result env target w1 (str_exn e))
        end
    | (m1, w1, Raise e) => (m1, w1, failure_result env target w1 (str_exn e))
    end.

Fixpoint scrape_loop (rt : Runtime) (env : Environment) (tm : Timing)
    (urls : list string) (results : list ScrapingResult)
    (m : MonitoredWebScraper) (w : World)
  : MonitoredWebScraper * World * list ScrapingResult :=
  match urls with
  | [] => (m, w, results)
  | u :: rest =>
      let '(m1, w1, result) := scrape_url rt env tm u m w in
      scrape_loop rt env tm rest (results ++ [result]) m1 w1
  end.

(** [scrape_multiple_urls(urls, monitor_session)]: the session is started
    before the inherited batch and ended after it, in a [finally] clause:
    what [end_session] raises replaces the results. *)
Definition scrape_multiple_urls (rt : Runtime) (env : Environment) (tm : Timing)
    (urls : list string) (monitor_session : bool) (m : MonitoredWebScraper) (w : World)
  : MonitoredWebScraper * World * Outcome (list ScrapingResult) :=
  let started :=
    if monitor_session
    then {| base := base m;
            monitor := start_session (Some (Z.of_nat (List.length urls)))
                         (clock env (List.length (effects w)))
                         (clock env (List.length (effects w))) (monitor m);
            ticks := ticks m; faults := faults m |}
    else m in
  let '(m1, w1, results) := scrape_loop rt env tm urls [] started w in
  if monitor_session then
    let '(mon, raised) :=
      end_session (clock env (List.length (effects w1))) (moment tm (ticks m1))
        (monitor m1) in
    ({| base := base m1; monitor := mon; ticks := ticks m1;
        faults := match raised with
                  | Some _ => S (faults m1)
                  | None => faults m1
                  end |},
     w1,
     match raised with
     | Some e => Raise e
     | None => Return results
     end)
  else (m1, w1, Return results).

End Monitored.

Section MonitoredBatch.

Import Scraper Monitoring.

Variable rt : Runtime.
Variable env : Environment.
Variable tm : Monitored.Timing.

Local Arguments attempt_loop : simpl never.

(** One more success was counted exactly when a response is returned. *)
Definition success_counted (s s1 : WebScraper) (out : Outcome (option Response)) : Prop :=
  Scraper.successful_requests (stats s1)
  = Scraper.successful_requests (stats s)
    + match out with Return (Some _) => 1 | _ => 0 end.

Lemma attempt_loop_outcome target k :
  forall a s w,
    success_counted s (attempt_loop env target k a s w).1.1
      (attempt_loop env target k a s w).2
    /\ (a + Z.of_nat k = max_retries s + 1 -> (0 < k)%nat ->
        (attempt_loop env target k a s w).2 <> Return None).
Proof.
  induction k as [|k IH]; intros a s w.
  - split; [unfold success_counted, attempt_loop; simpl; lia | lia].
  - rewrite attempt_loop_step.
    pose proof (pause_moved_together env s w) as (_ & _ & _ & _ & _ & Pm & _).
    assert (Ps : Scraper.successful_requests (stats (pause env s w).1)
                 = Scraper.successful_requests (stats s))
      by (unfold pause; destruct (float_gt (delay s) 0); reflexivity).
    destruct (pause env s w) as [s1 w1]. simpl in Pm, Ps.
    destruct (get_checked env target w1) as [w2 [r | [m | m]]].
    + split; [unfold success_counted; simpl; lia | discriminate].
    + destruct (Z.eqb_spec a (max_retries s1)) as [E|E].
      * split; [unfold success_counted; simpl; lia | discriminate].
      * destruct (IH (a + 1) s1 (perform (Backoff (2 ^ a)) w2)) as [I1 I2].
        split.
        -- unfold success_counted in *. rewrite I1, Ps. reflexivity.
        -- intros Hak _. apply I2; [lia|]. destruct k; [lia | lia].
    + split; [unfold success_counted; simpl; lia | discriminate].
Qed.

Lemma make_request_outcome target s w :
  moved_together s (_make_request env target s w).1.1
  /\ success_counted s (_make_request env target s w).1.1
       (_make_request env target s w).2
  /\ (0 <= max_retries s -> (_make_request env target s w).2 <> Return None).
Proof.
  unfold _make_request.
  split; [apply attempt_loop_moved_together|].
  destruct (attempt_loop_outcome target (Z.to_nat (max_retries s + 1)) 0 s w)
    as [H1 H2].
  split; [exact H1|]. intros Hmax. apply H2; lia.
Qed.

(** What one record does to the monitored scraper: the request is in the
    metrics whether or not the call raised, and a call that raised is
    counted as a fault. *)
Lemma record_counts (r : Request) (m : Monitored.MonitoredWebScraper) (s : WebScraper) :
  let m' := (Monitored.record rt tm r m s).1 in
  Monitored.base m' = s
  /\ metrics (Monitored.monitor m') = update_metrics rt r (metrics (Monitored.monitor m))
  /\ Monitored.faults m'
     = match (Monitored.record rt tm r m s).2 with
       | Some _ => S (Monitored.faults m)
       | None => Monitored.faults m
       end.
Proof.
  cbv zeta. unfold Monitored.record.
  pose proof (log_request_metrics rt r (Monitored.moment tm (Monitored.ticks m))
                (Monitored.monitor m)) as Hm.
  destruct (log_request rt r _ (Monitored.monitor m)) as [mon raised].
  repeat split. exact Hm.
Qed.

(** What one URL does to the monitored scraper.  The scraper and the world
    are those of the plain [scrape_url]; the metrics hold one record of the
    URL, or two when the record of a success raised; the outcome is the
    plain one when no call of the monitor raised. *)
Definition url_recorded (target : string) (m m1 : Monitored.MonitoredWebScraper)
    (w w1 : World) (result : ScrapingResult) : Prop :=
  (Monitored.base m1, w1) = (Scraper.scrape_url rt env target (Monitored.base m) w).1
  /\ use_selenium (Monitored.base m1) = use_selenium (Monitored.base m)
  /\ max_retries (Monitored.base m1) = max_retries (Monitored.base m)
  /\ (Monitored.faults m <= Monitored.faults m1)%nat
  /\ completions (metrics (Monitored.monitor m))
       + b2z (Utils.validate_url rt target)
     <= completions (metrics (Monitored.monitor m1))
  /\ successful_requests (metrics (Monitored.monitor m1))
     - successful_requests (metrics (Monitored.monitor m))
     = Scraper.successful_requests (stats (Monitored.base m1))
       - Scraper.successful_requests (stats (Monitored.base m))
  /\ (Monitored.faults m1 = Monitored.faults m ->
      completions (metrics (Monitored.monitor m1))
      = completions (metrics (Monitored.monitor m))
        + b2z (Utils.validate_url rt target)
      /\ (0 <= max_retries (Monitored.base m) ->
          result = (Scraper.scrape_url rt env target (Monitored.base m) w).2)).

Lemma monitored_scrape_url_recorded target m w :
  use_selenium (Monitored.base m) = false ->
  url_recorded target m (Monitored.scrape_url rt env tm target m w).1.1 w
    (Monitored.scrape_url rt env tm target m w).1.2
    (Monitored.scrape_url rt env tm target m w).2.
Proof.
  intros Hsel.
  unfold url_recorded, Monitored.scrape_url, Scraper.scrape_url, fetch_document.
  rewrite Hsel. destruct (Utils.validate_url rt target); simpl.
  2: { repeat split; try assumption; try reflexivity; try lia. }
  unfold Monitored.monitored_make_request.
  destruct (make_request_outcome target (Monitored.base m) w)
    as ((_ & _ & _ & _ & Ms & Mr & _) & Hc & Hn).
  unfold success_counted in Hc.
  destruct (_make_request env target (Monitored.base m) w) as [[s1 w1] [[r|] | e]];
    simpl in Ms, Mr, Hc, Hn.
  - match goal with
    | |- context [Monitored.record rt tm ?rq ?m0 s1] =>
        destruct (record_counts rq m0 s1) as (R1 & R2 & R3);
        destruct (Monitored.record rt tm rq m0 s1) as [m2 [e|]]
    end; simpl in R1, R2, R3.
    + unfold Monitored.record_failure.
      match goal with
      | |- context [Monitored.record rt tm ?rq ?m0 s1] =>
          destruct (record_counts rq m0 s1) as (Q1 & Q2 & Q3);
          destruct (Monitored.record rt tm rq m0 s1) as [m3 raised]
      end; simpl in Q1, Q2, Q3.
      assert (Hf : (Monitored.faults m < Monitored.faults m3)%nat)
        by (destruct raised; lia).
      assert (Hm3 : completions (metrics (Monitored.monitor m3))
                    = completions (metrics (Monitored.monitor m)) + 2
                    /\ successful_requests (metrics (Monitored.monitor m3))
                       = successful_requests (metrics (Monitored.monitor m)) + 1).
      { rewrite Q2, R2. unfold completions, update_metrics. simpl. lia. }
      destruct Hm3 as [Hm3 Hs3].
      destruct raised; simpl;
        (destruct (run_extractor env s1 (resp_text r) target); simpl;
         repeat split; rewrite ?Q1;
         first [assumption | lia | congruence | intros Hq; exfalso; lia]).
    + assert (Hx : run_extractor env (Monitored.base m2) (resp_text r) target
                   = run_extractor env s1 (resp_text r) target) by (rewrite R1; reflexivity).
      rewrite Hx.
      assert (Hm2 : completions (metrics (Monitored.monitor m2))
                    = completions (metrics (Monitored.monitor m)) + 1
                    /\ successful_requests (metrics (Monitored.monitor m2))
                       = successful_requests (metrics (Monitored.monitor m)) + 1).
      { rewrite R2. unfold completions, update_metrics. simpl. lia. }
      destruct Hm2 as [Hm2 Hs2].
      destruct (run_extractor env s1 (resp_text r) target); simpl;
        repeat split; rewrite ?R1;
        first [assumption | lia | congruence | reflexivity
              | intros _; split; [lia | intros _; reflexivity]].
  - unfold Monitored.record_failure.
    match goal with
    | |- context [Monitored.record rt tm ?rq ?m0 s1] =>
        destruct (record_counts rq m0 s1) as (Q1 & Q2 & Q3);
        destruct (Monitored.record rt tm rq m0 s1) as [m3 raised]
    end; simpl in Q1, Q2, Q3.
    assert (Hm3 : completions (metrics (Monitored.monitor m3))
                  = completions (metrics (Monitored.monitor m)) + 1
                  /\ successful_requests (metrics (Monitored.monitor m3))
                     = successful_requests (metrics (Monitored.monitor m))).
    { rewrite Q2. unfold completions, update_metrics. simpl. lia. }
    destruct Hm3 as [Hm3 Hs3].
    destruct raised; simpl;
      repeat split; rewrite ?Q1;
      first [assumption | lia | congruence
            | intros Hq; exfalso; lia
            | intros Hmax; exfalso; apply (Hn Hmax); reflexivity].
  - unfold Monitored.record_failure.
    match goal with
    | |- context [Monitored.record rt tm ?rq ?m0 s1] =>
        destruct (record_counts rq m0 s1) as (Q1 & Q2 & Q3);
        destruct (Monitored.record rt tm rq m0 s1) as [m3 raised]
    end; simpl in Q1, Q2, Q3.
    assert (Hm3 : completions (metrics (Monitored.monitor m3))
                  = completions (metrics (Monitored.monitor m)) + 1
                  /\ successful_requests (metrics (Monitored.monitor m3))
                     = successful_requests (metrics (Monitored.monitor m))).
    { rewrite Q2. unfold completions, update_metrics. simpl. lia. }
    destruct Hm3 as [Hm3 Hs3].
    destruct raised; simpl;
      repeat split; rewrite ?Q1;
      first [assumption | lia | congruence | reflexivity
            | intros Hq; exfalso; lia
            | intros _; split; [lia | intros _; reflexivity]].
Qed.

Lemma monitored_scrape_loop_recorded urls :
  forall acc m w,
    use_selenium (Monitored.base m) = false ->
    let '(m1, w1, results) := Monitored.scrape_loop rt env tm urls acc m w in
    (Monitored.base m1, w1) = (Scraper.scrape_loop rt env urls acc (Monitored.base m) w).1
    /\ (Monitored.faults m <= Monitored.faults m1)%nat
    /\ completions (metrics (Monitored.monitor m)) + valid_count rt urls
       <= completions (metrics (Monitored.monitor m1))
    /\ successful_requests (metrics (Monitored.monitor m1))
       - successful_requests (metrics (Monitored.monitor m))
       = Scraper.successful_requests (stats (Monitored.base m1))
         - Scraper.successful_requests (stats (Monitored.base m))
    /\ (Monitored.faults m1 = Monitored.faults m ->
        completions (metrics (Monitored.monitor m1))
        = completions (metrics (Monitored.monitor m)) + valid_count rt urls
        /\ (0 <= max_retries (Monitored.base m) ->
            results = (Scraper.scrape_loop rt env urls acc (Monitored.base m) w).2)).
Proof.
  unfold valid_count.
  induction urls as [|u rest IH]; intros acc m w Hm; simpl.
  - repeat split; try reflexivity; lia.
  - pose proof (monitored_scrape_url_recorded u m w Hm)
      as (U1 & U2 & U3 & U4 & U5 & U6 & U7).
    destruct (Monitored.scrape_url rt env tm u m w) as [[m0 w0] result].
    simpl in U1, U2, U3, U4, U5, U6, U7.
    destruct (Scraper.scrape_url rt env u (Monitored.base m) w) as [[s0 w0'] result'].
    simpl in U1, U7. injection U1 as <- <-.
    specialize (IH (acc ++ [result]) m0 w0 ltac:(congruence)).
    destruct (Monitored.scrape_loop rt env tm rest (acc ++ [result]) m0 w0)
      as [[m1 w1] results].
    destruct IH as (I1 & I2 & I3 & I4 & I5).
    assert (Hb : b2z (Utils.validate_url rt u)
                 = Z.of_nat (List.length (List.filter (Utils.validate_url rt) [u])))
      by (simpl; destruct (Utils.validate_url rt u); reflexivity).
    assert (Hv : Z.of_nat (List.length
                   (List.filter (Utils.validate_url rt) (u :: rest)))
                 = b2z (Utils.validate_url rt u)
                   + Z.of_nat (List.length (List.filter (Utils.validate_url rt) rest)))
      by (simpl; destruct (Utils.validate_url rt u); simpl; lia).
    simpl in Hv. rewrite Hv. clear Hb Hv.
    split; [|split; [lia|split; [lia|split; [lia|]]]].
    + rewrite I1, (scrape_loop_acc rt env rest (acc ++ [result])),
        (scrape_loop_acc rt env rest (acc ++ [result'])). reflexivity.
    + intros Hf.
      assert (Hf0 : Monitored.faults m0 = Monitored.faults m) by lia.
      assert (Hf1 : Monitored.faults m1 = Monitored.faults m0) by lia.
      destruct (U7 Hf0) as [U8 U9]. destruct (I5 Hf1) as [I6 I7].
      split; [lia|]. intros Hmax. rewrite <- (U9 Hmax). apply I7. lia.
Qed.

(** X24: a monitored batch leaves the scraper and the world as the plain
    batch does, records as successful exactly the requests the scraper's own
    statistics count as successful, records each URL that passes validation
    at least once, and has marked the session as ended when it is left.
    When no call of the monitor raised (no progress display, no alert rule,
    no closing line), each such URL is recorded exactly once and, with
    [max_retries] not negative, the batch returns the outcomes of the plain
    batch.  (For a scraper on the transport path.) *)
Theorem monitored_batch_records_each_url (urls : list string)
    (m : Monitored.MonitoredWebScraper) (w : World) :
  use_selenium (Monitored.base m) = false ->
  let '(m', w', out) := Monitored.scrape_multiple_urls rt env tm urls true m w in
  let plain := Scraper.scrape_multiple_urls rt env urls (Monitored.base m) w in
  (Monitored.base m', w') = plain.1
  /\ successful_requests (metrics (Monitored.monitor m'))
     = Scraper.successful_requests (stats (Monitored.base m'))
       - Scraper.successful_requests (stats (Monitored.base m))
  /\ is_Some (end_time (metrics (Monitored.monitor m')))
  /\ valid_count rt urls <= completions (metrics (Monitored.monitor m'))
  /\ (Monitored.faults m' = Monitored.faults m ->
      completions (metrics (Monitored.monitor m')) = valid_count rt urls
      /\ (0 <= max_retries (Monitored.base m) -> out = Return plain.2)).
Proof.
  intros Hsel. unfold Monitored.scrape_multiple_urls, Scraper.scrape_multiple_urls.
  match goal with
  | |- context [Monitored.scrape_loop rt env tm urls [] ?m0 w] =>
      pose proof (monitored_scrape_loop_recorded urls [] m0 w Hsel) as H;
      destruct (Monitored.scrape_loop rt env tm urls [] m0 w) as [[m1 w1] results]
  end.
  destruct H as (H1 & H2 & H3 & H4 & H5). simpl in H1, H2, H3, H4, H5.
  unfold completions in *. simpl in H3, H5.
  match goal with
  | |- context [end_session ?now ?mt (Monitored.monitor m1)] =>
      pose proof (end_session_counts now mt (Monitored.monitor m1)) as [C1 C2];
      pose proof (end_session_end_time now mt (Monitored.monitor m1)) as C3;
      destruct (end_session now mt (Monitored.monitor m1)) as [mon raised]
  end.
  simpl in C1, C2, C3. cbv zeta. simpl.
  split; [exact H1|]. split; [lia|]. split; [rewrite C3; eexists; reflexivity|].
  split; [lia|].
  intros Hf.
  assert (Hq : raised = None /\ Monitored.faults m1 = Monitored.faults m)
    by (destruct raised; [lia | split; [reflexivity | exact Hf]]).
  destruct Hq as [-> Hf1]. destruct (H5 Hf1) as [H6 H7].
  split; [lia|]. intros Hmax. rewrite (H7 Hmax). reflexivity.
Qed.

End MonitoredBatch.

(** ** Worked instances of the further properties *)

Module Cases.

Import Scraper.

(** A network whose first [k] requests are reset and which answers the
    others. *)
Definition flaky_network (k : nat) : Environment :=
  {| uniform := fun _ a b => b;
     session_get := fun n _ =>
       if (n <? k)%nat then GetRaised (RequestException "connection reset")
       else Got (Demo.page 200);
     selenium_source := fun _ _ => Return "<html></html>"%string;
     default_extract := fun _ target => Return [("url"%string, VStr target)];
     aio_get := fun _ _ => Got (Demo.page 200);
     clock := fun n => Z.of_nat n |}.

(** A transport that raises something that is not a RequestException. *)
Definition broken_transport : Environment :=
  {| uniform := fun _ a b => b;
     session_get := fun _ _ => GetRaised (OtherException "unexpected keyword");
     selenium_source := fun _ _ => Raise (OtherException "no driver");
     default_extract := fun _ _ => Return [];
     aio_get := fun _ _ => GetRaised (OtherException "unexpected keyword");
     clock := fun n => Z.of_nat n |}.

Definition failing_extractor (soup : string) : Outcome PyDict :=
  Raise (OtherException "no title").

Definition browser_scraper : WebScraper := new_scraper 1 3 30 true.

Import Monitoring.

(** A monitor whose memory threshold a client has set below zero. *)
Definition touchy_monitor : ScrapingMonitor :=
  {| name := "touchy"; metrics := new_metrics 0;
     performance_monitor := new_performance_monitor 5;
     progress_tracker := None; alerts := [];
     error_rate_threshold := 20; response_time_threshold := 10;
     memory_threshold := (-1)%float |}.

(** A clock that advances by one second per reading, at a console that
    prints ([refuses = None]) or that answers every [print] by [refuses]. *)
Definition timing (refuses : option PyExn) : Monitored.Timing :=
  {| Monitored.moment := fun n =>
       {| time_time := float_of_int (1700000000 + Z.of_nat n);
          datetime_now := (1700000000 + Z.of_nat n) * 1000000;
          console := fun _ => refuses |};
     Monitored.content_length := fun r => Z.of_nat (String.length (resp_text r)) |}.

Definition monitored (s : WebScraper) : Monitored.MonitoredWebScraper :=
  {| Monitored.base := s; Monitored.monitor := new_monitor "monitored_session" 0;
     Monitored.ticks := 0; Monitored.faults := 0 |}.

Definition samples (n : nat) : list Sample :=
  map (fun i => Demo.sample (float_of_int (Z.of_nat i))) (seq 0 n).

End Cases.

(** A batch of three URLs on a network that resets the first request: the
    first URL fails, the second is rejected, the third is answered. *)
Lemma stats_count_only_successes_witness :
  let s' := (Scraper.scrape_multiple_urls Demo.runtime (Cases.flaky_network 1)
               ["https://example.com/a"; "not-a-url"; "https://example.com/b"]%string
               (Demo.scraper 0 0) Scraper.new_world).1.1 in
  Scraper.requests_made (Scraper.stats s') = 1
  /\ Scraper.successful_requests (Scraper.stats s') = 1
  /\ Scraper.failed_requests (Scraper.stats s') = 1
  /\ Scraper.success_rate (Scraper.get_stats s') = 100%float.
Proof.
  cbv zeta.
  destruct (stats_count_only_successes Demo.runtime (Cases.flaky_network 1)
              ["https://example.com/a"; "not-a-url"; "https://example.com/b"]%string
              (Demo.scraper 0 0) Scraper.new_world) as (_ & _ & _ & _ & H).
  destruct (H eq_refl) as (H1 & H2 & H3 & H4).
  rewrite H4, H1, H2, H3. vm_compute. repeat split.
Defined.

Lemma retry_succeeds_after_failures_witness :
  let '(s', w', out) :=
    Scraper._make_request (Cases.flaky_network 2) "https://example.com/"
      (Demo.scraper 1 3) Scraper.new_world in
  out = Return (Some (Demo.page 200))
  /\ Scraper.effects w'
     = [Scraper.Sleep 1.5; Scraper.HttpGet "https://example.com/"; Scraper.Backoff 1;
        Scraper.Sleep 1.5; Scraper.HttpGet "https://example.com/"; Scraper.Backoff 2;
        Scraper.Sleep 1.5; Scraper.HttpGet "https://example.com/"]
  /\ Scraper.stats s'
     = {| Scraper.requests_made := 1; Scraper.successful_requests := 1;
          Scraper.failed_requests := 0; Scraper.total_delay_time := 4.5 |}.
Proof.
  assert (Hfail : forall i, (i < 2)%nat ->
            fails_at (Cases.flaky_network 2) "https://example.com/"
              (Scraper.requests Scraper.new_world + i)).
  { intros [|[|i]] Hi; [exact I | exact I | lia]. }
  pose proof (retry_succeeds_after_failures (Cases.flaky_network 2)
                "https://example.com/" (Demo.scraper 1 3) Scraper.new_world 3 2
                (Demo.page 200) eq_refl ltac:(lia) eq_refl Hfail eq_refl eq_refl) as T.
  destruct (Scraper._make_request _ _ _ _) as [[s' w'] out].
  destruct T as (-> & E & _ & T1 & T2 & T3 & T4).
  split; [reflexivity|]. split; [rewrite E; vm_compute; reflexivity|].
  destruct s' as [? ? ? ? ? [rm sr fr td]]. simpl in *. subst. vm_compute. reflexivity.
Defined.

Lemma other_exception_not_retried_witness :
  let '(s', w', out) :=
    Scraper._make_request Cases.broken_transport "https://example.com/"
      (Demo.scraper 1 3) Scraper.new_world in
  out = Raise (OtherException "unexpected keyword")
  /\ Scraper.requests w' = 1%nat
  /\ Scraper.failed_requests (Scraper.stats s') = 0.
Proof.
  pose proof (other_exception_not_retried Cases.broken_transport
                "https://example.com/" (Demo.scraper 1 3) Scraper.new_world 3 0
                "unexpected keyword" eq_refl ltac:(lia) eq_refl
                ltac:(intros i Hi; lia) eq_refl) as T.
  destruct (Scraper._make_request _ _ _ _) as [[s' w'] out].
  destruct T as (-> & _ & E & _ & _ & F). repeat split; assumption.
Defined.

Lemma negative_retries_never_request_witness :
  Scraper.scrape_url Demo.runtime (Demo.network_answering 200) "https://example.com/"
    (Demo.scraper 1 (-1)) Scraper.new_world
  = (Demo.scraper 1 (-1), Scraper.new_world,
     Scraper.failure_result (Demo.network_answering 200) "https://example.com/"
       Scraper.new_world "'NoneType' object has no attribute 'text'").
Proof.
  apply (negative_retries_never_request Demo.runtime (Demo.network_answering 200));
    [vm_compute; reflexivity | reflexivity | vm_compute; reflexivity].
Defined.

Lemma no_delay_no_pause_witness :
  let '(s', w', _) :=
    Scraper.scrape_multiple_urls Demo.runtime (Cases.flaky_network 1)
      ["https://example.com/a"; "https://example.com/b"]%string
      (Demo.scraper 0 2) Scraper.new_world in
  Scraper.total_delay_time (Scraper.stats s') = 0%float
  /\ Scraper.draws w' = 0%nat.
Proof.
  pose proof (no_delay_no_pause Demo.runtime (Cases.flaky_network 1)
                ["https://example.com/a"; "https://example.com/b"]%string
                (Demo.scraper 0 2) Scraper.new_world eq_refl) as T.
  destruct (Scraper.scrape_multiple_urls _ _ _ _ _) as [[s' w'] results].
  destruct T as (T1 & T2 & _). split; assumption.
Defined.

Lemma extractor_failure_after_counted_success_witness :
  let '(s', w', result) :=
    Scraper.scrape_url Demo.runtime (Demo.network_answering 200) "https://example.com/"
      (Scraper.set_custom_extractor Cases.failing_extractor (Demo.scraper 0 0))
      Scraper.new_world in
  Scraper.success result = false
  /\ Scraper.error_message result = Some "no title"%string
  /\ Scraper.successful_requests (Scraper.stats s') = 1.
Proof.
  pose proof (extractor_failure_after_counted_success Demo.runtime
                (Demo.network_answering 200) "https://example.com/"
                (Scraper.set_custom_extractor Cases.failing_extractor (Demo.scraper 0 0))
                Scraper.new_world (Demo.page 200) (OtherException "no title")
                eq_refl eq_refl ltac:(simpl; lia) eq_refl eq_refl eq_refl) as T.
  destruct (Scraper.scrape_url _ _ _ _ _) as [[s' w'] result].
  destruct T as (T1 & _ & T3 & _ & _ & T6 & _). repeat split; assumption.
Defined.

Lemma selenium_batch_bypasses_requests_witness :
  let '(s', w', results) :=
    Scraper.scrape_multiple_urls Demo.runtime (Demo.network_answering 500)
      ["https://example.com/a"; "not-a-url"]%string
      Cases.browser_scraper Scraper.new_world in
  s' = Cases.browser_scraper /\ Scraper.requests w' = 0%nat.
Proof.
  pose proof (selenium_batch_bypasses_requests Demo.runtime (Demo.network_answering 500)
                ["https://example.com/a"; "not-a-url"]%string
                Cases.browser_scraper Scraper.new_world eq_refl) as T.
  destruct (Scraper.scrape_multiple_urls _ _ _ _ _) as [[s' w'] results].
  destruct T as (T1 & T2 & _). split; assumption.
Defined.

Lemma in_flight_bounded_witness :
  let b := AsyncScraper.run Demo.runtime (Demo.network_answering 200)
             (Demo.async_scraper 2) [0; 1; 2; 2; 0; 1]%nat
             (AsyncScraper.spawn (Demo.async_scraper 2)
                ["http://a.example/"; "http://b.example/"; "http://c.example/"]%string) in
  Z.of_nat (in_flight b) <= 2 /\ in_flight b = 2%nat.
Proof.
  split; [|vm_compute; reflexivity].
  apply (in_flight_bounded Demo.runtime (Demo.network_answering 200)
           (Demo.async_scraper 2)). simpl. lia.
Defined.

Lemma one_request_per_url_witness :
  let b := AsyncScraper.run Demo.runtime (Demo.network_answering 200)
             (Demo.async_scraper 2) [2; 0; 1; 2; 0; 0; 1; 2; 1; 1; 1]%nat
             (AsyncScraper.spawn (Demo.async_scraper 2)
                ["http://a.example/"; "http://b.example/"; "http://c.example/"]%string) in
  AsyncScraper.issued b = 3%nat /\ AsyncScraper.permits b = 2.
Proof.
  cbv zeta.
  assert (H : is_Some (AsyncScraper.scrape_multiple_async Demo.runtime
                         (Demo.network_answering 200) (Demo.async_scraper 2)
                         ["http://a.example/"; "http://b.example/"; "http://c.example/"]%string
                         [2; 0; 1; 2; 0; 0; 1; 2; 1; 1; 1]%nat))
    by (vm_compute; eexists; reflexivity).
  destruct H as [outs H].
  destruct (one_request_per_url Demo.runtime (Demo.network_answering 200)
              (Demo.async_scraper 2) _ _ outs ltac:(simpl; lia) H)
    as (T1 & _ & _ & _ & _ & T6).
  split; assumption.
Defined.

Lemma negative_memory_threshold_raises_witness :
  (Monitoring.log_request Demo.runtime
     (Demo.request_ok "https://example.com/x" None) Demo.moment Cases.touchy_monitor).2
  = Some (OtherException "'avg_memory_percent'").
Proof.
  apply (proj1 (proj2 (proj2 (negative_memory_threshold_raises Demo.runtime
                                (Demo.request_ok "https://example.com/x" None)
                                Demo.moment Cases.touchy_monitor eq_refl eq_refl)))).
  reflexivity.
Defined.

(** After [start_session(10 ** 19)], the first request, recorded twenty
    microseconds later, makes the display estimate 2e14 seconds, which no
    [timedelta] holds. *)
Lemma record_raises_only_from_display_witness :
  (Monitoring.log_request Demo.runtime
     (Demo.request_ok "https://example.com/x" None) Demo.moment
     (Monitoring.run_ops Demo.runtime
        [Monitoring.StartSession (Some 10000000000000000000) 0 1699999999999980]
        (Monitoring.new_monitor "demo" 0))).2
  = Some (OtherException "Python int too large to convert to C int").
Proof.
  rewrite (proj1 (record_raises_only_from_display Demo.runtime
                    [Monitoring.StartSession (Some 10000000000000000000) 0
                       1699999999999980]
                    "demo" 0 (Demo.request_ok "https://example.com/x" None)
                    Demo.moment)).
  vm_compute. reflexivity.
Defined.

(** Closing a session at a console that refuses the progress line: the
    exception leaves [end_session] with the sampler still running. *)
Lemma end_session_raises_before_stopping_witness :
  let refused := OtherException "'ascii' codec can't encode character" in
  let '(mon', raised) :=
    Monitoring.end_session 1700000005000000
      (Monitored.moment (Cases.timing (Some refused)) 5) Demo.fresh_monitor in
  raised = Some refused
  /\ Monitoring.monitoring (Monitoring.performance_monitor mon') = true
  /\ Monitoring.end_time (Monitoring.metrics mon') = Some 1700000005000000.
Proof.
  cbv zeta.
  pose proof (end_session_raises_before_stopping 1700000005000000
                (Monitored.moment
                   (Cases.timing
                      (Some (OtherException "'ascii' codec can't encode character"))) 5)
                Demo.fresh_monitor) as T.
  destruct (Monitoring.end_session _ _ _) as [mon' raised].
  destruct T as (T1 & T2 & _ & _ & _ & _ & T7).
  assert (R : raised = Some (OtherException "'ascii' codec can't encode character"))
    by (rewrite T1; vm_compute; reflexivity).
  split; [exact R|]. split; [|exact T2].
  apply (proj2 (T7 ltac:(rewrite R; eexists; reflexivity)) (Some 20) 0 0
           (Monitoring.new_monitor "demo" 0)).
  reflexivity.
Defined.

Lemma tracker_matches_metrics_witness :
  tracker_agrees
    (Monitoring.run_ops Demo.runtime (Demo.failures 3 ++ Demo.one_success None)
       (Monitoring.start_session (Some 20) 0 0 (Monitoring.new_monitor "demo" 0))).
Proof.
  apply tracker_matches_metrics; [lia | reflexivity].
Defined.

Lemma success_rate_extremes_witness :
  Monitoring.success_rate
    (Monitoring.metrics
       (Monitoring.run_ops Demo.runtime (Demo.one_success None) Demo.fresh_monitor))
  = 100%float.
Proof.
  apply (proj2 (proj2 (success_rate_extremes _))); vm_compute; reflexivity.
Defined.

Lemma current_stats_window_witness :
  averages <$> Monitoring.get_current_stats Demo.runtime
                 {| Monitoring.interval := 5; Monitoring.monitoring := true;
                    Monitoring.metrics_history := Cases.samples 12 |}
  = averages <$> Monitoring.get_current_stats Demo.runtime
                   {| Monitoring.interval := 5; Monitoring.monitoring := true;
                      Monitoring.metrics_history := drop 2 (Cases.samples 12) |}.
Proof.
  apply (proj2 (proj2 (current_stats_window Demo.runtime
           {| Monitoring.interval := 5; Monitoring.monitoring := true;
              Monitoring.metrics_history := Cases.samples 12 |}))
           (take 2 (Cases.samples 12)) (drop 2 (Cases.samples 12)));
    reflexivity.
Defined.

Lemma safe_filename_safe_witness :
  TextUtils.safe_filename "report_2024.json" = "report_2024.json"%string.
Proof.
  apply (proj2 (proj2 (proj2 (safe_filename_safe "report_2024.json"))));
    [reflexivity | simpl; lia].
Defined.

Lemma truncate_text_length_witness :
  Z.of_nat (String.length (TextUtils.truncate_text "hello world" 8)) = 8
  /\ 2 < Z.of_nat (String.length (TextUtils.truncate_text "abcdef" 2)).
Proof.
  split.
  - apply (proj1 (proj2 (truncate_text_length "hello world" 8))); simpl; lia.
  - apply (proj2 (proj2 (truncate_text_length "abcdef" 2))); simpl; lia.
Defined.

Lemma normalize_whitespace_normal_witness :
  TextUtils.normalize_whitespace "a b c" = "a b c"%string.
Proof.
  apply (proj2 (proj2 (normalize_whitespace_normal "a b c"))). reflexivity.
Defined.

Lemma valid_url_has_domain_witness :
  TextUtils.extract_domain Demo.runtime "https://example.com/a" <> EmptyString.
Proof.
  apply (proj1 (valid_url_has_domain Demo.runtime "https://example.com/a")).
  reflexivity.
Defined.

Lemma monitored_batch_records_each_url_witness :
  let '(m', w', out) :=
    Monitored.scrape_multiple_urls Demo.runtime (Cases.flaky_network 3)
      (Cases.timing None)
      ["https://example.com/a"; "not-a-url"; "https://example.com/b"]%string true
      (Cases.monitored (Demo.scraper 0 1)) Scraper.new_world in
  Monitored.faults m' = 0%nat
  /\ completions (Monitoring.metrics (Monitored.monitor m')) = 2
  /\ Monitoring.successful_requests (Monitoring.metrics (Monitored.monitor m')) = 1
  /\ out = Return (Scraper.scrape_multiple_urls Demo.runtime (Cases.flaky_network 3)
                     ["https://example.com/a"; "not-a-url"; "https://example.com/b"]%string
                     (Demo.scraper 0 1) Scraper.new_world).2.
Proof.
  pose proof (monitored_batch_records_each_url Demo.runtime (Cases.flaky_network 3)
                (Cases.timing None)
                ["https://example.com/a"; "not-a-url"; "https://example.com/b"]%string
                (Cases.monitored (Demo.scraper 0 1)) Scraper.new_world
                eq_refl) as T.
  assert (F : Monitored.faults
                (Monitored.scrape_multiple_urls Demo.runtime (Cases.flaky_network 3)
                   (Cases.timing None)
                   ["https://example.com/a"; "not-a-url"; "https://example.com/b"]%string
                   true (Cases.monitored (Demo.scraper 0 1)) Scraper.new_world).1.1
              = 0%nat) by (vm_compute; reflexivity).
  destruct (Monitored.scrape_multiple_urls _ _ _ _ _ _ _) as [[m' w'] out].
  simpl in F. cbv zeta in T. destruct T as (T1 & T2 & _ & _ & T5).
  destruct (T5 F) as [T6 T7]. specialize (T7 ltac:(simpl; lia)).
  split; [exact F|]. split; [rewrite T6; reflexivity|].
  split; [|exact T7].
  rewrite T2.
  change (Monitored.base m') with (Monitored.base m', w').1. rewrite T1.
  vm_compute. reflexivity.
Defined.

(** The same batch at a console that cannot encode the progress line: the
    record of the request that succeeded raises, so that request is recorded
    a second time as a failure and its outcome is a failure; the two records
    of failures raise too, and so does closing the session, which is how
    the batch is left. *)
Example monitored_batch_console_refuses_ex :
  let '(m', w', out) :=
    Monitored.scrape_multiple_urls Demo.runtime (Cases.flaky_network 3)
      (Cases.timing (Some (OtherException "'ascii' codec can't encode character")))
      ["https://example.com/a"; "not-a-url"; "https://example.com/b"]%string true
      (Cases.monitored (Demo.scraper 0 1)) Scraper.new_world in
  Monitored.faults m' = 4%nat
  /\ completions (Monitoring.metrics (Monitored.monitor m')) = 3
  /\ Monitoring.successful_requests (Monitoring.metrics (Monitored.monitor m')) = 1
  /\ Scraper.successful_requests (Scraper.stats (Monitored.base m')) = 1
  /\ out = Raise (OtherException "'ascii' codec can't encode character").
Proof. vm_compute. repeat split. Qed.
